(** * LED grid controller: protocol / render engine of the UART firmware

    Shallow embedding of the ESP32-S3 UART LED controller firmware
    (8 strips, USB-CDC framed byte stream): the layout/address mapper
    [logical_to_physical], the command dispatcher [process_command] and the
    framed-stream packet reader of [loop].

    Conventions.
    - Fixed-width unsigned integers are [Z] values; every place where the
      C++ code narrows a value to [uint8_t], [uint16_t] or [uint32_t] is
      written out with [wrap8], [wrap16], [wrap32].
    - Bytes of a command buffer are [Byte.byte]; [byte_to_Z] reads one as a
      number.
    - The render buffer [leds] is a list indexed by physical offset.  An
      access outside the declared capacity of an array (undefined behaviour
      in C++) makes the enclosing computation return [None].
    - Diagnostic text written with [Serial.printf]/[Serial.println], the
      [micros()] timing of [FastLED.show()] and the periodic statistics
      report are not part of the model; protocol responses, echoes and
      hardware actions are recorded in the output trace [serial_out]. *)

From Stdlib Require Import ZArith Lia Strings.Byte Strings.String.
From stdpp Require Import base tactics option list numbers.

Local Open Scope Z_scope.

(** ** Fixed-width arithmetic *)

Definition wrap8 (x : Z) : Z := x mod 2 ^ 8.
Definition wrap16 (x : Z) : Z := x mod 2 ^ 16.
Definition wrap32 (x : Z) : Z := x mod 2 ^ 32.

Definition byte_to_Z (b : byte) : Z := Z.of_N (Byte.to_N b).

(** ** LED configuration (8 strips) *)

Definition MAX_STRIPS : Z := 8.
Definition MAX_LEDS_PER_STRIP : Z := 500.
Definition MAX_TOTAL_LEDS : Z := wrap16 (MAX_STRIPS * MAX_LEDS_PER_STRIP).

Definition DEFAULT_STRIPS : Z := 8.
Definition DEFAULT_LEDS_PER_STRIP : Z := 140.

(** ** UART protocol definitions *)

Definition CMD_SET_PIXEL : Z := 0x01.
Definition CMD_SET_BRIGHTNESS : Z := 0x02.
Definition CMD_SHOW : Z := 0x03.
Definition CMD_CLEAR : Z := 0x04.
Definition CMD_SET_RANGE : Z := 0x05.
Definition CMD_SET_ALL : Z := 0x06.
Definition CMD_CONFIG : Z := 0x07.
Definition CMD_ECHO : Z := 0xFE.
Definition CMD_PING : Z := 0xFF.

Definition PACKET_START : Z := 0xAA.
Definition PACKET_END : Z := 0x55.
Definition MAX_PACKET_SIZE : Z := 1 + MAX_TOTAL_LEDS * 3.

Definition RESP_OK : Z := 0x00.
Definition RESP_ERROR : Z := 0x01.
Definition RESP_STATUS : Z := 0x02.

(** ** Pixels, output trace and engine state *)

Record CRGB := mkCRGB { red : byte; green : byte; blue : byte }.

Definition Black : CRGB := mkCRGB x00 x00 x00.

(** What the firmware sends or drives, in order. [Response] is one call of
    [send_response]; [Echo] is the framed reply of CMD_ECHO; [FastLED_show] is
    [FastLED.show()]. *)
Inductive event :=
| Response (code : Z) (message : option string)
| Echo (payload : list byte)
| FastLED_show
| SetBrightness (level : Z)
| ToggleStatusLed.

(** The file-scope variables of the firmware. *)
Record engine := mkEngine {
  leds : list CRGB;                  (* CRGB leds[MAX_TOTAL_LEDS] *)
  active_strips : Z;                 (* uint8_t  *)
  leds_per_strip : Z;                (* uint16_t *)
  total_leds : Z;                    (* uint16_t *)
  global_brightness : Z;             (* uint8_t  *)
  packets_received : Z;              (* uint32_t *)
  frames_rendered : Z;               (* uint32_t *)
  packet_errors : Z;                 (* uint32_t *)
  config_commands_received : Z;      (* uint32_t *)
  set_all_commands_received : Z;     (* uint32_t *)
  total_bytes_received : Z;          (* uint32_t *)
  debug_logging : bool;
  serial_out : list event
}.

Definition set_leds (l : list CRGB) (s : engine) : engine :=
  mkEngine l (active_strips s) (leds_per_strip s) (total_leds s)
    (global_brightness s) (packets_received s) (frames_rendered s)
    (packet_errors s) (config_commands_received s)
    (set_all_commands_received s) (total_bytes_received s)
    (debug_logging s) (serial_out s).

Definition set_config (strips len total : Z) (s : engine) : engine :=
  mkEngine (leds s) strips len total
    (global_brightness s) (packets_received s) (frames_rendered s)
    (packet_errors s) (config_commands_received s)
    (set_all_commands_received s) (total_bytes_received s)
    (debug_logging s) (serial_out s).

Definition set_global_brightness (v : Z) (s : engine) : engine :=
  mkEngine (leds s) (active_strips s) (leds_per_strip s) (total_leds s)
    v (packets_received s) (frames_rendered s)
    (packet_errors s) (config_commands_received s)
    (set_all_commands_received s) (total_bytes_received s)
    (debug_logging s) (serial_out s).

Definition incr_packets_received (s : engine) : engine :=
  mkEngine (leds s) (active_strips s) (leds_per_strip s) (total_leds s)
    (global_brightness s) (wrap32 (packets_received s + 1)) (frames_rendered s)
    (packet_errors s) (config_commands_received s)
    (set_all_commands_received s) (total_bytes_received s)
    (debug_logging s) (serial_out s).

Definition incr_frames_rendered (s : engine) : engine :=
  mkEngine (leds s) (active_strips s) (leds_per_strip s) (total_leds s)
    (global_brightness s) (packets_received s) (wrap32 (frames_rendered s + 1))
    (packet_errors s) (config_commands_received s)
    (set_all_commands_received s) (total_bytes_received s)
    (debug_logging s) (serial_out s).

Definition incr_packet_errors (s : engine) : engine :=
  mkEngine (leds s) (active_strips s) (leds_per_strip s) (total_leds s)
    (global_brightness s) (packets_received s) (frames_rendered s)
    (wrap32 (packet_errors s + 1)) (config_commands_received s)
    (set_all_commands_received s) (total_bytes_received s)
    (debug_logging s) (serial_out s).

Definition incr_config_commands (s : engine) : engine :=
  mkEngine (leds s) (active_strips s) (leds_per_strip s) (total_leds s)
    (global_brightness s) (packets_received s) (frames_rendered s)
    (packet_errors s) (wrap32 (config_commands_received s + 1))
    (set_all_commands_received s) (total_bytes_received s)
    (debug_logging s) (serial_out s).

Definition incr_set_all_commands (s : engine) : engine :=
  mkEngine (leds s) (active_strips s) (leds_per_strip s) (total_leds s)
    (global_brightness s) (packets_received s) (frames_rendered s)
    (packet_errors s) (config_commands_received s)
    (wrap32 (set_all_commands_received s + 1)) (total_bytes_received s)
    (debug_logging s) (serial_out s).

Definition add_bytes_received (n : Z) (s : engine) : engine :=
  mkEngine (leds s) (active_strips s) (leds_per_strip s) (total_leds s)
    (global_brightness s) (packets_received s) (frames_rendered s)
    (packet_errors s) (config_commands_received s)
    (set_all_commands_received s) (wrap32 (total_bytes_received s + n))
    (debug_logging s) (serial_out s).

Definition set_debug_logging (d : bool) (s : engine) : engine :=
  mkEngine (leds s) (active_strips s) (leds_per_strip s) (total_leds s)
    (global_brightness s) (packets_received s) (frames_rendered s)
    (packet_errors s) (config_commands_received s)
    (set_all_commands_received s) (total_bytes_received s)
    d (serial_out s).

Definition emit (e : event) (s : engine) : engine :=
  mkEngine (leds s) (active_strips s) (leds_per_strip s) (total_leds s)
    (global_brightness s) (packets_received s) (frames_rendered s)
    (packet_errors s) (config_commands_received s)
    (set_all_commands_received s) (total_bytes_received s)
    (debug_logging s) (serial_out s ++ [e]).

(** [send_response(code, message)]: one framed response on the wire. *)
Definition send_response (code : Z) (message : string) (s : engine) : engine :=
  emit (Response code (Some message)) s.

(** [FastLED.show()]. *)
Definition show (s : engine) : engine := emit FastLED_show s.

(** ** Layout / address mapper *)

(** [logical_to_physical]: the parameter and both locals are [uint16_t];
    the product and sum are computed in [int] and narrowed on return.
    The operands of [/] and [%] are non-negative, so C++ truncation and
    [Z.div]/[Z.modulo] agree; [leds_per_strip] is never zero in a legal
    configuration. *)
Definition logical_to_physical (s : engine) (logical : Z) : Z :=
  let strip := wrap16 (logical / leds_per_strip s) in
  let offset := wrap16 (logical mod leds_per_strip s) in
  let '(strip, offset) :=
    if active_strips s <=? strip
    then (wrap16 (active_strips s - 1), wrap16 (leds_per_strip s - 1))
    else (strip, offset) in
  wrap16 (strip * MAX_LEDS_PER_STRIP + offset).

(** ** Array accesses *)

(** [leds[i] = c]; [None] when [i] is outside [leds[MAX_TOTAL_LEDS]]. *)
Definition write_led (i : Z) (c : CRGB) (l : list CRGB) : option (list CRGB) :=
  if (0 <=? i) && (i <? MAX_TOTAL_LEDS)
  then Some (<[Z.to_nat i := c]> l)
  else None.

(** [data[i]] for a buffer of [length data] bytes; [None] past its end. *)
Definition read_byte (data : list byte) (i : Z) : option byte :=
  if 0 <=? i then data !! Z.to_nat i else None.

(** [CRGB(data[base], data[base + 1], data[base + 2])]. *)
Definition read_rgb (data : list byte) (base : Z) : option CRGB :=
  r ← read_byte data base;
  g ← read_byte data (base + 1);
  b ← read_byte data (base + 2);
  Some (mkCRGB r g b).

(** [for (T i = lo; i < hi; ++i) body], for bounds that fit the counter
    type [T]: [n] iterations starting at [i]. *)
Fixpoint for_range {S : Type} (body : Z -> S -> option S)
    (n : nat) (i : Z) (s : S) : option S :=
  match n with
  | O => Some s
  | Datatypes.S n' =>
      match body i s with
      | Some s' => for_range body n' (i + 1) s'
      | None => None
      end
  end.

Definition for_loop {S : Type} (lo hi : Z) (body : Z -> S -> option S)
    (s : S) : option S :=
  for_range body (Z.to_nat (hi - lo)) lo s.

(** ** Command handlers: the cases of the [switch] in [process_command] *)

Definition cmd_echo (data : list byte) (s : engine) : option engine :=
  Some (emit (Echo data) s).

Definition cmd_ping (s : engine) : option engine :=
  Some (send_response RESP_OK "PONG" (emit ToggleStatusLed s)).

Definition cmd_set_pixel (data : list byte) (s : engine) : option engine :=
  let len := Z.of_nat (length data) in
  if len <? 6 then Some s else
  d1 ← read_byte data 1;
  d2 ← read_byte data 2;
  let pixel := wrap16 (Z.lor (Z.shiftl (byte_to_Z d1) 8) (byte_to_Z d2)) in
  r ← read_byte data 3;
  g ← read_byte data 4;
  b ← read_byte data 5;
  if pixel <? total_leds s then
    l ← write_led (logical_to_physical s pixel) (mkCRGB r g b) (leds s);
    Some (set_leds l s)
  else Some s.

Definition cmd_set_brightness (data : list byte) (s : engine) : option engine :=
  let len := Z.of_nat (length data) in
  if len <? 2 then Some s else
  d1 ← read_byte data 1;
  let s := set_global_brightness (byte_to_Z d1) s in
  Some (emit (SetBrightness (global_brightness s)) s).

Definition cmd_show (s : engine) : option engine := Some (show s).

Definition cmd_clear (s : engine) : option engine :=
  l ← for_loop 0 (active_strips s) (fun strip l =>
         for_loop 0 MAX_LEDS_PER_STRIP (fun offset l =>
           write_led (strip * MAX_LEDS_PER_STRIP + offset) Black l) l)
       (leds s);
  Some (show (set_leds l s)).

(** The body of the [for (uint8_t i = 0; i < count; ++i)] loop of
    CMD_SET_RANGE, with its [break]. *)
Fixpoint set_range_loop (data : list byte) (s : engine) (start : Z)
    (n : nat) (i : Z) (l : list CRGB) : option (list CRGB) :=
  match n with
  | O => Some l
  | Datatypes.S n' =>
      let logical := wrap16 (start + i) in
      if total_leds s <=? logical then Some l
      else
        let base := 4 + i * 3 in
        c ← read_rgb data base;
        l' ← write_led (logical_to_physical s logical) c l;
        set_range_loop data s start n' (i + 1) l'
  end.

Definition cmd_set_range (data : list byte) (s : engine) : option engine :=
  let len := Z.of_nat (length data) in
  if len <? 4 then Some s else
  d1 ← read_byte data 1;
  d2 ← read_byte data 2;
  let start := wrap16 (Z.lor (Z.shiftl (byte_to_Z d1) 8) (byte_to_Z d2)) in
  if total_leds s <=? start then Some s else
  d3 ← read_byte data 3;
  let count := byte_to_Z d3 in
  let expected := 4 + count * 3 in
  if len <? expected then Some s else
  let count :=
    if total_leds s <? start + count then wrap8 (total_leds s - start)
    else count in
  l ← set_range_loop data s start (Z.to_nat count) 0 (leds s);
  Some (set_leds l s).

Definition cmd_set_all (data : list byte) (s : engine) : option engine :=
  let len := Z.of_nat (length data) in
  let s := incr_set_all_commands s in
  let expected := 1 + total_leds s * 3 in
  if len <? expected then
    Some (send_response RESP_ERROR "SIZE_MISMATCH" (incr_packet_errors s))
  else
    (* the first five frames are logged with their first RGB triple *)
    _ ← (if set_all_commands_received s <=? 5
         then _ ← read_byte data 1; _ ← read_byte data 2; read_byte data 3
         else Some x00);
    l ← for_loop 0 (total_leds s) (fun logical l =>
           let base := 1 + logical * 3 in
           c ← read_rgb data base;
           write_led (logical_to_physical s logical) c l)
         (leds s);
    (* Clear unused LEDs *)
    l ← for_loop 0 (active_strips s) (fun strip l =>
           for_loop (leds_per_strip s) MAX_LEDS_PER_STRIP (fun offset l =>
             write_led (strip * MAX_LEDS_PER_STRIP + offset) Black l) l)
         l;
    let s := incr_frames_rendered (show (set_leds l s)) in
    Some (if frames_rendered s <=? 3
          then send_response RESP_OK "FRAME_OK" s
          else s).

Definition cmd_config (data : list byte) (s : engine) : option engine :=
  let len := Z.of_nat (length data) in
  let s := incr_config_commands s in
  if len <? 4 then Some (send_response RESP_ERROR "CONFIG_TOO_SHORT" s) else
  d1 ← read_byte data 1;
  d2 ← read_byte data 2;
  d3 ← read_byte data 3;
  let new_strips := byte_to_Z d1 in
  let new_len := wrap16 (Z.lor (Z.shiftl (byte_to_Z d2) 8) (byte_to_Z d3)) in
  if (new_strips =? 0) || (MAX_STRIPS <? new_strips) then
    Some (send_response RESP_ERROR "INVALID_STRIPS" s)
  else if (new_len =? 0) || (MAX_LEDS_PER_STRIP <? new_len) then
    Some (send_response RESP_ERROR "INVALID_LENGTH" s)
  else
    (* Only clear LEDs if configuration actually changed *)
    let config_changed :=
      negb (active_strips s =? new_strips) || negb (leds_per_strip s =? new_len) in
    let s := set_config new_strips new_len (wrap16 (new_strips * new_len)) s in
    s ← (if config_changed then
           l ← for_loop 0 MAX_TOTAL_LEDS (fun i l => write_led i Black l) (leds s);
           Some (send_response RESP_OK "CONFIG_CHANGED" (show (set_leds l s)))
         else Some (send_response RESP_OK "CONFIG_OK" s));
    if 5 <=? len then
      d4 ← read_byte data 4;
      Some (set_debug_logging (negb (byte_to_Z d4 =? 0)) s)
    else Some s.

(** ** The dispatcher *)

Definition process_command (s : engine) (data : list byte) : option engine :=
  let len := Z.of_nat (length data) in
  if len =? 0 then Some s else
  let s := add_bytes_received len s in
  d0 ← read_byte data 0;
  let cmd := byte_to_Z d0 in
  let s := incr_packets_received s in
  if cmd =? CMD_ECHO then cmd_echo data s
  else if cmd =? CMD_PING then cmd_ping s
  else if cmd =? CMD_SET_PIXEL then cmd_set_pixel data s
  else if cmd =? CMD_SET_BRIGHTNESS then cmd_set_brightness data s
  else if cmd =? CMD_SHOW then cmd_show s
  else if cmd =? CMD_CLEAR then cmd_clear s
  else if cmd =? CMD_SET_RANGE then cmd_set_range data s
  else if cmd =? CMD_SET_ALL then cmd_set_all data s
  else if cmd =? CMD_CONFIG then cmd_config data s
  else Some (incr_packet_errors s).

(** ** Framed-stream transport: one iteration of [loop]

    [rx] is the serial receive queue.  It holds every byte that arrives
    before the iteration ends, so the bounded wait for the payload times
    out exactly when the queue is too short.  [Serial.read()] on an empty
    queue yields [-1], i.e. [0xFF] as a [uint8_t]. *)

Definition serial_read (rx : list byte) : byte * list byte :=
  match rx with
  | [] => (xff, [])
  | b :: rx' => (b, rx')
  end.

Definition loop (s : engine) (rx : list byte) : option (engine * list byte) :=
  if 4 <=? Z.of_nat (length rx) then
    let '(start, rx) := serial_read rx in
    if byte_to_Z start =? PACKET_START then
      let '(len_low, rx) := serial_read rx in
      let '(len_high, rx) := serial_read rx in
      let payload_len :=
        wrap16 (Z.lor (byte_to_Z len_low) (Z.shiftl (byte_to_Z len_high) 8)) in
      if MAX_PACKET_SIZE <? payload_len then
        (* Flush serial buffer *)
        Some (incr_packet_errors s, [])
      else if Z.of_nat (length rx) <? payload_len + 1 then
        (* Packet timeout *)
        Some (incr_packet_errors s, rx)
      else
        let uart_buffer := take (Z.to_nat payload_len) rx in
        let rx := drop (Z.to_nat payload_len) rx in
        let '(end_marker, rx) := serial_read rx in
        if negb (byte_to_Z end_marker =? PACKET_END) then
          Some (incr_packet_errors s, rx)
        else
          s' ← process_command s uart_buffer;
          Some (s', rx)
    else
      (* Not a start marker - discard and resync *)
      Some (incr_packet_errors s, rx)
  else Some (s, rx).

(** ** Initial state and reachability *)

(** The state [setup()] leaves behind: default layout, cleared buffer. *)
Definition initial_engine : engine :=
  mkEngine (replicate (Z.to_nat MAX_TOTAL_LEDS) Black)
    DEFAULT_STRIPS DEFAULT_LEDS_PER_STRIP
    (wrap16 (DEFAULT_STRIPS * DEFAULT_LEDS_PER_STRIP))
    50 0 0 0 0 0 0 false [].

Inductive reachable : engine -> Prop :=
| reachable_init : reachable initial_engine
| reachable_step s data s' :
    reachable s -> process_command s data = Some s' -> reachable s'.

(** The Configuration invariant of the data model. *)
Definition legal_config (s : engine) : Prop :=
  1 <= active_strips s <= MAX_STRIPS /\
  1 <= leds_per_strip s <= MAX_LEDS_PER_STRIP /\
  total_leds s = active_strips s * leds_per_strip s.

(** A physical offset lies in the active region when its strip is driven
    and its offset within the strip is below the configured length. *)
Definition in_active_region (s : engine) (p : Z) : Prop :=
  0 <= p /\
  p / MAX_LEDS_PER_STRIP < active_strips s /\
  p mod MAX_LEDS_PER_STRIP < leds_per_strip s.

Definition pixel_at (s : engine) (p : Z) : option CRGB :=
  leds s !! Z.to_nat p.

(** ** Vocabulary of the properties *)

(** [gentle s l l']: going from [l] to [l'], every slot outside the active
    region of [s] either keeps its value or becomes black. *)
Definition gentle (s : engine) (l l' : list CRGB) : Prop :=
  length l' = length l /\
  forall p, 0 <= p -> ~ in_active_region s p ->
    l' !! Z.to_nat p = l !! Z.to_nat p \/ l' !! Z.to_nat p = Some Black.

(** Every physical slot outside the active region is black. *)
Definition outside_black (s : engine) : Prop :=
  forall p, 0 <= p < MAX_TOTAL_LEDS -> ~ in_active_region s p ->
    pixel_at s p = Some Black.

Definition layout_invariant (s : engine) : Prop :=
  legal_config s /\
  Z.of_nat (length (leds s)) = MAX_TOTAL_LEDS /\
  outside_black s.

(** What one command may do to the layout: the configuration stays legal,
    the buffer keeps its size, and darkness outside the active region is
    kept. *)
Definition step_ok (s s' : engine) : Prop :=
  legal_config s' /\
  length (leds s') = length (leds s) /\
  (Z.of_nat (length (leds s)) = MAX_TOTAL_LEDS ->
   outside_black s -> outside_black s').

(** The layout a CONFIG payload asks for: [data[1]] strips of
    [(data[2] << 8) | data[3]] LEDs. *)
Definition requested_strips (d1 : byte) : Z := byte_to_Z d1.
Definition requested_length (d2 d3 : byte) : Z :=
  wrap16 (Z.lor (Z.shiftl (byte_to_Z d2) 8) (byte_to_Z d3)).

(** The layout changes when either component differs from the current one. *)
Definition layout_differs (s : engine) (strips len : Z) : Prop :=
  active_strips s <> strips \/ leds_per_strip s <> len.

(** The opcode of a command buffer: its leading byte. *)
Definition opcode (data : list byte) : option Z := byte_to_Z <$> head data.

(** The bookkeeping [process_command] does before the [switch]. *)
Definition received (data : list byte) (s : engine) : engine :=
  incr_packets_received (add_bytes_received (Z.of_nat (length data)) s).

(** A reachable state with a shrunk layout: a full red frame on the default
    8 x 140 layout, then CONFIG(1, 10). *)
Definition red_frame : list byte :=
  x06 :: concat (replicate 1120 [xff; x00; x00]).

Definition after_red_frame : engine :=
  Eval vm_compute in
    default initial_engine (process_command initial_engine red_frame).

Definition shrunk_engine : engine :=
  Eval vm_compute in
    default after_red_frame (process_command after_red_frame [x07; x01; x00; x0a]).

(** The oversize frame: opcode SET_ALL and 3361 payload bytes, one more
    than the 3360 of the default 8 x 140 layout. *)
Definition oversize_frame : list byte := x06 :: replicate 3361 xff.

(** The logical index of a SET_PIXEL payload: [(data[1] << 8) | data[2]]. *)
Definition pixel_index (d1 d2 : byte) : Z :=
  wrap16 (Z.lor (Z.shiftl (byte_to_Z d1) 8) (byte_to_Z d2)).

(** The 16-bit little-endian length field of a packet, as [loop] decodes it. *)
Definition le16 (lo hi : byte) : Z :=
  wrap16 (Z.lor (byte_to_Z lo) (Z.shiftl (byte_to_Z hi) 8)).

(** [[0xAA] [LEN_LOW] [LEN_HIGH] [PAYLOAD...] [0x55]]. *)
Definition framed (lo hi : byte) (payload : list byte) : list byte :=
  xaa :: lo :: hi :: payload ++ [x55].

(** A packet is well formed when its length field is the length of its
    payload and the payload fits the packet buffer. *)
Definition well_formed_packet (lo hi : byte) (payload : list byte) : Prop :=
  le16 lo hi = Z.of_nat (length payload) /\
  Z.of_nat (length payload) <= MAX_PACKET_SIZE.

(** ** Wire format of the replies *)

(** The byte a [uint8_t] value is written as by [Serial.write]. *)
Definition byte_of_Z (z : Z) : byte :=
  default x00 (Byte.of_N (Z.to_N (wrap8 z))).

(** The bytes [send_response(code, message)] puts on the wire: start
    marker, 16-bit little-endian payload length, response code, the
    characters of [message] (if any), end marker.  [strlen] is the length
    of the string: the firmware's messages are literals without NUL. *)
Definition response_frame (code : Z) (message : option string) : list byte :=
  let payload_len :=
    wrap16 (1 + from_option (fun m => Z.of_nat (String.length m)) 0 message) in
  byte_of_Z PACKET_START
  :: byte_of_Z (Z.land payload_len 0xFF)
  :: byte_of_Z (Z.land (Z.shiftr payload_len 8) 0xFF)
  :: byte_of_Z code
  :: from_option list_byte_of_string [] message ++ [byte_of_Z PACKET_END].

(** The bytes CMD_ECHO writes back: RESP_OK followed by the whole buffer
    it received, framed the same way. *)
Definition echo_frame (data : list byte) : list byte :=
  let response_len := wrap16 (1 + Z.of_nat (length data)) in
  byte_of_Z PACKET_START
  :: byte_of_Z (Z.land response_len 0xFF)
  :: byte_of_Z (Z.land (Z.shiftr response_len 8) 0xFF)
  :: byte_of_Z RESP_OK
  :: data ++ [byte_of_Z PACKET_END].

(** A payload framed with the length encoding of [send_response]. *)
Definition frame_payload (payload : list byte) : list byte :=
  let n := Z.of_nat (length payload) in
  framed (byte_of_Z (Z.land n 0xFF)) (byte_of_Z (Z.land (Z.shiftr n 8) 0xFF))
    payload.

(** ** Consecutive iterations *)

(** [n] consecutive calls of [loop()] on the bytes already received. *)
Fixpoint loop_n (n : nat) (s : engine) (rx : list byte)
    : option (engine * list byte) :=
  match n with
  | O => Some (s, rx)
  | Datatypes.S n' =>
      match loop s rx with
      | Some (s', rx') => loop_n n' s' rx'
      | None => None
      end
  end.

(** Command buffers handed to [process_command] one after the other. *)
Fixpoint process_commands (s : engine) (cmds : list (list byte))
    : option engine :=
  match cmds with
  | [] => Some s
  | c :: cs =>
      match process_command s c with
      | Some s' => process_commands s' cs
      | None => None
      end
  end.

(** [n] packet errors counted in a row. *)
Fixpoint count_errors (n : nat) (s : engine) : engine :=
  match n with
  | O => s
  | Datatypes.S n' => count_errors n' (incr_packet_errors s)
  end.

(** ** The SPI slave variant: statistics block and zero-payload scan

    The SPI firmware shares the command semantics; what it adds is the
    status block it clocks out on MISO and a scan for all-zero payloads.
    A write outside the buffer returns [None]. *)
Module Spi.

Definition write_byte (i : Z) (b : byte) (buffer : list byte)
    : option (list byte) :=
  if (0 <=? i) && (i <? Z.of_nat (length buffer))
  then Some (<[Z.to_nat i := b]> buffer)
  else None.

(** [write_u32_le(buffer, offset, value)]. *)
Definition write_u32_le (buffer : list byte) (offset value : Z)
    : option (list byte) :=
  buffer ← write_byte (offset + 0) (byte_of_Z (Z.land value 0xFF)) buffer;
  buffer ← write_byte (offset + 1)
             (byte_of_Z (Z.land (Z.shiftr value 8) 0xFF)) buffer;
  buffer ← write_byte (offset + 2)
             (byte_of_Z (Z.land (Z.shiftr value 16) 0xFF)) buffer;
  write_byte (offset + 3) (byte_of_Z (Z.land (Z.shiftr value 24) 0xFF)) buffer.

(** The counters [update_stats_buffer] reports. *)
Record stats := mkStats {
  frames_rendered : Z;             (* uint32_t *)
  set_all_commands_received : Z;   (* uint32_t *)
  packets_received : Z;            (* uint32_t *)
  zero_payload_packets : Z;        (* uint32_t *)
  last_show_duration : Z;          (* uint32_t *)
  total_bytes_received : Z;        (* uint32_t *)
  active_strips : Z;               (* uint8_t  *)
  leds_per_strip : Z               (* uint16_t *)
}.

(** [update_stats_buffer()], with the value of [millis()] as [now]; the
    magic is the characters 'L' 'G' 'S' '1'. *)
Definition update_stats_buffer (now : Z) (st : stats)
    (spi_tx_buffer : list byte) : option (list byte) :=
  b ← write_byte 0 x4c spi_tx_buffer;
  b ← write_byte 1 x47 b;
  b ← write_byte 2 x53 b;
  b ← write_byte 3 x31 b;
  b ← write_u32_le b 4 now;
  b ← write_u32_le b 8 (frames_rendered st);
  b ← write_u32_le b 12 (set_all_commands_received st);
  b ← write_u32_le b 16 (packets_received st);
  b ← write_u32_le b 20 (zero_payload_packets st);
  b ← write_u32_le b 24 (last_show_duration st);
  b ← write_u32_le b 28 (total_bytes_received st);
  b ← write_u32_le b 32 (active_strips st);
  write_u32_le b 36 (leds_per_strip st).

(** The scan at the head of the SPI [process_command]:
    [for (i = 1; i < length; ++i) payload_or |= data[i]]. *)
Definition payload_or (data : list byte) : Z :=
  fold_left (fun acc b => wrap8 (Z.lor acc (byte_to_Z b))) (tail data) 0.

(** The update of [zero_payload_packets] that follows the scan. *)
Definition count_zero_payload (data : list byte) (zero_payload_packets : Z) : Z :=
  if 1 <? Z.of_nat (length data) then
    if payload_or data =? 0 then wrap32 (zero_payload_packets + 1)
    else zero_payload_packets
  else zero_payload_packets.

(** A 32-bit little-endian field of a buffer, as the host reads it back. *)
Definition read_u32_le (buffer : list byte) (offset : Z) : option Z :=
  b0 ← read_byte buffer offset;
  b1 ← read_byte buffer (offset + 1);
  b2 ← read_byte buffer (offset + 2);
  b3 ← read_byte buffer (offset + 3);
  Some (byte_to_Z b0 + 2 ^ 8 * byte_to_Z b1 + 2 ^ 16 * byte_to_Z b2
        + 2 ^ 24 * byte_to_Z b3).

End Spi.

(** ** What a command leaves alone *)

Definition same_config (s s' : engine) : Prop :=
  active_strips s' = active_strips s /\
  leds_per_strip s' = leds_per_strip s /\
  total_leds s' = total_leds s.

Definition same_traffic (s s' : engine) : Prop :=
  packets_received s' = packets_received s /\
  total_bytes_received s' = total_bytes_received s.

(** The opcodes that have a [case] in the [switch]. *)
Definition known_opcodes : list Z :=
  [CMD_ECHO; CMD_PING; CMD_SET_PIXEL; CMD_SET_BRIGHTNESS; CMD_SHOW;
   CMD_CLEAR; CMD_SET_RANGE; CMD_SET_ALL; CMD_CONFIG].

(** The opcodes whose handlers write to [leds]. *)
Definition pixel_opcodes : list Z :=
  [CMD_SET_PIXEL; CMD_CLEAR; CMD_SET_RANGE; CMD_SET_ALL; CMD_CONFIG].

(** The counters of the SPI statistics block are 32-bit values. *)
Definition spi_stats_in_range (st : Spi.stats) : Prop :=
  Forall (fun v => 0 <= v < 2 ^ 32)
    [Spi.frames_rendered st; Spi.set_all_commands_received st;
     Spi.packets_received st; Spi.zero_payload_packets st;
     Spi.last_show_duration st; Spi.total_bytes_received st;
     Spi.active_strips st; Spi.leds_per_strip st].

(** Two buffers that differ at most in the four bytes from [offset] on. *)
Definition agree_outside (offset : Z) (buffer buffer' : list byte) : Prop :=
  length buffer' = length buffer /\
  forall i, 0 <= i -> i < offset \/ offset + 4 <= i ->
    read_byte buffer' i = read_byte buffer i.

(** * Verification *)

(** ** Arithmetic helpers *)

Lemma byte_to_Z_range (b : byte) : 0 <= byte_to_Z b < 256.
Proof.
  unfold byte_to_Z. pose proof (Byte.to_N_bounded b). lia.
Qed.

Lemma wrap8_small x : 0 <= x < 256 -> wrap8 x = x.
Proof. intros H. unfold wrap8. apply Z.mod_small. lia. Qed.

Lemma wrap16_small x : 0 <= x < 65536 -> wrap16 x = x.
Proof. intros H. unfold wrap16. apply Z.mod_small. lia. Qed.

Lemma wrap32_small x : 0 <= x < 4294967296 -> wrap32 x = x.
Proof. intros H. unfold wrap32. apply Z.mod_small. lia. Qed.

Lemma wrap16_range x : 0 <= wrap16 x < 65536.
Proof. unfold wrap16. apply Z.mod_pos_bound. lia. Qed.

Lemma MAX_TOTAL_LEDS_eq : MAX_TOTAL_LEDS = 4000.
Proof. reflexivity. Qed.

Lemma MAX_LEDS_PER_STRIP_eq : MAX_LEDS_PER_STRIP = 500.
Proof. reflexivity. Qed.

Lemma MAX_STRIPS_eq : MAX_STRIPS = 8.
Proof. reflexivity. Qed.

(** Strip-major addressing: the strip and the offset of a physical slot are
    recovered by division. *)
Lemma strip_major_div q r :
  0 <= r < MAX_LEDS_PER_STRIP ->
  (q * MAX_LEDS_PER_STRIP + r) / MAX_LEDS_PER_STRIP = q.
Proof.
  intros Hr. symmetry. apply (Z.div_unique _ _ q r); lia.
Qed.

Lemma strip_major_mod q r :
  0 <= r < MAX_LEDS_PER_STRIP ->
  (q * MAX_LEDS_PER_STRIP + r) mod MAX_LEDS_PER_STRIP = r.
Proof.
  intros Hr. symmetry. apply (Z.mod_unique _ _ q r); lia.
Qed.

(** ** The address mapper *)

Section Mapper.
Variable s : engine.
Hypothesis Hcfg : legal_config s.

Lemma quotient_below_active i :
  0 <= i < total_leds s -> 0 <= i / leds_per_strip s < active_strips s.
Proof using Hcfg.
  destruct Hcfg as (Ha & Hl & Ht). intros Hi. split.
  - apply Z.div_pos; lia.
  - apply Z.div_lt_upper_bound; lia.
Qed.

Lemma quotient_beyond_active i :
  total_leds s <= i -> active_strips s <= i / leds_per_strip s.
Proof using Hcfg.
  destruct Hcfg as (Ha & Hl & Ht). intros Hi.
  apply Z.div_le_lower_bound; lia.
Qed.

(** In range, the mapper is the strip-major address of
    (i / leds_per_strip, i % leds_per_strip). *)
Lemma logical_to_physical_in_range i :
  0 <= i < total_leds s ->
  logical_to_physical s i =
    (i / leds_per_strip s) * MAX_LEDS_PER_STRIP + i mod leds_per_strip s.
Proof using Hcfg.
  intros Hi. pose proof (quotient_below_active i Hi) as Hq.
  destruct Hcfg as (Ha & Hl & Ht).
  pose proof (Z.mod_pos_bound i (leds_per_strip s) ltac:(lia)) as Hr.
  rewrite MAX_STRIPS_eq in Ha. rewrite MAX_LEDS_PER_STRIP_eq in Hl.
  unfold logical_to_physical.
  rewrite (wrap16_small (i / leds_per_strip s)) by lia.
  rewrite (wrap16_small (i mod leds_per_strip s)) by lia.
  destruct (Z.leb_spec (active_strips s) (i / leds_per_strip s)); [lia|].
  rewrite MAX_LEDS_PER_STRIP_eq. apply wrap16_small. lia.
Qed.

(** Out of range, the mapper is the last slot of the last active strip. *)
Lemma logical_to_physical_clamped i :
  total_leds s <= i < 65536 ->
  logical_to_physical s i =
    (active_strips s - 1) * MAX_LEDS_PER_STRIP + (leds_per_strip s - 1).
Proof using Hcfg.
  intros Hi. pose proof (quotient_beyond_active i ltac:(lia)) as Hq.
  destruct Hcfg as (Ha & Hl & Ht).
  rewrite MAX_STRIPS_eq in Ha. rewrite MAX_LEDS_PER_STRIP_eq in Hl.
  assert (i / leds_per_strip s <= i) by (apply Z.div_le_upper_bound; nia).
  unfold logical_to_physical.
  rewrite (wrap16_small (i / leds_per_strip s)) by lia.
  destruct (Z.leb_spec (active_strips s) (i / leds_per_strip s)); [|lia].
  rewrite (wrap16_small (active_strips s - 1)) by lia.
  rewrite (wrap16_small (leds_per_strip s - 1)) by lia.
  rewrite MAX_LEDS_PER_STRIP_eq. apply wrap16_small. lia.
Qed.

Lemma logical_to_physical_active i :
  0 <= i < total_leds s -> in_active_region s (logical_to_physical s i).
Proof using Hcfg.
  intros Hi. pose proof (quotient_below_active i Hi) as Hq.
  rewrite (logical_to_physical_in_range i Hi).
  destruct Hcfg as (Ha & Hl & Ht).
  pose proof (Z.mod_pos_bound i (leds_per_strip s) ltac:(lia)) as Hr.
  unfold in_active_region.
  rewrite strip_major_div, strip_major_mod by lia.
  rewrite MAX_LEDS_PER_STRIP_eq. lia.
Qed.

Lemma logical_to_physical_inj i j :
  0 <= i < total_leds s -> 0 <= j < total_leds s ->
  logical_to_physical s i = logical_to_physical s j -> i = j.
Proof using Hcfg.
  intros Hi Hj. rewrite !logical_to_physical_in_range by done.
  destruct Hcfg as (Ha & Hl & Ht). intros Heq.
  pose proof (Z.mod_pos_bound i (leds_per_strip s) ltac:(lia)) as Hri.
  pose proof (Z.mod_pos_bound j (leds_per_strip s) ltac:(lia)) as Hrj.
  assert (Hq : i / leds_per_strip s = j / leds_per_strip s).
  { rewrite <- (strip_major_div (i / leds_per_strip s) (i mod leds_per_strip s)) by lia.
    rewrite Heq. apply strip_major_div. lia. }
  assert (Hr : i mod leds_per_strip s = j mod leds_per_strip s) by lia.
  rewrite (Z.div_mod i (leds_per_strip s)), (Z.div_mod j (leds_per_strip s)) by lia.
  congruence.
Qed.

Lemma logical_to_physical_bound i :
  0 <= i < 65536 -> 0 <= logical_to_physical s i < MAX_TOTAL_LEDS.
Proof using Hcfg.
  intros Hi. destruct (Z.lt_ge_cases i (total_leds s)) as [Hlt|Hge].
  - pose proof (quotient_below_active i ltac:(lia)) as Hq.
    rewrite logical_to_physical_in_range by lia.
    destruct Hcfg as (Ha & Hl & Ht).
    pose proof (Z.mod_pos_bound i (leds_per_strip s) ltac:(lia)) as Hr.
    rewrite MAX_TOTAL_LEDS_eq, MAX_LEDS_PER_STRIP_eq in *.
    rewrite MAX_STRIPS_eq in Ha. lia.
  - rewrite logical_to_physical_clamped by lia.
    destruct Hcfg as (Ha & Hl & Ht).
    rewrite MAX_TOTAL_LEDS_eq, MAX_LEDS_PER_STRIP_eq in *.
    rewrite MAX_STRIPS_eq in Ha. lia.
Qed.
End Mapper.

(** ** Array accesses and loops *)

Lemma read_byte_is_Some (data : list byte) i :
  0 <= i < Z.of_nat (length data) -> exists b, read_byte data i = Some b.
Proof.
  intros Hi. unfold read_byte.
  destruct (Z.leb_spec 0 i); [|lia].
  apply lookup_lt_is_Some_2. lia.
Qed.

Lemma write_led_Some i c (l : list CRGB) :
  0 <= i < MAX_TOTAL_LEDS ->
  write_led i c l = Some (<[Z.to_nat i := c]> l).
Proof.
  intros Hi. unfold write_led.
  destruct (Z.leb_spec 0 i); [|lia].
  destruct (Z.ltb_spec i MAX_TOTAL_LEDS); [done|lia].
Qed.

Lemma lookup_write_other (l : list CRGB) i p c :
  0 <= i -> 0 <= p -> p <> i ->
  <[Z.to_nat i := c]> l !! Z.to_nat p = l !! Z.to_nat p.
Proof.
  intros Hi Hp Hne. apply list_lookup_insert_ne. lia.
Qed.

Lemma lookup_write_same (l : list CRGB) i c :
  0 <= i < Z.of_nat (length l) ->
  <[Z.to_nat i := c]> l !! Z.to_nat i = Some c.
Proof.
  intros Hi. apply list_lookup_insert_eq. lia.
Qed.

(** Loop invariant rule for [for_range]: an invariant [P] indexed by the
    loop counter, established at entry and kept by every iteration that
    runs, holds at exit, and the loop does not fail. *)
Lemma for_range_inv {S : Type} (P : Z -> S -> Prop)
    (body : Z -> S -> option S) n : forall i s,
  P i s ->
  (forall j t, i <= j < i + Z.of_nat n -> P j t ->
     exists t', body j t = Some t' /\ P (j + 1) t') ->
  exists s', for_range body n i s = Some s' /\ P (i + Z.of_nat n) s'.
Proof.
  induction n as [|n IH]; intros i s HP Hbody.
  - exists s. split; [done|]. by replace (i + Z.of_nat 0) with i by lia.
  - destruct (Hbody i s ltac:(lia) HP) as (t' & Hb & HP').
    destruct (IH (i + 1) t' HP') as (s' & Hrun & Hfin).
    { intros j t Hj. apply Hbody. lia. }
    exists s'. split.
    + simpl. by rewrite Hb.
    + by replace (i + Z.of_nat (Datatypes.S n)) with (i + 1 + Z.of_nat n) by lia.
Qed.

Lemma for_loop_inv {S : Type} (P : Z -> S -> Prop)
    (body : Z -> S -> option S) lo hi s :
  lo <= hi ->
  P lo s ->
  (forall j t, lo <= j < hi -> P j t ->
     exists t', body j t = Some t' /\ P (j + 1) t') ->
  exists s', for_loop lo hi body s = Some s' /\ P hi s'.
Proof.
  intros Hle HP Hbody. unfold for_loop.
  destruct (for_range_inv P body (Z.to_nat (hi - lo)) lo s HP) as (s' & Hrun & Hfin).
  { intros j t Hj. apply Hbody. lia. }
  exists s'. split; [done|].
  by replace (lo + Z.of_nat (Z.to_nat (hi - lo))) with hi in Hfin by lia.
Qed.

(** *** Blacking out rows: the nested loops of CMD_CLEAR and CMD_SET_ALL *)

(** Result of [for offset in lo..MAX_LEDS_PER_STRIP] on one strip. *)
Lemma clear_row_spec strip lo (l : list CRGB) :
  0 <= strip < MAX_STRIPS -> 0 <= lo <= MAX_LEDS_PER_STRIP ->
  exists l',
    for_loop lo MAX_LEDS_PER_STRIP (fun offset l =>
      write_led (strip * MAX_LEDS_PER_STRIP + offset) Black l) l = Some l' /\
    length l' = length l /\
    forall p, 0 <= p ->
      (strip * MAX_LEDS_PER_STRIP + lo <= p < (strip + 1) * MAX_LEDS_PER_STRIP ->
         p < Z.of_nat (length l) -> l' !! Z.to_nat p = Some Black) /\
      (~ (strip * MAX_LEDS_PER_STRIP + lo <= p < (strip + 1) * MAX_LEDS_PER_STRIP) ->
         l' !! Z.to_nat p = l !! Z.to_nat p).
Proof.
  intros Hs Hlo. rewrite MAX_STRIPS_eq in Hs.
  pose (P := fun (off : Z) (t : list CRGB) =>
    length t = length l /\
    forall p, 0 <= p ->
      (strip * MAX_LEDS_PER_STRIP + lo <= p < strip * MAX_LEDS_PER_STRIP + off ->
         p < Z.of_nat (length l) -> t !! Z.to_nat p = Some Black) /\
      (~ (strip * MAX_LEDS_PER_STRIP + lo <= p < strip * MAX_LEDS_PER_STRIP + off) ->
         t !! Z.to_nat p = l !! Z.to_nat p)).
  destruct (for_loop_inv P (fun offset l =>
      write_led (strip * MAX_LEDS_PER_STRIP + offset) Black l)
      lo MAX_LEDS_PER_STRIP l) as (l' & Hrun & Hlen & Hfin).
  - lia.
  - split; [done|]. intros p Hp. split; [lia|done].
  - intros j t Hj (Hlen & Ht).
    rewrite MAX_LEDS_PER_STRIP_eq in Hj, Hlo.
    rewrite write_led_Some
      by (rewrite MAX_TOTAL_LEDS_eq, MAX_LEDS_PER_STRIP_eq; lia).
    eexists. split; [done|]. split.
    + by rewrite length_insert.
    + intros p Hp. destruct (Ht p Hp) as [Hin Hout].
      rewrite MAX_LEDS_PER_STRIP_eq in *.
      destruct (decide (p = strip * 500 + j)) as [->|Hne].
      * split; [|lia]. intros _ Hlt.
        apply lookup_write_same. lia.
      * rewrite lookup_write_other by lia.
        split; intros; [apply Hin|apply Hout]; lia.
  - exists l'. split; [done|]. split; [done|].
    intros p Hp. destruct (Hfin p Hp) as [Hin Hout].
    rewrite MAX_LEDS_PER_STRIP_eq in *.
    split; intros; [apply Hin|apply Hout]; lia.
Qed.

(** Result of the two nested loops: rows [0..strips) are black from column
    [lo] on; every other slot keeps its value. *)
Lemma clear_rows_spec strips lo (l : list CRGB) :
  0 <= strips <= MAX_STRIPS -> 0 <= lo <= MAX_LEDS_PER_STRIP ->
  exists l',
    for_loop 0 strips (fun strip l =>
      for_loop lo MAX_LEDS_PER_STRIP (fun offset l =>
        write_led (strip * MAX_LEDS_PER_STRIP + offset) Black l) l) l = Some l' /\
    length l' = length l /\
    forall p, 0 <= p ->
      (p / MAX_LEDS_PER_STRIP < strips -> lo <= p mod MAX_LEDS_PER_STRIP ->
         p < Z.of_nat (length l) -> l' !! Z.to_nat p = Some Black) /\
      (~ (p / MAX_LEDS_PER_STRIP < strips /\ lo <= p mod MAX_LEDS_PER_STRIP) ->
         l' !! Z.to_nat p = l !! Z.to_nat p).
Proof.
  intros Hs Hlo.
  pose (P := fun (strip : Z) (t : list CRGB) =>
    length t = length l /\
    forall p, 0 <= p ->
      (p / MAX_LEDS_PER_STRIP < strip -> lo <= p mod MAX_LEDS_PER_STRIP ->
         p < Z.of_nat (length l) -> t !! Z.to_nat p = Some Black) /\
      (~ (p / MAX_LEDS_PER_STRIP < strip /\ lo <= p mod MAX_LEDS_PER_STRIP) ->
         t !! Z.to_nat p = l !! Z.to_nat p)).
  destruct (for_loop_inv P (fun strip l =>
      for_loop lo MAX_LEDS_PER_STRIP (fun offset l =>
        write_led (strip * MAX_LEDS_PER_STRIP + offset) Black l) l)
      0 strips l) as (l' & Hrun & Hfin).
  - lia.
  - split; [done|]. intros p Hp. split; [|done].
    intros Hq. pose proof (Z.div_pos p MAX_LEDS_PER_STRIP Hp ltac:(done)). lia.
  - intros j t Hj (Hlen & Ht).
    destruct (clear_row_spec j lo t ltac:(lia) Hlo) as (t' & Hrow & Hlen' & Hspec).
    exists t'. split; [done|]. split; [congruence|].
    intros p Hp. destruct (Ht p Hp) as [Hin Hout].
    destruct (Hspec p Hp) as [Hin' Hout'].
    rewrite MAX_LEDS_PER_STRIP_eq in *.
    pose proof (Z.div_mod p 500 ltac:(lia)) as Hdm.
    pose proof (Z.mod_pos_bound p 500 ltac:(lia)) as Hmb.
    destruct (decide (j * 500 + lo <= p < (j + 1) * 500)) as [Hrow'|Hrow'].
    + split; [|intros Hn; exfalso; apply Hn; lia].
      intros _ _ Hlt. apply Hin'; [done|lia].
    + rewrite (Hout' Hrow').
      split; intros; [apply Hin|apply Hout]; lia.
  - exists l'. done.
Qed.

Lemma read_rgb_is_Some (data : list byte) base :
  0 <= base -> base + 2 < Z.of_nat (length data) ->
  exists c, read_rgb data base = Some c.
Proof.
  intros H0 H2. unfold read_rgb.
  destruct (read_byte_is_Some data base ltac:(lia)) as (r & ->).
  destruct (read_byte_is_Some data (base + 1) ltac:(lia)) as (g & ->).
  destruct (read_byte_is_Some data (base + 2) ltac:(lia)) as (b & ->).
  by eexists.
Qed.

(** *** The full clear of CMD_CONFIG *)

Lemma clear_all_spec (l : list CRGB) :
  exists l',
    for_loop 0 MAX_TOTAL_LEDS (fun i l => write_led i Black l) l = Some l' /\
    length l' = length l /\
    forall p, 0 <= p < MAX_TOTAL_LEDS -> p < Z.of_nat (length l) ->
      l' !! Z.to_nat p = Some Black.
Proof.
  pose (P := fun (i : Z) (t : list CRGB) =>
    length t = length l /\
    forall p, 0 <= p < i -> p < Z.of_nat (length l) ->
      t !! Z.to_nat p = Some Black).
  destruct (for_loop_inv P (fun i l => write_led i Black l)
      0 MAX_TOTAL_LEDS l) as (l' & Hrun & Hfin).
  - done.
  - split; [done|]. intros p Hp. lia.
  - intros j t Hj (Hlen & Ht). rewrite write_led_Some by done.
    eexists. split; [done|]. split; [by rewrite length_insert|].
    intros p Hp Hlt. destruct (decide (p = j)) as [->|Hne].
    + apply lookup_write_same. lia.
    + rewrite lookup_write_other by lia. apply Ht; lia.
  - exists l'. destruct Hfin as [Hlen Hblack].
    split; [exact Hrun|]. split; [exact Hlen|exact Hblack].
Qed.

(** *** Writes that respect the layout *)

Lemma gentle_refl s l : gentle s l l.
Proof. split; [done|]. intros. by left. Qed.

Lemma gentle_same_outside s (l l' : list CRGB) :
  length l' = length l ->
  (forall p, 0 <= p -> ~ in_active_region s p ->
     l' !! Z.to_nat p = l !! Z.to_nat p) ->
  gentle s l l'.
Proof. intros Hlen H. split; [done|]. intros p Hp Hout. left. by apply H. Qed.

Lemma gentle_trans s l1 l2 l3 :
  gentle s l1 l2 -> gentle s l2 l3 -> gentle s l1 l3.
Proof.
  intros [Hlen1 H1] [Hlen2 H2]. split; [congruence|].
  intros p Hp Hout.
  destruct (H2 p Hp Hout) as [Heq|Hb]; [|by right].
  rewrite Heq. by apply H1.
Qed.

(** *** The pixel loop of CMD_SET_ALL *)

Lemma set_all_pixels_spec (s : engine) (data : list byte) (l : list CRGB) :
  legal_config s ->
  1 + total_leds s * 3 <= Z.of_nat (length data) ->
  exists l',
    for_loop 0 (total_leds s) (fun logical l =>
      let base := 1 + logical * 3 in
      c ← read_rgb data base;
      write_led (logical_to_physical s logical) c l) l = Some l' /\
    length l' = length l /\
    (forall p, 0 <= p -> ~ in_active_region s p ->
       l' !! Z.to_nat p = l !! Z.to_nat p) /\
    (Z.of_nat (length l) = MAX_TOTAL_LEDS ->
     forall k, 0 <= k < total_leds s ->
       exists c, read_rgb data (1 + k * 3) = Some c /\
                 l' !! Z.to_nat (logical_to_physical s k) = Some c).
Proof.
  intros Hcfg Hlen.
  assert (Htot : 0 <= total_leds s < 65536).
  { destruct Hcfg as (Ha & Hl & Ht).
    rewrite MAX_STRIPS_eq in Ha. rewrite MAX_LEDS_PER_STRIP_eq in Hl. nia. }
  pose (P := fun (j : Z) (t : list CRGB) =>
    length t = length l /\
    (forall p, 0 <= p ->
       (forall k, 0 <= k < j -> p <> logical_to_physical s k) ->
       t !! Z.to_nat p = l !! Z.to_nat p) /\
    (Z.of_nat (length l) = MAX_TOTAL_LEDS ->
     forall k, 0 <= k < j ->
       exists c, read_rgb data (1 + k * 3) = Some c /\
                 t !! Z.to_nat (logical_to_physical s k) = Some c)).
  destruct (for_loop_inv P (fun logical l =>
      let base := 1 + logical * 3 in
      c ← read_rgb data base;
      write_led (logical_to_physical s logical) c l)
      0 (total_leds s) l) as (l' & Hrun & Hl' & Hout & Hin).
  - lia.
  - split; [done|]. split; [done|]. intros _ k Hk. lia.
  - intros j t Hj (Ht & Hsame & Hpix).
    destruct (read_rgb_is_Some data (1 + j * 3) ltac:(lia) ltac:(lia)) as (c & Hc).
    pose proof (logical_to_physical_bound s Hcfg j ltac:(lia)) as Hb.
    cbv zeta. rewrite Hc. cbn [mbind option_bind].
    rewrite write_led_Some by done.
    eexists. split; [done|]. split; [by rewrite length_insert|]. split.
    + intros p Hp Hne.
      rewrite lookup_write_other by (try apply Hne; lia).
      apply Hsame; [done|]. intros k Hk. apply Hne. lia.
    + intros Hfull k Hk. destruct (decide (k = j)) as [->|Hkj].
      * exists c. split; [done|]. apply lookup_write_same. lia.
      * destruct (Hpix Hfull k ltac:(lia)) as (c' & Hc' & Ht').
        pose proof (logical_to_physical_bound s Hcfg k ltac:(lia)) as Hbk.
        exists c'. split; [done|].
        rewrite lookup_write_other; [done|lia|lia|].
        intros Heq. apply Hkj.
        apply (logical_to_physical_inj s Hcfg); [lia|lia|done].
  - exists l'. split; [done|]. split; [done|]. split; [|done].
    intros p Hp Hnot. apply Hout; [done|].
    intros k Hk ->. apply Hnot.
    apply (logical_to_physical_active s Hcfg). lia.
Qed.

(** *** The loop of CMD_SET_RANGE *)

Lemma set_range_loop_spec (s : engine) (data : list byte) start :
  legal_config s ->
  forall n i (l : list CRGB),
    0 <= i -> 4 + (i + Z.of_nat n) * 3 <= Z.of_nat (length data) ->
    exists l',
      set_range_loop data s start n i l = Some l' /\
      length l' = length l /\
      forall p, 0 <= p -> ~ in_active_region s p ->
        l' !! Z.to_nat p = l !! Z.to_nat p.
Proof.
  intros Hcfg. induction n as [|n IH]; intros i l Hi Hlen.
  - exists l. done.
  - cbn [set_range_loop]. cbv zeta.
    pose proof (wrap16_range (start + i)) as Hw.
    destruct (Z.leb_spec (total_leds s) (wrap16 (start + i))) as [Hbrk|Hgo].
    { exists l. done. }
    destruct (read_rgb_is_Some data (4 + i * 3) ltac:(lia) ltac:(lia)) as (c & Hc).
    rewrite Hc. cbn [mbind option_bind].
    pose proof (logical_to_physical_bound s Hcfg _ Hw) as Hb.
    rewrite write_led_Some by done. cbn [mbind option_bind].
    destruct (IH (i + 1) (<[Z.to_nat (logical_to_physical s (wrap16 (start + i))) := c]> l)
                ltac:(lia) ltac:(lia)) as (l' & Hrun & Hl' & Hout).
    exists l'. split; [done|]. split; [by rewrite Hl', length_insert|].
    intros p Hp Hnot. rewrite (Hout p Hp Hnot).
    apply lookup_write_other; [lia|done|].
    intros ->. apply Hnot.
    apply (logical_to_physical_active s Hcfg). lia.
Qed.

(** ** The layout invariant *)

Lemma step_ok_gentle s s' :
  legal_config s ->
  active_strips s' = active_strips s ->
  leds_per_strip s' = leds_per_strip s ->
  total_leds s' = total_leds s ->
  gentle s (leds s) (leds s') ->
  step_ok s s'.
Proof.
  intros Hcfg Ha Hl Ht [Hlen Hg]. split; [|split].
  - unfold legal_config. by rewrite Ha, Hl, Ht.
  - done.
  - intros _ Hblack p Hp Hout. unfold pixel_at.
    assert (Hout' : ~ in_active_region s p).
    { unfold in_active_region in *. by rewrite <- Ha, <- Hl. }
    destruct (Hg p ltac:(lia) Hout') as [Heq|Hb]; [|done].
    rewrite Heq. by apply Hblack.
Qed.

Lemma step_ok_dark s s' :
  legal_config s' ->
  length (leds s') = length (leds s) ->
  (forall p, 0 <= p < MAX_TOTAL_LEDS -> p < Z.of_nat (length (leds s)) ->
     pixel_at s' p = Some Black) ->
  step_ok s s'.
Proof.
  intros Hcfg Hlen Hdark. split; [done|]. split; [done|].
  intros Hfull _ p Hp _. apply Hdark; lia.
Qed.

#[local] Ltac read_ok data i x H :=
  destruct (read_byte_is_Some data i ltac:(lia)) as (x & H);
  rewrite H; cbn [mbind option_bind].

Lemma cmd_echo_step data s :
  legal_config s -> exists s', cmd_echo data s = Some s' /\ step_ok s s'.
Proof.
  intros Hcfg. eexists. split; [done|].
  apply step_ok_gentle; try done. apply gentle_refl.
Qed.

Lemma cmd_ping_step s :
  legal_config s -> exists s', cmd_ping s = Some s' /\ step_ok s s'.
Proof.
  intros Hcfg. eexists. split; [done|].
  apply step_ok_gentle; try done. apply gentle_refl.
Qed.

Lemma cmd_show_step s :
  legal_config s -> exists s', cmd_show s = Some s' /\ step_ok s s'.
Proof.
  intros Hcfg. eexists. split; [done|].
  apply step_ok_gentle; try done. apply gentle_refl.
Qed.

Lemma cmd_set_brightness_step data s :
  legal_config s ->
  exists s', cmd_set_brightness data s = Some s' /\ step_ok s s'.
Proof.
  intros Hcfg. unfold cmd_set_brightness. cbv zeta.
  destruct (Z.ltb_spec (Z.of_nat (length data)) 2).
  - eexists. split; [done|].
    apply step_ok_gentle; try done. apply gentle_refl.
  - read_ok data 1 d1 Hd1. eexists. split; [done|].
    apply step_ok_gentle; try done. apply gentle_refl.
Qed.

Lemma cmd_set_pixel_step data s :
  legal_config s ->
  exists s', cmd_set_pixel data s = Some s' /\ step_ok s s'.
Proof.
  intros Hcfg. unfold cmd_set_pixel. cbv zeta.
  destruct (Z.ltb_spec (Z.of_nat (length data)) 6).
  { eexists. split; [done|].
    apply step_ok_gentle; try done. apply gentle_refl. }
  read_ok data 1 d1 Hd1. read_ok data 2 d2 Hd2.
  read_ok data 3 r Hr. read_ok data 4 g Hg. read_ok data 5 b Hb.
  set (pixel := wrap16 _).
  pose proof (wrap16_range (Z.lor (Z.shiftl (byte_to_Z d1) 8) (byte_to_Z d2))) as Hw.
  fold pixel in Hw.
  destruct (Z.ltb_spec pixel (total_leds s)) as [Hin|Hout].
  - pose proof (logical_to_physical_bound s Hcfg pixel Hw) as Hbd.
    rewrite write_led_Some by done. cbn [mbind option_bind].
    eexists. split; [done|].
    apply step_ok_gentle; try done. cbn [leds set_leds].
    apply gentle_same_outside; [by rewrite length_insert|].
    intros p Hp Hnot. apply lookup_write_other; [lia|done|].
    intros ->. apply Hnot.
    apply (logical_to_physical_active s Hcfg). lia.
  - eexists. split; [done|].
    apply step_ok_gentle; try done. apply gentle_refl.
Qed.

Lemma cmd_clear_step s :
  legal_config s -> exists s', cmd_clear s = Some s' /\ step_ok s s'.
Proof.
  intros Hcfg. unfold cmd_clear.
  destruct (clear_rows_spec (active_strips s) 0 (leds s))
    as (l' & Hrun & Hlen & Hspec).
  { destruct Hcfg as (Ha & _). lia. }
  { done. }
  rewrite Hrun. cbn [mbind option_bind].
  eexists. split; [done|].
  apply step_ok_gentle; try done. cbn [leds set_leds show emit].
  split; [done|]. intros p Hp Hnot.
  destruct (Hspec p Hp) as [Hin Hout].
  destruct (decide (p / MAX_LEDS_PER_STRIP < active_strips s /\
                    0 <= p mod MAX_LEDS_PER_STRIP)) as [[Hq Hr]|Hno].
  - destruct (decide (p < Z.of_nat (length (leds s)))) as [Hlt|Hge].
    + right. by apply Hin.
    + left. rewrite !lookup_ge_None_2; [done|lia|lia].
  - left. by apply Hout.
Qed.

Lemma cmd_set_range_step data s :
  legal_config s ->
  exists s', cmd_set_range data s = Some s' /\ step_ok s s'.
Proof.
  intros Hcfg. unfold cmd_set_range. cbv zeta.
  destruct (Z.ltb_spec (Z.of_nat (length data)) 4).
  { eexists. split; [done|].
    apply step_ok_gentle; try done. apply gentle_refl. }
  read_ok data 1 d1 Hd1. read_ok data 2 d2 Hd2.
  set (start := wrap16 _).
  pose proof (wrap16_range (Z.lor (Z.shiftl (byte_to_Z d1) 8) (byte_to_Z d2))) as Hw.
  fold start in Hw.
  destruct (Z.leb_spec (total_leds s) start) as [Hbeyond|Hstart].
  { eexists. split; [done|].
    apply step_ok_gentle; try done. apply gentle_refl. }
  read_ok data 3 d3 Hd3.
  pose proof (byte_to_Z_range d3) as Hcount.
  destruct (Z.ltb_spec (Z.of_nat (length data)) (4 + byte_to_Z d3 * 3)).
  { eexists. split; [done|].
    apply step_ok_gentle; try done. apply gentle_refl. }
  set (count := if total_leds s <? start + byte_to_Z d3 then _ else _).
  assert (Hc : 0 <= count <= byte_to_Z d3).
  { subst count. destruct (Z.ltb_spec (total_leds s) (start + byte_to_Z d3)).
    - rewrite wrap8_small by lia. lia.
    - lia. }
  destruct (set_range_loop_spec s data start Hcfg (Z.to_nat count) 0 (leds s))
    as (l' & Hrun & Hlen & Hout); [lia|lia|].
  rewrite Hrun. cbn [mbind option_bind].
  eexists. split; [done|].
  apply step_ok_gentle; try done. cbn [leds set_leds].
  by apply gentle_same_outside.
Qed.

(** ** CMD_SET_ALL *)

Lemma cmd_set_all_reject data s :
  Z.of_nat (length data) < 1 + total_leds s * 3 ->
  cmd_set_all data s =
    Some (send_response RESP_ERROR "SIZE_MISMATCH"
            (incr_packet_errors (incr_set_all_commands s))).
Proof.
  intros Hshort. unfold cmd_set_all. cbv zeta.
  cbn [total_leds incr_set_all_commands].
  destruct (Z.ltb_spec (Z.of_nat (length data)) (1 + total_leds s * 3)); [done|lia].
Qed.

Lemma cmd_set_all_accept data s :
  legal_config s ->
  1 + total_leds s * 3 <= Z.of_nat (length data) ->
  exists s',
    cmd_set_all data s = Some s' /\
    active_strips s' = active_strips s /\
    leds_per_strip s' = leds_per_strip s /\
    total_leds s' = total_leds s /\
    frames_rendered s' = wrap32 (frames_rendered s + 1) /\
    packet_errors s' = packet_errors s /\
    gentle s (leds s) (leds s') /\
    (Z.of_nat (length (leds s)) = MAX_TOTAL_LEDS ->
     (forall k, 0 <= k < total_leds s ->
        exists c, read_rgb data (1 + k * 3) = Some c /\
                  pixel_at s' (logical_to_physical s k) = Some c) /\
     (forall p, 0 <= p < MAX_TOTAL_LEDS ->
        p / MAX_LEDS_PER_STRIP < active_strips s ->
        leds_per_strip s <= p mod MAX_LEDS_PER_STRIP ->
        pixel_at s' p = Some Black)).
Proof.
  intros Hcfg Hlen. unfold cmd_set_all. cbv zeta.
  cbn [total_leds active_strips leds_per_strip leds set_all_commands_received
       incr_set_all_commands].
  destruct (Z.ltb_spec (Z.of_nat (length data)) (1 + total_leds s * 3)); [lia|].
  assert (Htot : 1 <= total_leds s).
  { destruct Hcfg as (Ha & Hl & Ht). nia. }
  (* the logging reads *)
  assert (Hlog : exists b0,
    (if wrap32 (set_all_commands_received s + 1) <=? 5
     then _ ← read_byte data 1; _ ← read_byte data 2; read_byte data 3
     else Some x00) = Some b0).
  { destruct (wrap32 (set_all_commands_received s + 1) <=? 5); [|by eexists].
    read_ok data 1 b1 H1. read_ok data 2 b2 H2. read_ok data 3 b3 H3.
    by eexists. }
  destruct Hlog as (b0 & ->). cbn [mbind option_bind].
  (* the pixel loop *)
  destruct (set_all_pixels_spec s data (leds s) Hcfg Hlen)
    as (l1 & Hrun1 & Hlen1 & Hout1 & Hpix1).
  change (logical_to_physical (incr_set_all_commands s))
    with (logical_to_physical s).
  cbv zeta in Hrun1. rewrite Hrun1. cbn [mbind option_bind].
  (* the clearing loops *)
  destruct (clear_rows_spec (active_strips s) (leds_per_strip s) l1)
    as (l2 & Hrun2 & Hlen2 & Hspec2).
  { destruct Hcfg as (Ha & _). lia. }
  { destruct Hcfg as (_ & Hl & _). lia. }
  rewrite Hrun2. cbn [mbind option_bind].
  eexists. split; [reflexivity|].
  assert (Hkeep : forall p, 0 <= p -> in_active_region s p ->
            l2 !! Z.to_nat p = l1 !! Z.to_nat p).
  { intros p Hp (_ & Hq & Hr). apply Hspec2; [done|]. lia. }
  repeat split.
  - by destruct (_ <=? 3).
  - by destruct (_ <=? 3).
  - by destruct (_ <=? 3).
  - by destruct (_ <=? 3).
  - by destruct (_ <=? 3).
  - destruct (_ <=? 3); cbn [leds set_leds show emit send_response
      incr_frames_rendered]; congruence.
  - intros p Hp Hnot.
    assert (Hl2 : leds (if wrap32 (frames_rendered s + 1) <=? 3
                   then send_response RESP_OK "FRAME_OK"
                          (incr_frames_rendered (show (set_leds l2 (incr_set_all_commands s))))
                   else incr_frames_rendered (show (set_leds l2 (incr_set_all_commands s))))
                 = l2) by (by destruct (_ <=? 3)).
    cbn [frames_rendered incr_frames_rendered show emit set_leds
         incr_set_all_commands] in Hl2 |- *.
    rewrite Hl2. rewrite <- (Hout1 p Hp Hnot).
    destruct (Hspec2 p Hp) as [Hin Hout].
    destruct (decide (p / MAX_LEDS_PER_STRIP < active_strips s /\
                      leds_per_strip s <= p mod MAX_LEDS_PER_STRIP)) as [[Hq Hr]|Hno].
    + destruct (decide (p < Z.of_nat (length l1))) as [Hlt|Hge].
      * right. by apply Hin.
      * left. rewrite !lookup_ge_None_2; [done|lia|lia].
    + left. by apply Hout.
  - intros k Hk. destruct (Hpix1 H0 k Hk) as (c & Hc & Hl1).
    exists c. split; [done|].
    pose proof (logical_to_physical_bound s Hcfg k
                  ltac:(destruct Hcfg as (Ha & Hl & Ht);
                        rewrite MAX_STRIPS_eq in Ha;
                        rewrite MAX_LEDS_PER_STRIP_eq in Hl; nia)) as Hb.
    unfold pixel_at. rewrite <- Hl1, <- Hkeep;
      [by destruct (_ <=? 3) | lia | by apply logical_to_physical_active].
  - intros p Hp Hq Hr. unfold pixel_at.
    destruct (Hspec2 p ltac:(lia)) as [Hin _].
    rewrite <- (Hin Hq Hr ltac:(lia)). by destruct (_ <=? 3).
Qed.

Lemma cmd_set_all_step data s :
  legal_config s -> exists s', cmd_set_all data s = Some s' /\ step_ok s s'.
Proof.
  intros Hcfg.
  destruct (Z.lt_ge_cases (Z.of_nat (length data)) (1 + total_leds s * 3))
    as [Hshort|Hlong].
  - rewrite cmd_set_all_reject by done. eexists. split; [done|].
    apply step_ok_gentle; try done. apply gentle_refl.
  - destruct (cmd_set_all_accept data s Hcfg Hlong)
      as (s' & Hrun & Ha & Hl & Ht & _ & _ & Hg & _).
    exists s'. split; [done|]. by apply step_ok_gentle.
Qed.

(** ** CMD_CONFIG *)

Lemma cmd_config_too_short data s :
  Z.of_nat (length data) < 4 ->
  cmd_config data s =
    Some (send_response RESP_ERROR "CONFIG_TOO_SHORT" (incr_config_commands s)).
Proof.
  intros Hshort. unfold cmd_config. cbv zeta.
  destruct (Z.ltb_spec (Z.of_nat (length data)) 4); [done|lia].
Qed.

Lemma cmd_config_invalid_strips d0 d1 d2 d3 rest s :
  ~ (1 <= requested_strips d1 <= MAX_STRIPS) ->
  cmd_config (d0 :: d1 :: d2 :: d3 :: rest) s =
    Some (send_response RESP_ERROR "INVALID_STRIPS" (incr_config_commands s)).
Proof.
  intros Hbad. unfold cmd_config. cbv zeta.
  destruct (Z.ltb_spec (Z.of_nat (length (d0 :: d1 :: d2 :: d3 :: rest))) 4) as [Hl|_].
  { cbn [length] in Hl. lia. }
  change (read_byte (d0 :: d1 :: d2 :: d3 :: rest) 1) with (Some d1).
  change (read_byte (d0 :: d1 :: d2 :: d3 :: rest) 2) with (Some d2).
  change (read_byte (d0 :: d1 :: d2 :: d3 :: rest) 3) with (Some d3).
  cbn [mbind option_bind]. unfold requested_strips in Hbad.
  pose proof (byte_to_Z_range d1).
  destruct (Z.eqb_spec (byte_to_Z d1) 0); [done|].
  destruct (Z.ltb_spec MAX_STRIPS (byte_to_Z d1)); [done|lia].
Qed.

Lemma cmd_config_invalid_length d0 d1 d2 d3 rest s :
  1 <= requested_strips d1 <= MAX_STRIPS ->
  ~ (1 <= requested_length d2 d3 <= MAX_LEDS_PER_STRIP) ->
  cmd_config (d0 :: d1 :: d2 :: d3 :: rest) s =
    Some (send_response RESP_ERROR "INVALID_LENGTH" (incr_config_commands s)).
Proof.
  intros Hstrips Hbad. unfold cmd_config. cbv zeta.
  destruct (Z.ltb_spec (Z.of_nat (length (d0 :: d1 :: d2 :: d3 :: rest))) 4) as [Hl|_].
  { cbn [length] in Hl. lia. }
  change (read_byte (d0 :: d1 :: d2 :: d3 :: rest) 1) with (Some d1).
  change (read_byte (d0 :: d1 :: d2 :: d3 :: rest) 2) with (Some d2).
  change (read_byte (d0 :: d1 :: d2 :: d3 :: rest) 3) with (Some d3).
  cbn [mbind option_bind]. unfold requested_strips in Hstrips.
  fold (requested_length d2 d3).
  pose proof (wrap16_range (Z.lor (Z.shiftl (byte_to_Z d2) 8) (byte_to_Z d3))) as Hw.
  fold (requested_length d2 d3) in Hw.
  destruct (Z.eqb_spec (byte_to_Z d1) 0); [lia|].
  destruct (Z.ltb_spec MAX_STRIPS (byte_to_Z d1)); [lia|].
  cbn [orb].
  destruct (Z.eqb_spec (requested_length d2 d3) 0); [done|].
  destruct (Z.ltb_spec MAX_LEDS_PER_STRIP (requested_length d2 d3)); [done|lia].
Qed.

Lemma cmd_config_valid d0 d1 d2 d3 rest s :
  1 <= requested_strips d1 <= MAX_STRIPS ->
  1 <= requested_length d2 d3 <= MAX_LEDS_PER_STRIP ->
  exists s',
    cmd_config (d0 :: d1 :: d2 :: d3 :: rest) s = Some s' /\
    active_strips s' = requested_strips d1 /\
    leds_per_strip s' = requested_length d2 d3 /\
    total_leds s' = requested_strips d1 * requested_length d2 d3 /\
    length (leds s') = length (leds s) /\
    (layout_differs s (requested_strips d1) (requested_length d2 d3) ->
       (forall p, 0 <= p < MAX_TOTAL_LEDS -> p < Z.of_nat (length (leds s)) ->
          pixel_at s' p = Some Black) /\
       serial_out s' =
         serial_out s ++ [FastLED_show; Response RESP_OK (Some "CONFIG_CHANGED"%string)]) /\
    (~ layout_differs s (requested_strips d1) (requested_length d2 d3) ->
       leds s' = leds s /\
       serial_out s' =
         serial_out s ++ [Response RESP_OK (Some "CONFIG_OK"%string)]).
Proof.
  intros Hstrips Hlen. unfold cmd_config. cbv zeta.
  destruct (Z.ltb_spec (Z.of_nat (length (d0 :: d1 :: d2 :: d3 :: rest))) 4) as [Hl|_].
  { cbn [length] in Hl. lia. }
  change (read_byte (d0 :: d1 :: d2 :: d3 :: rest) 1) with (Some d1).
  change (read_byte (d0 :: d1 :: d2 :: d3 :: rest) 2) with (Some d2).
  change (read_byte (d0 :: d1 :: d2 :: d3 :: rest) 3) with (Some d3).
  cbn [mbind option_bind].
  fold (requested_length d2 d3). fold (requested_strips d1).
  set (ns := requested_strips d1) in *. set (nl := requested_length d2 d3) in *.
  destruct (Z.eqb_spec ns 0); [lia|].
  destruct (Z.ltb_spec MAX_STRIPS ns); [lia|]. cbn [orb].
  destruct (Z.eqb_spec nl 0); [lia|].
  destruct (Z.ltb_spec MAX_LEDS_PER_STRIP nl); [lia|]. cbn [orb].
  assert (Htot : wrap16 (ns * nl) = ns * nl).
  { apply wrap16_small. rewrite MAX_STRIPS_eq in Hstrips.
    rewrite MAX_LEDS_PER_STRIP_eq in Hlen. nia. }
  cbn [active_strips leds_per_strip leds incr_config_commands set_config].
  (* the optional debug byte only touches [debug_logging] *)
  assert (Hdbg : forall t : engine, exists t',
    (if 5 <=? Z.of_nat (length (d0 :: d1 :: d2 :: d3 :: rest))
     then d4 ← read_byte (d0 :: d1 :: d2 :: d3 :: rest) 4;
          Some (set_debug_logging (negb (byte_to_Z d4 =? 0)) t)
     else Some t) = Some t' /\
    active_strips t' = active_strips t /\
    leds_per_strip t' = leds_per_strip t /\
    total_leds t' = total_leds t /\
    leds t' = leds t /\
    serial_out t' = serial_out t).
  { intros t.
    destruct (Z.leb_spec 5 (Z.of_nat (length (d0 :: d1 :: d2 :: d3 :: rest)))) as [H5|H5].
    - read_ok (d0 :: d1 :: d2 :: d3 :: rest) 4 d4 Hd4. by eexists.
    - by eexists. }
  destruct (Z.eqb_spec (active_strips s) ns) as [Hsa|Hsa];
    [destruct (Z.eqb_spec (leds_per_strip s) nl) as [Hsl|Hsl]|]; cbn [negb orb].
  - (* unchanged *)
    cbn [mbind option_bind].
    edestruct Hdbg as (t' & -> & Ha & Hl & Ht & Hleds & Hout).
    exists t'. rewrite Ha, Hl, Ht, Hleds, Hout.
    cbn [active_strips leds_per_strip total_leds leds serial_out
         send_response emit set_config incr_config_commands show set_leds].
    rewrite Htot.
    split; [reflexivity|]. do 4 (split; [reflexivity|]). split.
    + intros [?|?]; done.
    + intros _. done.
  - (* length changed *)
    destruct (clear_all_spec (leds s)) as (l' & Hrun & Hlen' & Hblack).
    rewrite Hrun. cbn [mbind option_bind].
    edestruct Hdbg as (t' & -> & Ha & Hl & Ht & Hleds & Hout).
    exists t'. unfold pixel_at. rewrite Ha, Hl, Ht, Hleds, Hout.
    cbn [active_strips leds_per_strip total_leds leds serial_out
         send_response emit set_config incr_config_commands show set_leds].
    rewrite Htot, <- app_assoc.
    split; [reflexivity|]. do 3 (split; [reflexivity|]). split; [exact Hlen'|].
    split.
    + intros _. split; [exact Hblack|reflexivity].
    + intros Hno. exfalso. apply Hno. by right.
  - (* strip count changed *)
    destruct (clear_all_spec (leds s)) as (l' & Hrun & Hlen' & Hblack).
    rewrite Hrun. cbn [mbind option_bind].
    edestruct Hdbg as (t' & -> & Ha & Hl & Ht & Hleds & Hout).
    exists t'. unfold pixel_at. rewrite Ha, Hl, Ht, Hleds, Hout.
    cbn [active_strips leds_per_strip total_leds leds serial_out
         send_response emit set_config incr_config_commands show set_leds].
    rewrite Htot, <- app_assoc.
    split; [reflexivity|]. do 3 (split; [reflexivity|]). split; [exact Hlen'|].
    split.
    + intros _. split; [exact Hblack|reflexivity].
    + intros Hno. exfalso. apply Hno. by left.
Qed.

Lemma cmd_config_step data s :
  legal_config s -> exists s', cmd_config data s = Some s' /\ step_ok s s'.
Proof.
  intros Hcfg.
  destruct (Z.lt_ge_cases (Z.of_nat (length data)) 4) as [Hshort|Hlong].
  { rewrite cmd_config_too_short by done. eexists. split; [done|].
    apply step_ok_gentle; try done. apply gentle_refl. }
  destruct data as [|d0 [|d1 [|d2 [|d3 rest]]]]; cbn [length] in Hlong; try lia.
  destruct (decide (1 <= requested_strips d1 <= MAX_STRIPS)) as [Hs|Hs].
  2: { rewrite cmd_config_invalid_strips by done. eexists. split; [done|].
       apply step_ok_gentle; try done. apply gentle_refl. }
  destruct (decide (1 <= requested_length d2 d3 <= MAX_LEDS_PER_STRIP)) as [Hl|Hl].
  2: { rewrite cmd_config_invalid_length by done. eexists. split; [done|].
       apply step_ok_gentle; try done. apply gentle_refl. }
  destruct (cmd_config_valid d0 d1 d2 d3 rest s Hs Hl)
    as (s' & Hrun & Ha & Hlps & Ht & Hlen & Hchanged & Hsame).
  exists s'. split; [done|].
  destruct (decide (active_strips s = requested_strips d1)) as [Ea|Ea];
    [destruct (decide (leds_per_strip s = requested_length d2 d3)) as [El|El]|].
  - destruct Hsame as [Hleds _]; [intros [?|?]; done|].
    destruct Hcfg as (? & ? & Htot).
    apply step_ok_gentle; [done|congruence|congruence|congruence|].
    rewrite Hleds. apply gentle_refl.
  - destruct Hchanged as [Hblack _]; [by right|].
    apply step_ok_dark; [|done|done].
    unfold legal_config. by rewrite Ha, Hlps, Ht.
  - destruct Hchanged as [Hblack _]; [by left|].
    apply step_ok_dark; [|done|done].
    unfold legal_config. by rewrite Ha, Hlps, Ht.
Qed.

(** ** The dispatcher *)

Lemma process_command_dispatch s data c :
  opcode data = Some c ->
  process_command s data =
    let s := received data s in
    if c =? CMD_ECHO then cmd_echo data s
    else if c =? CMD_PING then cmd_ping s
    else if c =? CMD_SET_PIXEL then cmd_set_pixel data s
    else if c =? CMD_SET_BRIGHTNESS then cmd_set_brightness data s
    else if c =? CMD_SHOW then cmd_show s
    else if c =? CMD_CLEAR then cmd_clear s
    else if c =? CMD_SET_RANGE then cmd_set_range data s
    else if c =? CMD_SET_ALL then cmd_set_all data s
    else if c =? CMD_CONFIG then cmd_config data s
    else Some (incr_packet_errors s).
Proof.
  destruct data as [|d0 rest]; [done|]. intros Hop.
  change (Some (byte_to_Z d0) = Some c) in Hop. injection Hop as <-.
  unfold process_command. cbv zeta.
  destruct (Z.eqb_spec (Z.of_nat (length (d0 :: rest))) 0) as [Hz|_].
  { cbn [length] in Hz. lia. }
  reflexivity.
Qed.

Lemma process_command_set_pixel s data :
  opcode data = Some CMD_SET_PIXEL ->
  process_command s data = cmd_set_pixel data (received data s).
Proof. intros H. by rewrite (process_command_dispatch s data _ H). Qed.

Lemma process_command_set_all s data :
  opcode data = Some CMD_SET_ALL ->
  process_command s data = cmd_set_all data (received data s).
Proof. intros H. by rewrite (process_command_dispatch s data _ H). Qed.

Lemma process_command_config s data :
  opcode data = Some CMD_CONFIG ->
  process_command s data = cmd_config data (received data s).
Proof. intros H. by rewrite (process_command_dispatch s data _ H). Qed.

(** Every command, on every legal configuration, runs to completion without
    an out-of-bounds access and keeps the layout invariant. *)
Lemma process_command_step s data :
  legal_config s ->
  exists s', process_command s data = Some s' /\ step_ok s s'.
Proof.
  intros Hcfg. destruct data as [|d0 rest].
  { exists s. split; [done|].
    apply step_ok_gentle; try done. apply gentle_refl. }
  rewrite (process_command_dispatch s (d0 :: rest) (byte_to_Z d0)) by done.
  cbv zeta. set (s1 := received (d0 :: rest) s).
  assert (Hcfg1 : legal_config s1) by exact Hcfg.
  assert (Hback : forall s', step_ok s1 s' -> step_ok s s') by (intros s' H; exact H).
  assert (Herr : step_ok s1 (incr_packet_errors s1)).
  { apply step_ok_gentle; try done. apply gentle_refl. }
  repeat match goal with
         | |- context [if ?c =? ?k then _ else _] => destruct (c =? k)
         end.
  - destruct (cmd_echo_step (d0 :: rest) s1 Hcfg1) as (s' & ? & ?); eauto.
  - destruct (cmd_ping_step s1 Hcfg1) as (s' & ? & ?); eauto.
  - destruct (cmd_set_pixel_step (d0 :: rest) s1 Hcfg1) as (s' & ? & ?); eauto.
  - destruct (cmd_set_brightness_step (d0 :: rest) s1 Hcfg1) as (s' & ? & ?); eauto.
  - destruct (cmd_show_step s1 Hcfg1) as (s' & ? & ?); eauto.
  - destruct (cmd_clear_step s1 Hcfg1) as (s' & ? & ?); eauto.
  - destruct (cmd_set_range_step (d0 :: rest) s1 Hcfg1) as (s' & ? & ?); eauto.
  - destruct (cmd_set_all_step (d0 :: rest) s1 Hcfg1) as (s' & ? & ?); eauto.
  - destruct (cmd_config_step (d0 :: rest) s1 Hcfg1) as (s' & ? & ?); eauto.
  - eauto.
Qed.

Lemma initial_engine_invariant : layout_invariant initial_engine.
Proof.
  split; [|split].
  - unfold legal_config.
    change (active_strips initial_engine) with 8.
    change (leds_per_strip initial_engine) with 140.
    change (total_leds initial_engine) with 1120.
    rewrite MAX_STRIPS_eq, MAX_LEDS_PER_STRIP_eq. lia.
  - cbn [leds initial_engine]. rewrite length_replicate. rewrite MAX_TOTAL_LEDS_eq. lia.
  - intros p Hp _. unfold pixel_at. cbn [leds initial_engine].
    apply lookup_replicate_2. lia.
Qed.

Lemma reachable_layout_invariant s : reachable s -> layout_invariant s.
Proof.
  induction 1 as [|s data s' Hreach (Hcfg & Hlen & Hblack) Hstep].
  - apply initial_engine_invariant.
  - destruct (process_command_step s data Hcfg) as (s'' & Hrun & Hcfg' & Hlen' & Hkeep).
    assert (s'' = s') as -> by congruence.
    split; [done|]. split; [lia|]. by apply Hkeep.
Qed.

(** * Properties of the specification *)

(** ** Address mapping *)

(** C3 (clamp behaviour).  For every legal configuration and every logical
    index [i] of the mapper's [uint16_t] domain with [i >= total_leds],
    [logical_to_physical i] is
    [(active_strips - 1) * MAX_LEDS_PER_STRIP + (leds_per_strip - 1)]: the
    last physical slot of the last active strip. *)
Theorem clamp_to_last_active_slot (s : engine) (i : Z) :
  legal_config s ->
  total_leds s <= i < 65536 ->
  logical_to_physical s i =
    (active_strips s - 1) * MAX_LEDS_PER_STRIP + (leds_per_strip s - 1).
Proof.
  intros Hcfg Hi. by apply logical_to_physical_clamped.
Qed.

Lemma clamp_to_last_active_slot_witness :
  logical_to_physical initial_engine 1120 = 3639 /\
  logical_to_physical initial_engine 65535 = 3639.
Proof.
  split.
  - rewrite (clamp_to_last_active_slot initial_engine 1120).
    + reflexivity.
    + apply initial_engine_invariant.
    + change (total_leds initial_engine) with 1120. lia.
  - rewrite (clamp_to_last_active_slot initial_engine 65535).
    + reflexivity.
    + apply initial_engine_invariant.
    + change (total_leds initial_engine) with 1120. lia.
Defined.

(** C5 (address-mapping correctness).  For every legal configuration and
    logical indices [0 <= i, j < total_leds]: [logical_to_physical i] lies
    in the active physical region (strip component below [active_strips],
    offset component below [leds_per_strip]), and distinct indices map to
    distinct physical slots. *)
Theorem mapping_active_and_injective (s : engine) (i j : Z) :
  legal_config s ->
  0 <= i < total_leds s ->
  0 <= j < total_leds s ->
  (logical_to_physical s i / MAX_LEDS_PER_STRIP < active_strips s /\
   logical_to_physical s i mod MAX_LEDS_PER_STRIP < leds_per_strip s) /\
  (i <> j -> logical_to_physical s i <> logical_to_physical s j).
Proof.
  intros Hcfg Hi Hj. split.
  - destruct (logical_to_physical_active s Hcfg i Hi) as (_ & Hq & Hr). done.
  - intros Hne Heq. apply Hne. by apply (logical_to_physical_inj s Hcfg).
Qed.

Lemma mapping_active_and_injective_witness :
  (logical_to_physical initial_engine 139 / MAX_LEDS_PER_STRIP < 8 /\
   logical_to_physical initial_engine 139 mod MAX_LEDS_PER_STRIP < 140) /\
  (139 <> 140 -> logical_to_physical initial_engine 139 <>
                 logical_to_physical initial_engine 140).
Proof.
  apply (mapping_active_and_injective initial_engine 139 140).
  - apply initial_engine_invariant.
  - change (total_leds initial_engine) with 1120. lia.
  - change (total_leds initial_engine) with 1120. lia.
Defined.

(** C10 (writes stay inside the render buffer).  When
    [1 <= active_strips <= MAX_STRIPS] and
    [1 <= leds_per_strip <= MAX_LEDS_PER_STRIP], [logical_to_physical i] is
    below [MAX_TOTAL_LEDS = MAX_STRIPS * MAX_LEDS_PER_STRIP] for every
    [uint16_t] index [i], in range or not; and with the configuration
    invariant in full, [process_command] completes on every buffer, that
    is, no handler writes outside [leds] (or reads outside the command
    buffer). *)
Theorem writes_within_capacity (s : engine) :
  1 <= active_strips s <= MAX_STRIPS ->
  1 <= leds_per_strip s <= MAX_LEDS_PER_STRIP ->
  MAX_TOTAL_LEDS = MAX_STRIPS * MAX_LEDS_PER_STRIP /\
  (forall i, 0 <= i < 65536 ->
     0 <= logical_to_physical s i < MAX_TOTAL_LEDS /\
     forall c l, write_led (logical_to_physical s i) c l <> None) /\
  (total_leds s = active_strips s * leds_per_strip s ->
   forall data, exists s', process_command s data = Some s').
Proof.
  intros Ha Hl. split; [reflexivity|]. split.
  - intros i Hi.
    pose (t := set_config (active_strips s) (leds_per_strip s)
                 (active_strips s * leds_per_strip s) s).
    assert (Ht : legal_config t) by (by split; [|split]).
    pose proof (logical_to_physical_bound t Ht i Hi) as Hb.
    change (logical_to_physical t i) with (logical_to_physical s i) in Hb.
    split; [done|]. intros c l. by rewrite write_led_Some.
  - intros Htot data.
    destruct (process_command_step s data) as (s' & Hrun & _).
    + by split; [|split].
    + by exists s'.
Qed.

Lemma writes_within_capacity_witness :
  0 <= logical_to_physical initial_engine 65535 < MAX_TOTAL_LEDS /\
  exists s', process_command initial_engine [x04] = Some s'.
Proof.
  destruct (writes_within_capacity initial_engine) as (_ & Hmap & Hrun).
  - change (active_strips initial_engine) with 8. rewrite MAX_STRIPS_eq. lia.
  - change (leds_per_strip initial_engine) with 140.
    rewrite MAX_LEDS_PER_STRIP_eq. lia.
  - split.
    + apply Hmap. lia.
    + apply Hrun. reflexivity.
Defined.

(** ** The layout invariant on reachable states *)

(** C9 (no stale pixels on inactive strips).  In every state reachable from
    the initial all-black render buffer by any sequence of processed
    commands, every physical slot on a strip index at or beyond
    [active_strips] is black; in particular nothing of a previous larger
    layout survives on those strips after a layout-changing CONFIG. *)
Theorem inactive_strips_black (s : engine) (strip offset : Z) :
  reachable s ->
  active_strips s <= strip < MAX_STRIPS ->
  0 <= offset < MAX_LEDS_PER_STRIP ->
  pixel_at s (strip * MAX_LEDS_PER_STRIP + offset) = Some Black.
Proof.
  intros Hreach Hstrip Hoff.
  destruct (reachable_layout_invariant s Hreach) as ((Ha & _) & _ & Hblack).
  apply Hblack.
  - rewrite MAX_TOTAL_LEDS_eq, MAX_LEDS_PER_STRIP_eq in *.
    rewrite MAX_STRIPS_eq in Hstrip. lia.
  - intros (_ & Hq & _). rewrite strip_major_div in Hq by done. lia.
Qed.

Lemma after_red_frame_reachable : reachable after_red_frame.
Proof.
  apply (reachable_step initial_engine red_frame).
  - apply reachable_init.
  - vm_compute. reflexivity.
Defined.

Lemma shrunk_engine_reachable : reachable shrunk_engine.
Proof.
  apply (reachable_step after_red_frame [x07; x01; x00; x0a]).
  - apply after_red_frame_reachable.
  - vm_compute. reflexivity.
Defined.

Lemma inactive_strips_black_witness :
  pixel_at after_red_frame (1 * MAX_LEDS_PER_STRIP + 0) = Some (mkCRGB xff x00 x00) /\
  pixel_at shrunk_engine (1 * MAX_LEDS_PER_STRIP + 0) = Some Black.
Proof.
  split.
  - vm_compute. reflexivity.
  - apply (inactive_strips_black shrunk_engine 1 0).
    + apply shrunk_engine_reachable.
    + change (active_strips shrunk_engine) with 1. rewrite MAX_STRIPS_eq. lia.
    + rewrite MAX_LEDS_PER_STRIP_eq. lia.
Defined.

(** ** CMD_SET_ALL *)

Lemma read_rgb_Some_inv (data : list byte) base c :
  read_rgb data base = Some c ->
  read_byte data base = Some (red c) /\
  read_byte data (base + 1) = Some (green c) /\
  read_byte data (base + 2) = Some (blue c).
Proof.
  unfold read_rgb. intros H.
  destruct (read_byte data base) as [r|]; [|done].
  destruct (read_byte data (base + 1)) as [g|]; [|done].
  destruct (read_byte data (base + 2)) as [b|]; [|done].
  cbn [mbind option_bind] in H. injection H as <-. done.
Qed.

(** C1, as the code has it.  For every engine state and every command
    buffer with opcode SET_ALL whose length is below [1 + total_leds * 3],
    the command is rejected: a SIZE_MISMATCH error response is emitted, the
    packet-error counter increments (as a [uint32_t]), the render buffer is
    unchanged and [frames_rendered] does not increment. *)
Theorem set_all_short_rejected (s : engine) (data : list byte) :
  opcode data = Some CMD_SET_ALL ->
  Z.of_nat (length data) < 1 + total_leds s * 3 ->
  exists s',
    process_command s data = Some s' /\
    serial_out s' =
      serial_out s ++ [Response RESP_ERROR (Some "SIZE_MISMATCH"%string)] /\
    packet_errors s' = wrap32 (packet_errors s + 1) /\
    (0 <= packet_errors s < 2 ^ 32 - 1 -> packet_errors s' = packet_errors s + 1) /\
    leds s' = leds s /\
    frames_rendered s' = frames_rendered s.
Proof.
  intros Hop Hshort. rewrite process_command_set_all by done.
  rewrite cmd_set_all_reject by exact Hshort.
  eexists. split; [reflexivity|].
  split; [reflexivity|]. split; [reflexivity|]. split; [|done].
  intros Hrange. cbn [packet_errors send_response emit incr_packet_errors
    incr_set_all_commands received incr_packets_received add_bytes_received].
  apply wrap32_small. lia.
Qed.

Lemma set_all_short_rejected_witness :
  exists s',
    process_command initial_engine [x06; xff; x00; x00] = Some s' /\
    serial_out s' = [Response RESP_ERROR (Some "SIZE_MISMATCH"%string)] /\
    packet_errors s' = 1 /\
    leds s' = leds initial_engine /\
    frames_rendered s' = 0.
Proof.
  destruct (set_all_short_rejected initial_engine [x06; xff; x00; x00])
    as (s' & Hrun & Hout & Herr & _ & Hleds & Hframes).
  - reflexivity.
  - vm_compute. reflexivity.
  - exists s'. repeat split; assumption.
Defined.

(** C1 as stated fails: a SET_ALL buffer longer than [1 + total_leds * 3]
    is not rejected.  On the initial state the 3362-byte frame is rendered:
    [frames_rendered] goes from 0 to 1, no error is counted, pixel 0 turns
    white and the response is FRAME_OK. *)
Lemma set_all_oversize_accepted :
  reachable initial_engine /\
  opcode oversize_frame = Some CMD_SET_ALL /\
  Z.of_nat (length oversize_frame) <> 1 + total_leds initial_engine * 3 /\
  frames_rendered <$> process_command initial_engine oversize_frame
    = Some (frames_rendered initial_engine + 1) /\
  packet_errors <$> process_command initial_engine oversize_frame
    = Some (packet_errors initial_engine) /\
  pixel_at initial_engine 0 = Some Black /\
  (fun s' => pixel_at s' 0) <$> process_command initial_engine oversize_frame
    = Some (Some (mkCRGB xff xff xff)) /\
  serial_out <$> process_command initial_engine oversize_frame
    = Some [FastLED_show; Response RESP_OK (Some "FRAME_OK"%string)].
Proof.
  split; [apply reachable_init|].
  split; [reflexivity|].
  split; [vm_compute; discriminate|].
  split; [vm_compute; reflexivity|].
  split; [vm_compute; reflexivity|].
  split; [vm_compute; reflexivity|].
  split; [vm_compute; reflexivity|].
  vm_compute; reflexivity.
Qed.

(** C2 (SET_ALL exactness, accepting half).  For every reachable engine
    state and every SET_ALL buffer of length exactly [1 + total_leds * 3]:
    after processing, every active logical pixel [i] holds the RGB triple of
    payload bytes [1+3i .. 3+3i] at [logical_to_physical i], every physical
    slot outside the active region is black, and [frames_rendered] has
    incremented by one (as a [uint32_t]). *)
Theorem set_all_exact_renders (s : engine) (data : list byte) :
  reachable s ->
  opcode data = Some CMD_SET_ALL ->
  Z.of_nat (length data) = 1 + total_leds s * 3 ->
  exists s',
    process_command s data = Some s' /\
    (forall i, 0 <= i < total_leds s ->
       exists r g b,
         read_byte data (1 + 3 * i) = Some r /\
         read_byte data (2 + 3 * i) = Some g /\
         read_byte data (3 + 3 * i) = Some b /\
         pixel_at s' (logical_to_physical s i) = Some (mkCRGB r g b)) /\
    (forall p, 0 <= p < MAX_TOTAL_LEDS -> ~ in_active_region s p ->
       pixel_at s' p = Some Black) /\
    frames_rendered s' = wrap32 (frames_rendered s + 1) /\
    (0 <= frames_rendered s < 2 ^ 32 - 1 ->
     frames_rendered s' = frames_rendered s + 1).
Proof.
  intros Hreach Hop Hlen.
  destruct (reachable_layout_invariant s Hreach) as (Hcfg & Hfull & Hblack).
  rewrite process_command_set_all by done.
  destruct (cmd_set_all_accept data (received data s) Hcfg)
    as (s' & Hrun & Ha & Hl & Ht & Hframes & _ & [_ Hg] & Hspec).
  { change (total_leds (received data s)) with (total_leds s). lia. }
  destruct (Hspec Hfull) as [Hpix _].
  exists s'. split; [done|]. split; [|split; [|split]].
  - intros i Hi. destruct (Hpix i Hi) as (c & Hc & Hat).
    destruct (read_rgb_Some_inv _ _ _ Hc) as (Hr & Hgr & Hb).
    exists (red c), (green c), (blue c).
    replace (1 + 3 * i) with (1 + i * 3) by lia.
    replace (2 + 3 * i) with (1 + i * 3 + 1) by lia.
    replace (3 + 3 * i) with (1 + i * 3 + 2) by lia.
    split; [done|]. split; [done|]. split; [done|].
    by destruct c.
  - intros p Hp Hnot. unfold pixel_at.
    destruct (Hg p ltac:(lia) Hnot) as [Heq|Hb]; [|done].
    rewrite Heq. by apply Hblack.
  - exact Hframes.
  - intros Hrange. rewrite Hframes.
    change (frames_rendered (received data s)) with (frames_rendered s).
    apply wrap32_small. lia.
Qed.

Lemma set_all_exact_renders_witness :
  exists s',
    process_command initial_engine red_frame = Some s' /\
    pixel_at s' (logical_to_physical initial_engine 1119) = Some (mkCRGB xff x00 x00) /\
    pixel_at s' 140 = Some Black /\
    frames_rendered s' = 1.
Proof.
  destruct (set_all_exact_renders initial_engine red_frame)
    as (s' & Hrun & Hpix & Hdark & _ & Hframes).
  - apply reachable_init.
  - reflexivity.
  - vm_compute. reflexivity.
  - exists s'. split; [exact Hrun|]. split; [|split].
    + destruct (Hpix 1119) as (r & g & b & Hr & Hg & Hb & Hat).
      { change (total_leds initial_engine) with 1120. lia. }
      vm_compute in Hr, Hg, Hb. congruence.
    + apply Hdark.
      * rewrite MAX_TOTAL_LEDS_eq. lia.
      * intros (_ & _ & Hoff). vm_compute in Hoff. discriminate.
    + apply Hframes. change (frames_rendered initial_engine) with 0. lia.
Defined.

(** ** CMD_SET_PIXEL *)

(** C4 as stated fails: on the default layout (1120 logical pixels) a
    SET_PIXEL for index 1120 with colour (1, 2, 3) does not write the last
    slot of the last active strip, slot 3639: it stays black. *)
Lemma set_pixel_beyond_total_not_clamped :
  reachable initial_engine /\
  opcode [x01; x04; x60; x01; x02; x03] = Some CMD_SET_PIXEL /\
  total_leds initial_engine <= pixel_index x04 x60 /\
  logical_to_physical initial_engine (pixel_index x04 x60) = 3639 /\
  (fun s' => pixel_at s' 3639)
    <$> process_command initial_engine [x01; x04; x60; x01; x02; x03]
    = Some (Some Black) /\
  Black <> mkCRGB x01 x02 x03.
Proof.
  split; [apply reachable_init|].
  split; [reflexivity|].
  split; [vm_compute; discriminate|].
  split; [reflexivity|].
  split; [vm_compute; reflexivity|discriminate].
Qed.

(** C4, as the code has it.  A SET_PIXEL command whose logical index is at
    or beyond [total_leds] is silently ignored: the render buffer is left
    as it was, no response is emitted and no error is counted. *)
Theorem set_pixel_out_of_range_ignored
    (s : engine) (d0 d1 d2 r g b : byte) (rest : list byte) :
  byte_to_Z d0 = CMD_SET_PIXEL ->
  total_leds s <= pixel_index d1 d2 ->
  exists s',
    process_command s (d0 :: d1 :: d2 :: r :: g :: b :: rest) = Some s' /\
    leds s' = leds s /\
    serial_out s' = serial_out s /\
    packet_errors s' = packet_errors s.
Proof.
  intros Hop Hbeyond.
  rewrite process_command_set_pixel by (unfold opcode; cbn; by rewrite Hop).
  set (data := d0 :: d1 :: d2 :: r :: g :: b :: rest).
  unfold cmd_set_pixel. cbv zeta.
  destruct (Z.ltb_spec (Z.of_nat (length data)) 6) as [Hl|_].
  { subst data. cbn [length] in Hl. lia. }
  change (read_byte data 1) with (Some d1).
  change (read_byte data 2) with (Some d2).
  change (read_byte data 3) with (Some r).
  change (read_byte data 4) with (Some g).
  change (read_byte data 5) with (Some b).
  cbn [mbind option_bind]. fold (pixel_index d1 d2).
  change (total_leds (received data s)) with (total_leds s).
  destruct (Z.ltb_spec (pixel_index d1 d2) (total_leds s)); [lia|].
  eexists. split; [reflexivity|]. done.
Qed.

Lemma set_pixel_out_of_range_ignored_witness :
  exists s',
    process_command initial_engine [x01; x04; x60; x01; x02; x03] = Some s' /\
    leds s' = leds initial_engine.
Proof.
  destruct (set_pixel_out_of_range_ignored initial_engine
              x01 x04 x60 x01 x02 x03 [])
    as (s' & Hrun & Hleds & _).
  - reflexivity.
  - vm_compute. discriminate.
  - exists s'. split; assumption.
Defined.

(** ** CMD_CONFIG *)

(** C6 (idempotence of CONFIG).  A valid CONFIG command clears the whole
    render buffer exactly when the requested (strip count, LEDs per strip)
    differs from the current layout: if it differs, every slot is black
    afterwards and the reply is CONFIG_CHANGED; if not, the buffer is
    untouched and the reply is CONFIG_OK.  Applying the same payload again
    always replies CONFIG_OK and leaves every pixel as it was. *)
Theorem config_clears_iff_changed
    (s : engine) (d0 d1 d2 d3 : byte) (rest : list byte) :
  Z.of_nat (length (leds s)) = MAX_TOTAL_LEDS ->
  byte_to_Z d0 = CMD_CONFIG ->
  1 <= requested_strips d1 <= MAX_STRIPS ->
  1 <= requested_length d2 d3 <= MAX_LEDS_PER_STRIP ->
  exists s' s'',
    process_command s (d0 :: d1 :: d2 :: d3 :: rest) = Some s' /\
    process_command s' (d0 :: d1 :: d2 :: d3 :: rest) = Some s'' /\
    (layout_differs s (requested_strips d1) (requested_length d2 d3) ->
       (forall p, 0 <= p < MAX_TOTAL_LEDS -> pixel_at s' p = Some Black) /\
       serial_out s' =
         serial_out s ++ [FastLED_show; Response RESP_OK (Some "CONFIG_CHANGED"%string)]) /\
    (~ layout_differs s (requested_strips d1) (requested_length d2 d3) ->
       leds s' = leds s /\
       serial_out s' =
         serial_out s ++ [Response RESP_OK (Some "CONFIG_OK"%string)]) /\
    leds s'' = leds s' /\
    serial_out s'' = serial_out s' ++ [Response RESP_OK (Some "CONFIG_OK"%string)].
Proof.
  intros Hfull Hop Hstrips Hlen.
  assert (Hopc : opcode (d0 :: d1 :: d2 :: d3 :: rest) = Some CMD_CONFIG)
    by (unfold opcode; cbn; by rewrite Hop).
  set (data := d0 :: d1 :: d2 :: d3 :: rest) in *.
  destruct (cmd_config_valid d0 d1 d2 d3 rest (received data s) Hstrips Hlen)
    as (s' & Hrun & Ha & Hl & _ & _ & Hchanged & Hsame).
  destruct (cmd_config_valid d0 d1 d2 d3 rest (received data s') Hstrips Hlen)
    as (s'' & Hrun' & _ & _ & _ & _ & _ & Hsame').
  destruct Hsame' as [Hleds' Hout'].
  { intros [Hd|Hd]; apply Hd; assumption. }
  exists s', s''.
  rewrite (process_command_config s data Hopc).
  rewrite (process_command_config s' data Hopc).
  split; [exact Hrun|]. split; [exact Hrun'|]. split; [|split; [|split]].
  - intros Hd. destruct (Hchanged Hd) as [Hblack Hout]. split; [|exact Hout].
    intros p Hp. apply Hblack; [done|].
    change (leds (received data s)) with (leds s). lia.
  - exact Hsame.
  - exact Hleds'.
  - exact Hout'.
Qed.

Lemma config_clears_iff_changed_witness :
  exists s' s'',
    process_command after_red_frame [x07; x01; x00; x0a] = Some s' /\
    process_command s' [x07; x01; x00; x0a] = Some s'' /\
    pixel_at after_red_frame 0 = Some (mkCRGB xff x00 x00) /\
    pixel_at s' 0 = Some Black /\
    leds s'' = leds s'.
Proof.
  destruct (config_clears_iff_changed after_red_frame x07 x01 x00 x0a [])
    as (s' & s'' & Hrun & Hrun' & Hchanged & _ & Hleds & _).
  - vm_compute. reflexivity.
  - reflexivity.
  - vm_compute. split; discriminate.
  - vm_compute. split; discriminate.
  - exists s', s''. split; [exact Hrun|]. split; [exact Hrun'|].
    split; [vm_compute; reflexivity|]. split; [|exact Hleds].
    apply Hchanged.
    + left. vm_compute. discriminate.
    + rewrite MAX_TOTAL_LEDS_eq. lia.
Defined.

(** C7 (invalid CONFIG mutates nothing).  A CONFIG command with fewer than
    three payload bytes after the opcode, or whose strip count is outside
    [1, MAX_STRIPS], or whose LEDs-per-strip is outside
    [1, MAX_LEDS_PER_STRIP], emits an error response and leaves
    [active_strips], [leds_per_strip], [total_leds] and the whole render
    buffer unchanged. *)
Theorem config_invalid_no_mutation (s : engine) (data : list byte) :
  opcode data = Some CMD_CONFIG ->
  (Z.of_nat (length data) < 4 \/
   exists d0 d1 d2 d3 rest,
     data = d0 :: d1 :: d2 :: d3 :: rest /\
     (~ 1 <= requested_strips d1 <= MAX_STRIPS \/
      ~ 1 <= requested_length d2 d3 <= MAX_LEDS_PER_STRIP)) ->
  exists s' message,
    process_command s data = Some s' /\
    serial_out s' = serial_out s ++ [Response RESP_ERROR (Some message)] /\
    In message ["CONFIG_TOO_SHORT"; "INVALID_STRIPS"; "INVALID_LENGTH"]%string /\
    active_strips s' = active_strips s /\
    leds_per_strip s' = leds_per_strip s /\
    total_leds s' = total_leds s /\
    leds s' = leds s.
Proof.
  intros Hop Hbad. rewrite process_command_config by done.
  destruct Hbad as [Hshort|(d0 & d1 & d2 & d3 & rest & -> & Hrange)].
  - rewrite cmd_config_too_short by done.
    eexists _, _. split; [reflexivity|]. split; [reflexivity|].
    split; [by left|done].
  - destruct (decide (1 <= requested_strips d1 <= MAX_STRIPS)) as [Hs|Hs].
    + destruct Hrange as [?|Hl]; [done|].
      rewrite cmd_config_invalid_length by done.
      eexists _, _. split; [reflexivity|]. split; [reflexivity|].
      split; [by right; right; left|done].
    + rewrite cmd_config_invalid_strips by done.
      eexists _, _. split; [reflexivity|]. split; [reflexivity|].
      split; [by right; left|done].
Qed.

Lemma config_invalid_no_mutation_witness :
  exists s',
    process_command after_red_frame [x07; x09; x00; x0a] = Some s' /\
    active_strips s' = 8 /\ leds_per_strip s' = 140 /\ total_leds s' = 1120 /\
    leds s' = leds after_red_frame.
Proof.
  destruct (config_invalid_no_mutation after_red_frame [x07; x09; x00; x0a])
    as (s' & msg & Hrun & _ & _ & Ha & Hl & Ht & Hleds).
  - reflexivity.
  - right. exists x07, x09, x00, x0a, []. split; [reflexivity|].
    left. vm_compute. intros [_ H]. apply H. reflexivity.
  - exists s'. split; [exact Hrun|].
    split; [exact Ha|]. split; [exact Hl|]. split; [exact Ht|exact Hleds].
Defined.

(** ** Framed-stream transport *)

Lemma framing_markers :
  byte_to_Z xaa = PACKET_START /\ byte_to_Z x55 = PACKET_END.
Proof. split; reflexivity. Qed.

Lemma loop_skips_junk s junk rx :
  byte_to_Z junk <> PACKET_START ->
  3 <= Z.of_nat (length rx) ->
  loop s (junk :: rx) = Some (incr_packet_errors s, rx).
Proof.
  intros Hjunk Hlen. unfold loop.
  destruct (Z.leb_spec 4 (Z.of_nat (length (junk :: rx)))) as [_|Hl].
  2: { cbn [length] in Hl. lia. }
  cbn [serial_read].
  destruct (Z.eqb_spec (byte_to_Z junk) PACKET_START); [done|reflexivity].
Qed.

Lemma loop_reads_packet s lo hi payload :
  well_formed_packet lo hi payload ->
  loop s (framed lo hi payload) =
    s' ← process_command s payload; Some (s', []).
Proof.
  intros [Hlen Hfit]. unfold loop, framed.
  destruct (Z.leb_spec 4 (Z.of_nat (length (xaa :: lo :: hi :: payload ++ [x55]))))
    as [_|Hl].
  2: { cbn [length] in Hl. rewrite length_app in Hl. cbn [length] in Hl. lia. }
  cbn [serial_read].
  change (byte_to_Z xaa =? PACKET_START) with true. cbv iota.
  fold (le16 lo hi). rewrite Hlen.
  destruct (Z.ltb_spec MAX_PACKET_SIZE (Z.of_nat (length payload))); [lia|].
  destruct (Z.ltb_spec (Z.of_nat (length (payload ++ [x55])))
              (Z.of_nat (length payload) + 1)) as [Hl|_].
  { rewrite length_app in Hl. cbn [length] in Hl. lia. }
  rewrite Nat2Z.id, take_app_length, drop_app_length.
  cbn [serial_read].
  change (byte_to_Z x55 =? PACKET_END) with true. reflexivity.
Qed.

(** C8 (framing resync).  In framed-stream mode, when the receive queue
    holds one spurious non-START byte followed by a well-formed packet, the
    first iteration of [loop] discards the spurious byte and counts exactly
    one packet error (nothing else changes); the next iteration parses the
    packet, consumes it entirely and hands exactly its payload to
    [process_command], which completes on every legal configuration. *)
Theorem framing_resync (s : engine) (junk lo hi : byte) (payload : list byte) :
  byte_to_Z junk <> PACKET_START ->
  well_formed_packet lo hi payload ->
  exists s1,
    loop s (junk :: framed lo hi payload) = Some (s1, framed lo hi payload) /\
    s1 = incr_packet_errors s /\
    packet_errors s1 = wrap32 (packet_errors s + 1) /\
    loop s1 (framed lo hi payload) =
      (s2 ← process_command s1 payload; Some (s2, [])) /\
    (legal_config s ->
     exists s2, process_command s1 payload = Some s2 /\
                loop s1 (framed lo hi payload) = Some (s2, [])).
Proof.
  intros Hjunk Hwf. exists (incr_packet_errors s).
  split; [|split; [reflexivity|split; [reflexivity|split]]].
  - apply loop_skips_junk; [done|].
    unfold framed. cbn [length]. lia.
  - by apply loop_reads_packet.
  - intros Hcfg.
    destruct (process_command_step (incr_packet_errors s) payload Hcfg)
      as (s2 & Hrun & _).
    exists s2. split; [done|].
    rewrite loop_reads_packet by done. by rewrite Hrun.
Qed.

Lemma framing_resync_witness :
  exists s1 s2,
    loop initial_engine [x00; xaa; x01; x00; xff; x55]
      = Some (s1, [xaa; x01; x00; xff; x55]) /\
    packet_errors s1 = 1 /\
    loop s1 [xaa; x01; x00; xff; x55] = Some (s2, []) /\
    process_command s1 [xff] = Some s2.
Proof.
  destruct (framing_resync initial_engine x00 x01 x00 [xff])
    as (s1 & Hskip & _ & Herr & _ & Hnext).
  - vm_compute. discriminate.
  - split; [reflexivity|]. vm_compute. discriminate.
  - destruct Hnext as (s2 & Hrun & Hloop); [apply initial_engine_invariant|].
    exists s1, s2. split; [exact Hskip|]. split; [exact Herr|].
    split; [exact Hloop|exact Hrun].
Defined.

(** * Further properties of the dispatcher *)

(** ** What each handler leaves alone *)

#[local] Ltac run_handler H :=
  cbv zeta in H;
  repeat match goal with
         | H' : (if ?b then _ else _) = Some _ |- _ => destruct b eqn:?
         | H' : (_ ≫= _) = Some _ |- _ =>
             let x := fresh "x" in
             let Hx := fresh "Hx" in
             apply bind_Some in H'; destruct H' as (x & Hx & H')
         | H' : Some _ = Some _ |- _ => injection H' as <-
         end.

Lemma cmd_echo_frame data s s' :
  cmd_echo data s = Some s' ->
  same_config s s' /\ same_traffic s s' /\
  frames_rendered s' = frames_rendered s /\
  packet_errors s' = packet_errors s /\
  leds s' = leds s /\
  serial_out s' = serial_out s ++ [Echo data].
Proof.
  unfold cmd_echo, same_config, same_traffic. intros H. run_handler H; done.
Qed.

Lemma cmd_ping_frame s s' :
  cmd_ping s = Some s' ->
  same_config s s' /\ same_traffic s s' /\
  frames_rendered s' = frames_rendered s /\
  packet_errors s' = packet_errors s /\
  leds s' = leds s.
Proof.
  unfold cmd_ping, same_config, same_traffic. intros H. run_handler H; done.
Qed.

Lemma cmd_set_pixel_frame data s s' :
  cmd_set_pixel data s = Some s' ->
  same_config s s' /\ same_traffic s s' /\
  frames_rendered s' = frames_rendered s /\
  packet_errors s' = packet_errors s /\
  serial_out s' = serial_out s.
Proof.
  unfold cmd_set_pixel, same_config, same_traffic. intros H. run_handler H; done.
Qed.

Lemma cmd_set_brightness_frame data s s' :
  cmd_set_brightness data s = Some s' ->
  same_config s s' /\ same_traffic s s' /\
  frames_rendered s' = frames_rendered s /\
  packet_errors s' = packet_errors s /\
  leds s' = leds s.
Proof.
  unfold cmd_set_brightness, same_config, same_traffic. intros H.
  run_handler H; done.
Qed.

Lemma cmd_show_frame s s' :
  cmd_show s = Some s' ->
  same_config s s' /\ same_traffic s s' /\
  frames_rendered s' = frames_rendered s /\
  packet_errors s' = packet_errors s /\
  leds s' = leds s.
Proof.
  unfold cmd_show, same_config, same_traffic. intros H. run_handler H; done.
Qed.

Lemma cmd_clear_frame s s' :
  cmd_clear s = Some s' ->
  same_config s s' /\ same_traffic s s' /\
  frames_rendered s' = frames_rendered s /\
  packet_errors s' = packet_errors s /\
  serial_out s' = serial_out s ++ [FastLED_show].
Proof.
  unfold cmd_clear, same_config, same_traffic. intros H. run_handler H; done.
Qed.

Lemma cmd_set_range_frame data s s' :
  cmd_set_range data s = Some s' ->
  same_config s s' /\ same_traffic s s' /\
  frames_rendered s' = frames_rendered s /\
  packet_errors s' = packet_errors s /\
  serial_out s' = serial_out s.
Proof.
  unfold cmd_set_range, same_config, same_traffic. intros H. run_handler H; done.
Qed.

Lemma cmd_set_all_frame data s s' :
  cmd_set_all data s = Some s' ->
  same_config s s' /\ same_traffic s s' /\
  (Z.of_nat (length data) < 1 + total_leds s * 3 ->
     frames_rendered s' = frames_rendered s /\
     packet_errors s' = wrap32 (packet_errors s + 1)) /\
  (1 + total_leds s * 3 <= Z.of_nat (length data) ->
     frames_rendered s' = wrap32 (frames_rendered s + 1) /\
     packet_errors s' = packet_errors s /\
     serial_out s' =
       serial_out s ++ FastLED_show ::
         (if wrap32 (frames_rendered s + 1) <=? 3
          then [Response RESP_OK (Some "FRAME_OK"%string)] else [])).
Proof.
  unfold cmd_set_all, same_config, same_traffic. intros H. run_handler H.
  all: repeat match goal with
              | H' : (_ <? _) = true |- _ => apply Z.ltb_lt in H'
              | H' : (_ <? _) = false |- _ => apply Z.ltb_ge in H'
              end.
  all: cbn [total_leds incr_set_all_commands] in *.
  all: split; [first [done | by destruct (_ <=? 3)]|].
  all: split; [first [done | by destruct (_ <=? 3)]|].
  all: split; [intros ?; try lia; done|intros ?; try lia].
  all: cbn [frames_rendered incr_frames_rendered show emit set_leds
            incr_set_all_commands].
  all: destruct (wrap32 (frames_rendered s + 1) <=? 3).
  all: split; [done|]; split; [done|].
  all: cbn; rewrite <- ?app_assoc; done.
Qed.

Lemma cmd_config_frame data s s' :
  cmd_config data s = Some s' ->
  same_traffic s s' /\
  frames_rendered s' = frames_rendered s /\
  packet_errors s' = packet_errors s.
Proof.
  unfold cmd_config, same_traffic. intros H. run_handler H.
  all: split; [split; reflexivity|split; reflexivity].
Qed.

Lemma opcode_nonempty data c :
  opcode data = Some c -> data <> [] /\ 0 <= c < 256.
Proof.
  destruct data as [|d0 rest]; [done|]. intros H.
  change (Some (byte_to_Z d0) = Some c) in H. injection H as <-.
  split; [done|]. apply byte_to_Z_range.
Qed.

#[local] Ltac dispatch H s data c Hop :=
  rewrite (process_command_dispatch s data c Hop) in H; cbv zeta in H;
  repeat match type of H with
         | (if ?x =? ?k then _ else _) = _ => destruct (Z.eqb_spec x k)
         end.

#[local] Ltac absurd_opcode Hc :=
  exfalso;
  first [ contradiction
        | match goal with
          | e : _ = _ |- _ => rewrite e in Hc; discriminate Hc
          end ].

(** X1.  The layout can only be changed by CMD_CONFIG: a command with any other
    opcode (and an empty buffer) leaves [active_strips], [leds_per_strip]
    and [total_leds] as they were. *)
Theorem config_only_by_config (s s' : engine) (data : list byte) :
  process_command s data = Some s' ->
  opcode data <> Some CMD_CONFIG ->
  same_config s s'.
Proof.
  intros H Hnot. destruct (opcode data) as [c|] eqn:Hop.
  2: { destruct data; [|done]. by injection H as <-. }
  dispatch H s data c Hop.
  - by destruct (cmd_echo_frame _ _ _ H) as (? & _).
  - by destruct (cmd_ping_frame _ _ H) as (? & _).
  - by destruct (cmd_set_pixel_frame _ _ _ H) as (? & _).
  - by destruct (cmd_set_brightness_frame _ _ _ H) as (? & _).
  - by destruct (cmd_show_frame _ _ H) as (? & _).
  - by destruct (cmd_clear_frame _ _ H) as (? & _).
  - by destruct (cmd_set_range_frame _ _ _ H) as (? & _).
  - by destruct (cmd_set_all_frame _ _ _ H) as (? & _).
  - congruence.
  - by injection H as <-.
Qed.

Lemma config_only_by_config_witness :
  same_config initial_engine after_red_frame.
Proof.
  apply (config_only_by_config initial_engine after_red_frame red_frame).
  - vm_compute. reflexivity.
  - vm_compute. discriminate.
Defined.

(** X2.  Commands that are not pixel commands never touch the render buffer:
    after ECHO, PING, SET_BRIGHTNESS, SHOW or an unknown opcode [leds] is
    what it was. *)
Theorem leds_only_by_pixel_commands (s s' : engine) (data : list byte) (c : Z) :
  process_command s data = Some s' ->
  opcode data = Some c ->
  ~ In c pixel_opcodes ->
  leds s' = leds s.
Proof.
  intros H Hop Hnot. unfold pixel_opcodes in Hnot. cbn [In] in Hnot.
  dispatch H s data c Hop;
    try solve [exfalso; apply Hnot; subst c; auto 10].
  - by destruct (cmd_echo_frame _ _ _ H) as (_ & _ & _ & _ & ? & _).
  - by destruct (cmd_ping_frame _ _ H) as (_ & _ & _ & _ & ?).
  - by destruct (cmd_set_brightness_frame _ _ _ H) as (_ & _ & _ & _ & ?).
  - by destruct (cmd_show_frame _ _ H) as (_ & _ & _ & _ & ?).
  - by injection H as <-.
Qed.

Lemma leds_only_by_pixel_commands_witness :
  exists s', process_command after_red_frame [x02; x80] = Some s' /\
             leds s' = leds after_red_frame.
Proof.
  eexists. split; [vm_compute; reflexivity|].
  apply (leds_only_by_pixel_commands after_red_frame _ [x02; x80] CMD_SET_BRIGHTNESS).
  - vm_compute. reflexivity.
  - reflexivity.
  - vm_compute. intuition discriminate.
Defined.
(** ** Statistics accounting *)

(** X3.  [frames_rendered] counts accepted SET_ALL frames and nothing else: it
    increments (as a [uint32_t]) when the opcode is SET_ALL and the buffer
    has at least [1 + total_leds * 3] bytes, and is unchanged by every other
    command, CMD_SHOW and CMD_CLEAR included. *)
Theorem frames_count_accepted_set_all (s s' : engine) (data : list byte) :
  process_command s data = Some s' ->
  (opcode data = Some CMD_SET_ALL /\
   1 + total_leds s * 3 <= Z.of_nat (length data) ->
     frames_rendered s' = wrap32 (frames_rendered s + 1)) /\
  (~ (opcode data = Some CMD_SET_ALL /\
      1 + total_leds s * 3 <= Z.of_nat (length data)) ->
     frames_rendered s' = frames_rendered s).
Proof.
  intros H. destruct (opcode data) as [c|] eqn:Hop.
  2: { destruct data; [|done]. injection H as <-. split; [by intros [? _]|done]. }
  dispatch H s data c Hop.
  all: try match goal with
           | Hc : _ = CMD_SET_ALL |- _ => idtac
           | _ => split; [intros [Hc _]; injection Hc as Hc;
                          absurd_opcode Hc|intros _]
           end.
  - by destruct (cmd_echo_frame _ _ _ H) as (_ & _ & ? & _).
  - by destruct (cmd_ping_frame _ _ H) as (_ & _ & ? & _).
  - by destruct (cmd_set_pixel_frame _ _ _ H) as (_ & _ & ? & _).
  - by destruct (cmd_set_brightness_frame _ _ _ H) as (_ & _ & ? & _).
  - by destruct (cmd_show_frame _ _ H) as (_ & _ & ? & _).
  - by destruct (cmd_clear_frame _ _ H) as (_ & _ & ? & _).
  - by destruct (cmd_set_range_frame _ _ _ H) as (_ & _ & ? & _).
  - destruct (cmd_set_all_frame _ _ _ H) as (_ & _ & Hshort & Hlong).
    change (total_leds (received data s)) with (total_leds s) in *.
    change (frames_rendered (received data s)) with (frames_rendered s) in *.
    split.
    + intros [_ Hlen]. by destruct (Hlong Hlen) as (? & _).
    + intros Hno. apply Hshort.
      destruct (Z.lt_ge_cases (Z.of_nat (length data)) (1 + total_leds s * 3));
        [done|]. exfalso. apply Hno. split; [by subst c|done].
  - by destruct (cmd_config_frame _ _ _ H) as (_ & ? & _).
  - by injection H as <-.
Qed.

Lemma frames_count_accepted_set_all_witness :
  exists s',
    process_command after_red_frame [x04] = Some s' /\
    frames_rendered s' = frames_rendered after_red_frame.
Proof.
  eexists. split; [vm_compute; reflexivity|].
  apply (frames_count_accepted_set_all after_red_frame _ [x04]).
  - vm_compute. reflexivity.
  - intros [Hop _]. vm_compute in Hop. discriminate.
Defined.

(** X4.  [packet_errors], as far as the dispatcher is concerned, counts exactly
    the SET_ALL frames that are too short and the unknown opcodes.  An
    invalid CONFIG and a truncated SET_PIXEL, SET_BRIGHTNESS or SET_RANGE
    are not counted. *)
Theorem packet_errors_count_short_frames_and_unknown
    (s s' : engine) (data : list byte) (c : Z) :
  process_command s data = Some s' ->
  opcode data = Some c ->
  ((c = CMD_SET_ALL /\ Z.of_nat (length data) < 1 + total_leds s * 3) \/
   ~ In c known_opcodes ->
     packet_errors s' = wrap32 (packet_errors s + 1)) /\
  (~ ((c = CMD_SET_ALL /\ Z.of_nat (length data) < 1 + total_leds s * 3) \/
      ~ In c known_opcodes) ->
     packet_errors s' = packet_errors s).
Proof.
  intros H Hop. unfold known_opcodes. cbn [In].
  dispatch H s data c Hop.
  all: try match goal with
           | Hc : _ = CMD_SET_ALL |- _ => idtac
           | Hc : _ = _ |- _ =>
               split; [intros [[Hc' _]|Hno];
                         [absurd_opcode Hc'
                         |exfalso; apply Hno; rewrite Hc; auto 10]
                      |intros _]
           end.
  - by destruct (cmd_echo_frame _ _ _ H) as (_ & _ & _ & ? & _).
  - by destruct (cmd_ping_frame _ _ H) as (_ & _ & _ & ? & _).
  - by destruct (cmd_set_pixel_frame _ _ _ H) as (_ & _ & _ & ? & _).
  - by destruct (cmd_set_brightness_frame _ _ _ H) as (_ & _ & _ & ? & _).
  - by destruct (cmd_show_frame _ _ H) as (_ & _ & _ & ? & _).
  - by destruct (cmd_clear_frame _ _ H) as (_ & _ & _ & ? & _).
  - by destruct (cmd_set_range_frame _ _ _ H) as (_ & _ & _ & ? & _).
  - destruct (cmd_set_all_frame _ _ _ H) as (_ & _ & Hshort & Hlong).
    change (total_leds (received data s)) with (total_leds s) in *.
    change (packet_errors (received data s)) with (packet_errors s) in *.
    split.
    + intros [[_ Hlen]|Hno].
      * by destruct (Hshort Hlen) as (_ & ?).
      * exfalso. apply Hno. rewrite e. auto 10.
    + intros Hno.
      destruct (Z.lt_ge_cases (Z.of_nat (length data)) (1 + total_leds s * 3))
        as [Hlt|Hge]; [exfalso; apply Hno; by left|].
      by destruct (Hlong Hge) as (_ & ? & _).
  - by destruct (cmd_config_frame _ _ _ H) as (_ & _ & ?).
  - injection H as <-. split; [done|]. intros Hno. exfalso. apply Hno.
    right. intros Hin. intuition congruence.
Qed.

Lemma packet_errors_count_short_frames_and_unknown_witness :
  (exists s', process_command initial_engine [x09] = Some s' /\
              packet_errors s' = 1) /\
  (exists s', process_command initial_engine [x07; x09; x00; x0a] = Some s' /\
              packet_errors s' = 0).
Proof.
  split.
  - eexists. split; [vm_compute; reflexivity|].
    apply (packet_errors_count_short_frames_and_unknown
             initial_engine _ [x09] 9).
    + vm_compute. reflexivity.
    + reflexivity.
    + right. vm_compute. intuition discriminate.
  - eexists. split; [vm_compute; reflexivity|].
    apply (packet_errors_count_short_frames_and_unknown
             initial_engine _ [x07; x09; x00; x0a] CMD_CONFIG).
    + vm_compute. reflexivity.
    + reflexivity.
    + intros [[Hc _]|Hno]; [discriminate|].
      apply Hno. vm_compute. auto 10.
Defined.

(** X5.  Every non-empty command buffer is counted as one packet of its length,
    whether or not the command is then accepted; an empty buffer changes
    nothing at all. *)
Theorem traffic_counters (s s' : engine) (data : list byte) :
  process_command s data = Some s' ->
  (data = [] -> s' = s) /\
  (data <> [] ->
     packets_received s' = wrap32 (packets_received s + 1) /\
     total_bytes_received s' =
       wrap32 (total_bytes_received s + Z.of_nat (length data))).
Proof.
  intros H. split.
  { intros ->. by injection H as <-. }
  intros Hne. destruct (opcode data) as [c|] eqn:Hop.
  2: { by destruct data. }
  assert (Hgoal : same_traffic (received data s) s').
  { dispatch H s data c Hop.
    - by destruct (cmd_echo_frame _ _ _ H) as (_ & ? & _).
    - by destruct (cmd_ping_frame _ _ H) as (_ & ? & _).
    - by destruct (cmd_set_pixel_frame _ _ _ H) as (_ & ? & _).
    - by destruct (cmd_set_brightness_frame _ _ _ H) as (_ & ? & _).
    - by destruct (cmd_show_frame _ _ H) as (_ & ? & _).
    - by destruct (cmd_clear_frame _ _ H) as (_ & ? & _).
    - by destruct (cmd_set_range_frame _ _ _ H) as (_ & ? & _).
    - by destruct (cmd_set_all_frame _ _ _ H) as (_ & ? & _).
    - by destruct (cmd_config_frame _ _ _ H) as (? & _).
    - by injection H as <-. }
  exact Hgoal.
Qed.

Lemma traffic_counters_witness :
  exists s', process_command initial_engine [x06; xff; x00; x00] = Some s' /\
             packets_received s' = 1 /\ total_bytes_received s' = 4.
Proof.
  eexists. split; [vm_compute; reflexivity|].
  apply (traffic_counters initial_engine _ [x06; xff; x00; x00]).
  - vm_compute. reflexivity.
  - discriminate.
Defined.

(** ** Truncated commands *)

(** X6.  A SET_PIXEL shorter than 6 bytes, a SET_BRIGHTNESS shorter than 2, a
    SET_RANGE shorter than 4 or than its declared [4 + 3 * count], and a
    SET_RANGE that starts at or beyond [total_leds] are dropped silently:
    apart from the traffic counters the engine is unchanged, so no error is
    counted and no response is sent. *)
Theorem truncated_commands_dropped (s : engine) (data : list byte) (c : Z) :
  opcode data = Some c ->
  (c = CMD_SET_PIXEL /\ Z.of_nat (length data) < 6) \/
  (c = CMD_SET_BRIGHTNESS /\ Z.of_nat (length data) < 2) \/
  (c = CMD_SET_RANGE /\ Z.of_nat (length data) < 4) \/
  (c = CMD_SET_RANGE /\
   exists d0 d1 d2 d3 rest,
     data = d0 :: d1 :: d2 :: d3 :: rest /\
     (total_leds s <= pixel_index d1 d2 \/
      Z.of_nat (length data) < 4 + byte_to_Z d3 * 3)) ->
  process_command s data = Some (received data s).
Proof.
  intros Hop Hcase. rewrite (process_command_dispatch s data c Hop). cbv zeta.
  destruct Hcase as [[-> Hlen]|[[-> Hlen]|[[-> Hlen]|[-> Hrange]]]].
  - change (cmd_set_pixel data (received data s) = Some (received data s)).
    unfold cmd_set_pixel. cbv zeta.
    destruct (Z.ltb_spec (Z.of_nat (length data)) 6); [done|lia].
  - change (cmd_set_brightness data (received data s) = Some (received data s)).
    unfold cmd_set_brightness. cbv zeta.
    destruct (Z.ltb_spec (Z.of_nat (length data)) 2); [done|lia].
  - change (cmd_set_range data (received data s) = Some (received data s)).
    unfold cmd_set_range. cbv zeta.
    destruct (Z.ltb_spec (Z.of_nat (length data)) 4); [done|lia].
  - change (cmd_set_range data (received data s) = Some (received data s)).
    destruct Hrange as (d0 & d1 & d2 & d3 & rest & Hdata & Hbad).
    unfold cmd_set_range. cbv zeta.
    destruct (Z.ltb_spec (Z.of_nat (length data)) 4) as [|_]; [done|].
    assert (H1 : read_byte data 1 = Some d1) by (by rewrite Hdata).
    assert (H2 : read_byte data 2 = Some d2) by (by rewrite Hdata).
    assert (H3 : read_byte data 3 = Some d3) by (by rewrite Hdata).
    rewrite H1, H2, H3.
    cbn [mbind option_bind]. fold (pixel_index d1 d2).
    change (total_leds (received data s)) with (total_leds s).
    destruct (Z.leb_spec (total_leds s) (pixel_index d1 d2)); [done|].
    destruct Hbad as [?|Hshort]; [lia|].
    destruct (Z.ltb_spec (Z.of_nat (length data)) (4 + byte_to_Z d3 * 3));
      [done|lia].
Qed.

Lemma truncated_commands_dropped_witness :
  process_command initial_engine [x05; x00; x00; x02; xff; xff; xff]
    = Some (received [x05; x00; x00; x02; xff; xff; xff] initial_engine).
Proof.
  apply (truncated_commands_dropped initial_engine
           [x05; x00; x00; x02; xff; xff; xff] CMD_SET_RANGE).
  - reflexivity.
  - right. right. right. split; [reflexivity|].
    exists x05, x00, x00, x02, [xff; xff; xff]. split; [reflexivity|].
    right. vm_compute. reflexivity.
Defined.
(** ** CMD_CLEAR, CMD_SET_PIXEL and CMD_SET_RANGE *)

Lemma process_command_clear s data :
  opcode data = Some CMD_CLEAR ->
  process_command s data = cmd_clear (received data s).
Proof. intros H. by rewrite (process_command_dispatch s data _ H). Qed.

Lemma process_command_set_range s data :
  opcode data = Some CMD_SET_RANGE ->
  process_command s data = cmd_set_range data (received data s).
Proof. intros H. by rewrite (process_command_dispatch s data _ H). Qed.

(** X7.  CMD_CLEAR, whatever follows the opcode, blacks out every slot of every
    active strip over its full physical capacity (not only the first
    [leds_per_strip] slots), leaves the inactive strips as they are, and
    renders once.  When everything outside the active region was already
    black, as in every reachable state, the whole buffer is black
    afterwards. *)
Theorem clear_blacks_active_strips (s : engine) (data : list byte) :
  legal_config s ->
  Z.of_nat (length (leds s)) = MAX_TOTAL_LEDS ->
  opcode data = Some CMD_CLEAR ->
  exists s',
    process_command s data = Some s' /\
    (forall p, 0 <= p < MAX_TOTAL_LEDS ->
       p / MAX_LEDS_PER_STRIP < active_strips s ->
       pixel_at s' p = Some Black) /\
    (forall p, 0 <= p -> active_strips s <= p / MAX_LEDS_PER_STRIP ->
       pixel_at s' p = pixel_at s p) /\
    (outside_black s ->
     forall p, 0 <= p < MAX_TOTAL_LEDS -> pixel_at s' p = Some Black) /\
    serial_out s' = serial_out s ++ [FastLED_show].
Proof.
  intros Hcfg Hfull Hop. rewrite process_command_clear by done.
  destruct (clear_rows_spec (active_strips s) 0 (leds s))
    as (l' & Hrun & Hlen & Hspec).
  { destruct Hcfg as (Ha & _). lia. }
  { done. }
  unfold cmd_clear.
  change (active_strips (received data s)) with (active_strips s).
  change (leds (received data s)) with (leds s).
  rewrite Hrun. cbn [mbind option_bind].
  eexists. split; [reflexivity|].
  assert (Hin : forall p, 0 <= p < MAX_TOTAL_LEDS ->
            p / MAX_LEDS_PER_STRIP < active_strips s ->
            l' !! Z.to_nat p = Some Black).
  { intros p Hp Hq. destruct (Hspec p ltac:(lia)) as [Hb _].
    apply Hb; [done| |lia].
    apply Z.mod_pos_bound. done. }
  assert (Hout : forall p, 0 <= p -> active_strips s <= p / MAX_LEDS_PER_STRIP ->
            l' !! Z.to_nat p = leds s !! Z.to_nat p).
  { intros p Hp Hq. destruct (Hspec p Hp) as [_ Hk]. apply Hk. lia. }
  split; [exact Hin|]. split; [exact Hout|]. split; [|reflexivity].
  intros Hblack p Hp.
  destruct (Z.lt_ge_cases (p / MAX_LEDS_PER_STRIP) (active_strips s)) as [Hq|Hq].
  - by apply Hin.
  - unfold pixel_at. cbn [leds show emit set_leds].
    rewrite Hout by lia. apply Hblack; [done|].
    intros (_ & Hq' & _). lia.
Qed.

Lemma clear_blacks_active_strips_witness :
  exists s',
    process_command after_red_frame [x04] = Some s' /\
    pixel_at after_red_frame 0 = Some (mkCRGB xff x00 x00) /\
    pixel_at s' 0 = Some Black /\ pixel_at s' 3999 = Some Black.
Proof.
  destruct (clear_blacks_active_strips after_red_frame [x04])
    as (s' & Hrun & Hin & _ & Hall & _).
  - apply (reachable_layout_invariant _ after_red_frame_reachable).
  - vm_compute. reflexivity.
  - reflexivity.
  - exists s'. split; [exact Hrun|]. split; [vm_compute; reflexivity|]. split.
    + apply Hin; [rewrite MAX_TOTAL_LEDS_eq; lia|]. vm_compute. reflexivity.
    + apply Hall; [|rewrite MAX_TOTAL_LEDS_eq; lia].
      apply (reachable_layout_invariant _ after_red_frame_reachable).
Defined.

(** X8.  A SET_PIXEL command with an index below [total_leds] writes the given
    colour to the one slot [logical_to_physical index] and changes no other
    slot; nothing is rendered and nothing is answered. *)
Theorem set_pixel_writes_one_slot
    (s : engine) (d0 d1 d2 r g b : byte) (rest : list byte) :
  legal_config s ->
  Z.of_nat (length (leds s)) = MAX_TOTAL_LEDS ->
  byte_to_Z d0 = CMD_SET_PIXEL ->
  pixel_index d1 d2 < total_leds s ->
  exists s',
    process_command s (d0 :: d1 :: d2 :: r :: g :: b :: rest) = Some s' /\
    pixel_at s' (logical_to_physical s (pixel_index d1 d2)) = Some (mkCRGB r g b) /\
    (forall p, 0 <= p -> p <> logical_to_physical s (pixel_index d1 d2) ->
       pixel_at s' p = pixel_at s p) /\
    serial_out s' = serial_out s.
Proof.
  intros Hcfg Hfull Hop Hin.
  rewrite process_command_set_pixel by (unfold opcode; cbn; by rewrite Hop).
  set (data := d0 :: d1 :: d2 :: r :: g :: b :: rest).
  unfold cmd_set_pixel. cbv zeta.
  destruct (Z.ltb_spec (Z.of_nat (length data)) 6) as [Hl|_].
  { subst data. cbn [length] in Hl. lia. }
  change (read_byte data 1) with (Some d1).
  change (read_byte data 2) with (Some d2).
  change (read_byte data 3) with (Some r).
  change (read_byte data 4) with (Some g).
  change (read_byte data 5) with (Some b).
  cbn [mbind option_bind]. fold (pixel_index d1 d2).
  change (total_leds (received data s)) with (total_leds s).
  change (logical_to_physical (received data s)) with (logical_to_physical s).
  change (leds (received data s)) with (leds s).
  destruct (Z.ltb_spec (pixel_index d1 d2) (total_leds s)); [|lia].
  pose proof (wrap16_range (Z.lor (Z.shiftl (byte_to_Z d1) 8) (byte_to_Z d2))) as Hw.
  fold (pixel_index d1 d2) in Hw.
  pose proof (logical_to_physical_bound s Hcfg _ Hw) as Hb.
  rewrite write_led_Some by done. cbn [mbind option_bind].
  eexists. split; [reflexivity|]. unfold pixel_at. cbn [leds set_leds].
  split; [|split; [|reflexivity]].
  - apply lookup_write_same. lia.
  - intros p Hp Hne. apply lookup_write_other; [lia|done|done].
Qed.

Lemma set_pixel_writes_one_slot_witness :
  exists s',
    process_command initial_engine [x01; x00; x8c; x01; x02; x03] = Some s' /\
    pixel_at s' 500 = Some (mkCRGB x01 x02 x03) /\
    pixel_at s' 140 = Some Black.
Proof.
  destruct (set_pixel_writes_one_slot initial_engine x01 x00 x8c x01 x02 x03 [])
    as (s' & Hrun & Hat & Hother & _).
  - apply initial_engine_invariant.
  - vm_compute. reflexivity.
  - reflexivity.
  - vm_compute. reflexivity.
  - exists s'. split; [exact Hrun|]. split; [exact Hat|].
    rewrite Hother; [vm_compute; reflexivity|lia|vm_compute; discriminate].
Defined.

(** The loop of CMD_SET_RANGE when the run fits the layout: slot by slot. *)
Lemma set_range_loop_writes (s : engine) (data : list byte) start :
  legal_config s ->
  0 <= start ->
  forall n i (l : list CRGB),
    0 <= i ->
    4 + (i + Z.of_nat n) * 3 <= Z.of_nat (length data) ->
    start + i + Z.of_nat n <= total_leds s ->
    Z.of_nat (length l) = MAX_TOTAL_LEDS ->
    exists l',
      set_range_loop data s start n i l = Some l' /\
      length l' = length l /\
      (forall k, i <= k < i + Z.of_nat n ->
         exists c, read_rgb data (4 + k * 3) = Some c /\
                   l' !! Z.to_nat (logical_to_physical s (start + k)) = Some c) /\
      (forall p, 0 <= p ->
         (forall k, i <= k < i + Z.of_nat n ->
            p <> logical_to_physical s (start + k)) ->
         l' !! Z.to_nat p = l !! Z.to_nat p).
Proof.
  intros Hcfg Hstart.
  assert (Htot : total_leds s < 65536).
  { destruct Hcfg as (Ha & Hl & Ht).
    rewrite MAX_STRIPS_eq in Ha. rewrite MAX_LEDS_PER_STRIP_eq in Hl. nia. }
  induction n as [|n IH]; intros i l Hi Hlen Hfit Hfull.
  - exists l. split; [done|]. split; [done|]. split; [intros k Hk; lia|done].
  - cbn [set_range_loop]. cbv zeta.
    rewrite (wrap16_small (start + i)) by lia.
    destruct (Z.leb_spec (total_leds s) (start + i)) as [Hbrk|Hgo]; [lia|].
    destruct (read_rgb_is_Some data (4 + i * 3) ltac:(lia) ltac:(lia)) as (c & Hc).
    rewrite Hc. cbn [mbind option_bind].
    pose proof (logical_to_physical_bound s Hcfg (start + i) ltac:(lia)) as Hb.
    rewrite write_led_Some by done. cbn [mbind option_bind].
    destruct (IH (i + 1)
                (<[Z.to_nat (logical_to_physical s (start + i)) := c]> l)
                ltac:(lia) ltac:(lia) ltac:(lia)
                ltac:(by rewrite length_insert))
      as (l' & Hrun & Hl' & Hpix & Hout).
    exists l'. split; [done|]. split; [by rewrite Hl', length_insert|]. split.
    + intros k Hk. destruct (decide (k = i)) as [->|Hne].
      * exists c. split; [done|]. rewrite Hout.
        -- apply lookup_write_same. lia.
        -- lia.
        -- intros k Hk' Heq.
           apply (logical_to_physical_inj s Hcfg) in Heq; lia.
      * apply Hpix. lia.
    + intros p Hp Hne. rewrite Hout.
      * apply lookup_write_other; [lia|done|]. apply Hne. lia.
      * done.
      * intros k Hk. apply Hne. lia.
Qed.

(** X9.  A SET_RANGE command that starts below [total_leds] and carries its
    declared [count] triples writes the first
    [min count (total_leds - start)] of them to the consecutive logical
    pixels from [start] on, and changes no other slot: a run that would
    pass the end of the layout is cut there. *)
Theorem set_range_writes_run
    (s : engine) (d0 d1 d2 d3 : byte) (rest : list byte) :
  legal_config s ->
  Z.of_nat (length (leds s)) = MAX_TOTAL_LEDS ->
  byte_to_Z d0 = CMD_SET_RANGE ->
  pixel_index d1 d2 < total_leds s ->
  4 + byte_to_Z d3 * 3 <= Z.of_nat (length (d0 :: d1 :: d2 :: d3 :: rest)) ->
  exists s',
    process_command s (d0 :: d1 :: d2 :: d3 :: rest) = Some s' /\
    (forall i,
       0 <= i < Z.min (byte_to_Z d3) (total_leds s - pixel_index d1 d2) ->
       exists c,
         read_rgb (d0 :: d1 :: d2 :: d3 :: rest) (4 + i * 3) = Some c /\
         pixel_at s' (logical_to_physical s (pixel_index d1 d2 + i)) = Some c) /\
    (forall p, 0 <= p ->
       (forall i,
          0 <= i < Z.min (byte_to_Z d3) (total_leds s - pixel_index d1 d2) ->
          p <> logical_to_physical s (pixel_index d1 d2 + i)) ->
       pixel_at s' p = pixel_at s p) /\
    serial_out s' = serial_out s.
Proof.
  intros Hcfg Hfull Hop Hin Hlen.
  rewrite process_command_set_range by (unfold opcode; cbn; by rewrite Hop).
  set (data := d0 :: d1 :: d2 :: d3 :: rest) in *.
  unfold cmd_set_range. cbv zeta.
  destruct (Z.ltb_spec (Z.of_nat (length data)) 4) as [Hl|_].
  { subst data. cbn [length] in Hl. lia. }
  change (read_byte data 1) with (Some d1).
  change (read_byte data 2) with (Some d2).
  change (read_byte data 3) with (Some d3).
  cbn [mbind option_bind]. fold (pixel_index d1 d2).
  change (total_leds (received data s)) with (total_leds s).
  change (leds (received data s)) with (leds s).
  pose proof (wrap16_range (Z.lor (Z.shiftl (byte_to_Z d1) 8) (byte_to_Z d2))) as Hw.
  fold (pixel_index d1 d2) in Hw.
  pose proof (byte_to_Z_range d3) as Hcount.
  destruct (Z.leb_spec (total_leds s) (pixel_index d1 d2)); [lia|].
  destruct (Z.ltb_spec (Z.of_nat (length data)) (4 + byte_to_Z d3 * 3)); [lia|].
  set (count := if total_leds s <? pixel_index d1 d2 + byte_to_Z d3 then _ else _).
  assert (Hc : count = Z.min (byte_to_Z d3) (total_leds s - pixel_index d1 d2)).
  { subst count.
    destruct (Z.ltb_spec (total_leds s) (pixel_index d1 d2 + byte_to_Z d3)).
    - rewrite wrap8_small by lia. lia.
    - lia. }
  rewrite Hc.
  set (n := Z.min (byte_to_Z d3) (total_leds s - pixel_index d1 d2)) in *.
  destruct (set_range_loop_writes (received data s) data (pixel_index d1 d2)
              Hcfg ltac:(lia) (Z.to_nat n) 0 (leds s))
    as (l' & Hrun & Hl' & Hpix & Hout).
  { lia. }
  { lia. }
  { change (total_leds (received data s)) with (total_leds s). lia. }
  { done. }
  rewrite Hrun. cbn [mbind option_bind].
  eexists. split; [reflexivity|]. unfold pixel_at. cbn [leds set_leds].
  split; [|split; [|reflexivity]].
  - intros i Hi. apply Hpix. lia.
  - intros p Hp Hne. apply Hout; [done|]. intros k Hk. apply Hne. lia.
Qed.

Lemma set_range_writes_run_witness :
  exists s',
    process_command initial_engine
      [x05; x04; x5f; x02; x01; x02; x03; x04; x05; x06] = Some s' /\
    pixel_at s' 3639 = Some (mkCRGB x01 x02 x03) /\
    pixel_at s' 3638 = Some Black.
Proof.
  destruct (set_range_writes_run initial_engine x05 x04 x5f x02
              [x01; x02; x03; x04; x05; x06])
    as (s' & Hrun & Hpix & Hother & _).
  - apply initial_engine_invariant.
  - vm_compute. reflexivity.
  - reflexivity.
  - vm_compute. reflexivity.
  - vm_compute. discriminate.
  - exists s'. split; [exact Hrun|]. split.
    + destruct (Hpix 0) as (c & Hc & Hat).
      { vm_compute. split; [discriminate|reflexivity]. }
      vm_compute in Hc. injection Hc as <-. exact Hat.
    + rewrite Hother; [vm_compute; reflexivity|lia|].
      intros i Hi.
      assert (i = 0) as -> by (vm_compute in Hi; destruct Hi as [H0 H1];
                               destruct i; try done; destruct p; done).
      vm_compute. discriminate.
Defined.
(** ** More on CMD_SET_ALL *)

(** Every slot of the active region is the image of a logical index. *)
Lemma active_slot_has_logical (s : engine) p :
  legal_config s -> in_active_region s p ->
  exists i, 0 <= i < total_leds s /\ logical_to_physical s i = p.
Proof.
  intros Hcfg (Hp & Hq & Hr).
  pose proof Hcfg as (Ha & Hl & Ht).
  pose proof (Z.div_pos p MAX_LEDS_PER_STRIP Hp ltac:(done)) as Hq0.
  pose proof (Z.mod_pos_bound p MAX_LEDS_PER_STRIP ltac:(done)) as Hr0.
  pose proof (Z.div_mod p MAX_LEDS_PER_STRIP ltac:(done)) as Hdm.
  set (q := p / MAX_LEDS_PER_STRIP) in *.
  set (r := p mod MAX_LEDS_PER_STRIP) in *.
  exists (q * leds_per_strip s + r).
  assert (Hi : 0 <= q * leds_per_strip s + r < total_leds s) by nia.
  split; [done|].
  rewrite (logical_to_physical_in_range s Hcfg) by done.
  assert (Hdiv : (q * leds_per_strip s + r) / leds_per_strip s = q).
  { symmetry. apply (Z.div_unique _ _ q r); lia. }
  assert (Hmod : (q * leds_per_strip s + r) mod leds_per_strip s = r).
  { symmetry. apply (Z.mod_unique _ _ q r); lia. }
  rewrite Hdiv, Hmod. lia.
Qed.





(** X11.  An accepted SET_ALL frame is rendered once and acknowledged with
    FRAME_OK only while the frame counter, after counting it, is at most 3:
    the host hears about the first three frames and none after. *)
Theorem set_all_acknowledges_first_three
    (s s' : engine) (data : list byte) :
  process_command s data = Some s' ->
  opcode data = Some CMD_SET_ALL ->
  1 + total_leds s * 3 <= Z.of_nat (length data) ->
  (wrap32 (frames_rendered s + 1) <= 3 ->
     serial_out s' =
       serial_out s ++ [FastLED_show; Response RESP_OK (Some "FRAME_OK"%string)]) /\
  (3 < wrap32 (frames_rendered s + 1) ->
     serial_out s' = serial_out s ++ [FastLED_show]).
Proof.
  intros H Hop Hlen. rewrite (process_command_set_all s data Hop) in H.
  destruct (cmd_set_all_frame _ _ _ H) as (_ & _ & _ & Hlong).
  destruct (Hlong Hlen) as (_ & _ & Hout).
  change (serial_out (received data s)) with (serial_out s) in Hout.
  change (frames_rendered (received data s)) with (frames_rendered s) in Hout.
  rewrite Hout.
  destruct (Z.leb_spec (wrap32 (frames_rendered s + 1)) 3); split; intros; (done || lia).
Qed.

Lemma set_all_acknowledges_first_three_witness :
  serial_out after_red_frame =
    [FastLED_show; Response RESP_OK (Some "FRAME_OK"%string)].
Proof.
  apply (set_all_acknowledges_first_three initial_engine after_red_frame red_frame).
  - vm_compute. reflexivity.
  - reflexivity.
  - vm_compute. discriminate.
  - vm_compute. discriminate.
Defined.

(** ** The invariant of reachable states *)

(** X12.  In every reachable state the Configuration invariant holds
    ([1 <= active_strips <= MAX_STRIPS],
    [1 <= leds_per_strip <= MAX_LEDS_PER_STRIP],
    [total_leds = active_strips * leds_per_strip]), the render buffer has
    its [MAX_TOTAL_LEDS] slots, and every slot outside the active region is
    black: the inactive strips and also the tail of every active strip
    beyond [leds_per_strip]. *)
Theorem reachable_states_well_formed (s : engine) (p : Z) :
  reachable s ->
  legal_config s /\
  Z.of_nat (length (leds s)) = MAX_TOTAL_LEDS /\
  (0 <= p < MAX_TOTAL_LEDS ->
   leds_per_strip s <= p mod MAX_LEDS_PER_STRIP \/
   active_strips s <= p / MAX_LEDS_PER_STRIP ->
   pixel_at s p = Some Black).
Proof.
  intros Hreach.
  destruct (reachable_layout_invariant s Hreach) as (Hcfg & Hfull & Hblack).
  split; [done|]. split; [done|].
  intros Hp Hout. apply Hblack; [done|].
  intros (_ & Hq & Hr). lia.
Qed.

Lemma reachable_states_well_formed_witness :
  legal_config shrunk_engine /\ pixel_at shrunk_engine 10 = Some Black.
Proof.
  destruct (reachable_states_well_formed shrunk_engine 10 shrunk_engine_reachable)
    as (Hcfg & _ & Hblack).
  split; [exact Hcfg|]. apply Hblack.
  - rewrite MAX_TOTAL_LEDS_eq. lia.
  - left. vm_compute. discriminate.
Defined.
(** * The framed-stream transport *)

(** ** Bytes and the 16-bit length field *)

Lemma byte_to_Z_inj (a b : byte) : byte_to_Z a = byte_to_Z b -> a = b.
Proof.
  unfold byte_to_Z. intros H. apply N2Z.inj in H.
  pose proof (Byte.of_to_N a) as Ha. rewrite H, Byte.of_to_N in Ha.
  by injection Ha.
Qed.

Lemma byte_to_of_Z z : 0 <= z < 256 -> byte_to_Z (byte_of_Z z) = z.
Proof.
  intros Hz. unfold byte_of_Z. rewrite wrap8_small by done.
  destruct (Byte.of_N (Z.to_N z)) as [b|] eqn:E.
  - apply Byte.to_of_N in E. cbn [default from_option id].
    unfold byte_to_Z. rewrite E. lia.
  - apply Byte.of_N_None_iff in E. lia.
Qed.

Lemma lor_shiftl_8 a b :
  0 <= a < 256 -> 0 <= b -> Z.lor a (Z.shiftl b 8) = a + 256 * b.
Proof.
  intros Ha Hb.
  assert (Hdisj : Z.land a (Z.shiftl b 8) = 0).
  { apply Z.bits_inj'. intros n Hn. rewrite Z.land_spec, Z.bits_0.
    destruct (Z.lt_ge_cases n 8) as [Hlt|Hge].
    - rewrite Z.shiftl_spec_low by done. apply andb_false_r.
    - rewrite <- (Z.mod_small a (2 ^ 8)) by lia.
      rewrite Z.mod_pow2_bits_high by lia. done. }
  rewrite <- Z.lxor_lor by done.
  rewrite <- Z.add_nocarry_lxor by done.
  rewrite Z.shiftl_mul_pow2 by lia. lia.
Qed.

Lemma low_byte n : Z.land n 0xFF = n mod 256.
Proof. apply (Z.land_ones n 8). lia. Qed.

Lemma high_byte n : Z.shiftr n 8 = n / 256.
Proof. apply (Z.shiftr_div_pow2 n 8). lia. Qed.

(** The length field written by [send_response] is read back by [loop]. *)
Lemma le16_encode n :
  0 <= n < 65536 ->
  le16 (byte_of_Z (Z.land n 0xFF)) (byte_of_Z (Z.land (Z.shiftr n 8) 0xFF)) = n.
Proof.
  intros Hn. unfold le16. rewrite !low_byte, high_byte.
  pose proof (Z.mod_pos_bound n 256 ltac:(lia)).
  pose proof (Z.mod_pos_bound (n / 256) 256 ltac:(lia)).
  assert (Hq : 0 <= n / 256 < 256)
    by (split; [apply Z.div_pos; lia|apply Z.div_lt_upper_bound; lia]).
  rewrite !byte_to_of_Z by lia.
  rewrite lor_shiftl_8 by lia.
  rewrite (Z.mod_small (n / 256) 256) by done.
  replace (n mod 256 + 256 * (n / 256)) with n
    by (pose proof (Z.div_mod n 256 ltac:(lia)); lia).
  by apply wrap16_small.
Qed.

Lemma frame_payload_well_formed payload :
  Z.of_nat (length payload) <= MAX_PACKET_SIZE ->
  well_formed_packet
    (byte_of_Z (Z.land (Z.of_nat (length payload)) 0xFF))
    (byte_of_Z (Z.land (Z.shiftr (Z.of_nat (length payload)) 8) 0xFF))
    payload.
Proof.
  intros Hfit. split; [|done]. apply le16_encode.
  change MAX_PACKET_SIZE with 12001 in Hfit. lia.
Qed.

(** ** One iteration of [loop], case by case *)

Lemma loop_reads_packet_then s lo hi payload rest :
  well_formed_packet lo hi payload ->
  loop s (framed lo hi payload ++ rest) =
    s' ← process_command s payload; Some (s', rest).
Proof.
  intros [Hlen Hfit]. unfold loop, framed.
  change ((xaa :: lo :: hi :: payload ++ [x55]) ++ rest)
    with (xaa :: lo :: hi :: (payload ++ [x55]) ++ rest).
  rewrite <- (app_assoc payload [x55] rest).
  destruct (Z.leb_spec 4 (Z.of_nat (length (xaa :: lo :: hi :: payload ++ [x55] ++ rest))))
    as [_|Hl].
  2: { cbn [length] in Hl. rewrite length_app in Hl. cbn [length app] in Hl. lia. }
  cbn [serial_read].
  change (byte_to_Z xaa =? PACKET_START) with true. cbv iota.
  fold (le16 lo hi). rewrite Hlen.
  destruct (Z.ltb_spec MAX_PACKET_SIZE (Z.of_nat (length payload))); [lia|].
  destruct (Z.ltb_spec (Z.of_nat (length (payload ++ [x55] ++ rest)))
              (Z.of_nat (length payload) + 1)) as [Hl|_].
  { rewrite length_app in Hl. cbn [length app] in Hl. lia. }
  rewrite Nat2Z.id, take_app_length, drop_app_length.
  cbn [serial_read app].
  change (byte_to_Z x55 =? PACKET_END) with true. reflexivity.
Qed.

(** The three ways an iteration of [loop] can go. *)
Lemma loop_cases s rx :
  (Z.of_nat (length rx) < 4 /\ loop s rx = Some (s, rx)) \/
  (4 <= Z.of_nat (length rx) /\
   exists skipped rx',
     rx = skipped ++ rx' /\ skipped <> [] /\
     loop s rx = Some (incr_packet_errors s, rx')) \/
  (exists lo hi payload rx',
     rx = framed lo hi payload ++ rx' /\
     well_formed_packet lo hi payload /\
     loop s rx = (s' ← process_command s payload; Some (s', rx'))).
Proof.
  destruct (Z.lt_ge_cases (Z.of_nat (length rx)) 4) as [Hshort|Hlong].
  { left. split; [done|]. unfold loop.
    destruct (Z.leb_spec 4 (Z.of_nat (length rx))); [lia|done]. }
  destruct rx as [|b0 [|b1 [|b2 rx2]]]; cbn [length] in Hlong; try lia.
  destruct (Z.eqb_spec (byte_to_Z b0) PACKET_START) as [Hs|Hs].
  2: { right. left. split; [cbn [length]; lia|].
       exists [b0], (b1 :: b2 :: rx2). split; [done|]. split; [done|].
       apply loop_skips_junk; [done|]. cbn [length]. lia. }
  assert (b0 = xaa) as -> by (by apply byte_to_Z_inj).
  pose proof (wrap16_range (Z.lor (byte_to_Z b1) (Z.shiftl (byte_to_Z b2) 8))) as Hn.
  fold (le16 b1 b2) in Hn.
  assert (Hloop : loop s (xaa :: b1 :: b2 :: rx2) =
    if MAX_PACKET_SIZE <? le16 b1 b2 then Some (incr_packet_errors s, [])
    else if Z.of_nat (length rx2) <? le16 b1 b2 + 1
         then Some (incr_packet_errors s, rx2)
         else
           let '(end_marker, rx) :=
             serial_read (drop (Z.to_nat (le16 b1 b2)) rx2) in
           if negb (byte_to_Z end_marker =? PACKET_END)
           then Some (incr_packet_errors s, rx)
           else s' ← process_command s (take (Z.to_nat (le16 b1 b2)) rx2);
                Some (s', rx)).
  { unfold loop.
    destruct (Z.leb_spec 4 (Z.of_nat (length (xaa :: b1 :: b2 :: rx2)))) as [_|Hl].
    2: { cbn [length] in Hl. lia. }
    reflexivity. }
  rewrite Hloop. clear Hloop.
  destruct (Z.ltb_spec MAX_PACKET_SIZE (le16 b1 b2)) as [Hbig|Hfit].
  { right. left. split; [cbn [length]; lia|].
    exists (xaa :: b1 :: b2 :: rx2), []. by rewrite app_nil_r. }
  destruct (Z.ltb_spec (Z.of_nat (length rx2)) (le16 b1 b2 + 1)) as [Hpart|Hfull].
  { right. left. split; [cbn [length]; lia|].
    by exists [xaa; b1; b2], rx2. }
  destruct (drop (Z.to_nat (le16 b1 b2)) rx2) as [|e rx3] eqn:Hdrop.
  { apply (f_equal length) in Hdrop. rewrite length_drop in Hdrop.
    cbn [length] in Hdrop. lia. }
  assert (Hsplit : rx2 = take (Z.to_nat (le16 b1 b2)) rx2 ++ e :: rx3).
  { rewrite <- Hdrop. by rewrite take_drop. }
  cbn [serial_read].
  destruct (Z.eqb_spec (byte_to_Z e) PACKET_END) as [He|He]; cbn [negb].
  - assert (e = x55) as -> by (by apply byte_to_Z_inj).
    right. right.
    exists b1, b2, (take (Z.to_nat (le16 b1 b2)) rx2), rx3.
    split; [|split; [|done]].
    + unfold framed. rewrite Hsplit at 1.
      cbn [app]. by rewrite <- app_assoc.
    + split; [|rewrite length_take; lia]. rewrite length_take. lia.
  - right. left. split; [cbn [length]; lia|].
    exists (xaa :: b1 :: b2 :: take (Z.to_nat (le16 b1 b2)) rx2 ++ [e]), rx3.
    split; [|done]. rewrite Hsplit at 1. cbn [app]. by rewrite <- app_assoc.
Qed.

(** ** What the transport guarantees *)

(** X13.  A command reaches the dispatcher only out of a complete, well-formed
    frame at the head of the receive queue, and then with exactly that
    frame's payload.  Every other iteration either does nothing (fewer than
    four bytes waiting) or discards at least one byte and counts exactly one
    packet error, leaving the rest of the engine untouched. *)
Theorem loop_dispatches_only_framed_payloads
    (s s' : engine) (rx rx' : list byte) :
  loop s rx = Some (s', rx') ->
  (Z.of_nat (length rx) < 4 /\ s' = s /\ rx' = rx) \/
  (s' = incr_packet_errors s /\
   exists skipped, rx = skipped ++ rx' /\ skipped <> []) \/
  (exists lo hi payload,
     rx = framed lo hi payload ++ rx' /\
     well_formed_packet lo hi payload /\
     process_command s payload = Some s').
Proof.
  intros H.
  destruct (loop_cases s rx)
    as [[Hshort Hrun]|[(_ & skipped & rx1 & Hrx & Hne & Hrun)
                      |(lo & hi & payload & rx1 & Hrx & Hwf & Hrun)]];
    rewrite Hrun in H.
  - left. injection H as <- <-. done.
  - right. left. injection H as <- <-. split; [done|]. by exists skipped.
  - right. right. apply bind_Some in H. destruct H as (s2 & Hcmd & H).
    injection H as <- <-. by exists lo, hi, payload.
Qed.

Lemma loop_dispatches_only_framed_payloads_witness :
  (exists lo hi payload,
     [xaa; x02; x00; x02; x80; x55; x00] = framed lo hi payload ++ [x00] /\
     well_formed_packet lo hi payload /\
     process_command initial_engine payload
       = Some (emit (SetBrightness 128)
                 (set_global_brightness 128
                    (received [x02; x80] initial_engine)))).
Proof.
  destruct (loop_dispatches_only_framed_payloads initial_engine
              (emit (SetBrightness 128)
                 (set_global_brightness 128
                    (received [x02; x80] initial_engine)))
              [xaa; x02; x00; x02; x80; x55; x00] [x00])
    as [(Hshort & _)|[(Herr & _)|Hok]].
  - vm_compute. reflexivity.
  - vm_compute in Hshort. discriminate.
  - vm_compute in Herr. discriminate.
  - exact Hok.
Defined.


(** ** Resynchronisation and back-to-back packets *)

Lemma count_errors_keeps n : forall s,
  leds (count_errors n s) = leds s /\
  same_config s (count_errors n s) /\
  serial_out (count_errors n s) = serial_out s /\
  frames_rendered (count_errors n s) = frames_rendered s.
Proof.
  induction n as [|n IH]; intros s; [done|].
  cbn [count_errors]. destruct (IH (incr_packet_errors s)) as (? & ? & ? & ?).
  done.
Qed.

Lemma count_errors_total n : forall s,
  packet_errors (count_errors (Datatypes.S n) s)
    = wrap32 (packet_errors s + Z.of_nat (Datatypes.S n)).
Proof.
  induction n as [|n IH]; intros s; [done|].
  change (count_errors (Datatypes.S (Datatypes.S n)) s)
    with (count_errors (Datatypes.S n) (incr_packet_errors s)).
  rewrite IH. cbn [packet_errors incr_packet_errors]. unfold wrap32.
  rewrite Zplus_mod_idemp_l. f_equal. lia.
Qed.

(** X15.  Any run of bytes that are not START_MARKER in front of at least three
    further bytes is skipped one byte per iteration: after as many
    iterations as there are such bytes the queue holds exactly what
    followed them, one packet error has been counted per byte, and the
    render buffer is untouched. *)
Theorem resync_skips_junk_run (s : engine) (junk rest : list byte) :
  Forall (fun b => byte_to_Z b <> PACKET_START) junk ->
  3 <= Z.of_nat (length rest) ->
  loop_n (length junk) s (junk ++ rest)
    = Some (count_errors (length junk) s, rest) /\
  leds (count_errors (length junk) s) = leds s /\
  (junk <> [] ->
   packet_errors (count_errors (length junk) s)
     = wrap32 (packet_errors s + Z.of_nat (length junk))).
Proof.
  intros Hjunk Hrest. split; [|split].
  - revert s. induction Hjunk as [|b junk Hb Hjunk IH]; intros s; [done|].
    cbn [length loop_n app count_errors].
    rewrite loop_skips_junk; [apply IH|done|].
    rewrite length_app. lia.
  - apply count_errors_keeps.
  - intros Hne. destruct junk as [|b junk]; [done|].
    cbn [length]. apply count_errors_total.
Qed.

Lemma resync_skips_junk_run_witness :
  exists s',
    loop_n 3 initial_engine [x00; x01; x55; xaa; x01; x00; xff; x55]
      = Some (s', [xaa; x01; x00; xff; x55]) /\
    packet_errors s' = 3.
Proof.
  destruct (resync_skips_junk_run initial_engine [x00; x01; x55]
              [xaa; x01; x00; xff; x55]) as (Hrun & _ & Herr).
  - repeat constructor; vm_compute; discriminate.
  - vm_compute. discriminate.
  - eexists. split; [exact Hrun|]. apply Herr. discriminate.
Defined.

(** X16.  Well-formed packets sent back to back are dispatched one per iteration
    and in order: [n] iterations over [n] framed payloads (each within the
    packet buffer size) do what handing the [n] payloads to
    [process_command] in turn does, and leave whatever followed them in the
    queue. *)
Theorem packet_stream_dispatched_in_order
    (s : engine) (payloads : list (list byte)) (rest : list byte) :
  Forall (fun p => Z.of_nat (length p) <= MAX_PACKET_SIZE) payloads ->
  loop_n (length payloads) s (concat (map frame_payload payloads) ++ rest)
    = (s' ← process_commands s payloads; Some (s', rest)).
Proof.
  intros Hfit. revert s.
  induction Hfit as [|p payloads Hp Hfit IH]; intros s; [done|].
  cbn [length loop_n map concat process_commands].
  rewrite <- app_assoc. unfold frame_payload at 1.
  rewrite loop_reads_packet_then by (by apply frame_payload_well_formed).
  destruct (process_command s p) as [s1|]; [|done].
  cbn [mbind option_bind]. apply IH.
Qed.

Lemma packet_stream_dispatched_in_order_witness :
  exists s',
    loop_n 2 initial_engine
      [xaa; x04; x00; x07; x01; x00; x0a; x55;
       xaa; x06; x00; x01; x00; x09; x01; x02; x03; x55; x00]
      = Some (s', [x00]) /\
    process_commands initial_engine
      [[x07; x01; x00; x0a]; [x01; x00; x09; x01; x02; x03]] = Some s'.
Proof.
  assert (Hcmds : exists s',
            process_commands initial_engine
              [[x07; x01; x00; x0a]; [x01; x00; x09; x01; x02; x03]] = Some s')
    by (eexists; vm_compute; reflexivity).
  destruct Hcmds as (s' & Hcmds). exists s'. split; [|exact Hcmds].
  pose proof (packet_stream_dispatched_in_order initial_engine
                [[x07; x01; x00; x0a]; [x01; x00; x09; x01; x02; x03]] [x00])
    as Hrun.
  replace (concat (map frame_payload
             [[x07; x01; x00; x0a]; [x01; x00; x09; x01; x02; x03]]) ++ [x00])
    with [xaa; x04; x00; x07; x01; x00; x0a; x55;
          xaa; x06; x00; x01; x00; x09; x01; x02; x03; x55; x00]
    in Hrun by (vm_compute; reflexivity).
  cbn [length] in Hrun. rewrite Hrun.
  - by rewrite Hcmds.
  - repeat constructor; vm_compute; discriminate.
Defined.

(** ** Framing errors *)

(** X17.  A declared payload length above MAX_PACKET_SIZE costs one packet error
    and the whole receive queue: everything waiting, complete packets
    behind the bad header included, is flushed. *)
Theorem oversize_length_flushes_queue (s : engine) (lo hi : byte) (rest : list byte) :
  MAX_PACKET_SIZE < le16 lo hi ->
  1 <= Z.of_nat (length rest) ->
  loop s (xaa :: lo :: hi :: rest) = Some (incr_packet_errors s, []).
Proof.
  intros Hbig Hrest. unfold loop.
  destruct (Z.leb_spec 4 (Z.of_nat (length (xaa :: lo :: hi :: rest)))) as [_|Hl].
  2: { cbn [length] in Hl. lia. }
  cbn [serial_read].
  change (byte_to_Z xaa =? PACKET_START) with true. cbv iota.
  fold (le16 lo hi).
  destruct (Z.ltb_spec MAX_PACKET_SIZE (le16 lo hi)); [done|lia].
Qed.

Lemma oversize_length_flushes_queue_witness :
  loop initial_engine [xaa; xff; xff; x00; xaa; x01; x00; xff; x55]
    = Some (incr_packet_errors initial_engine, []).
Proof.
  apply (oversize_length_flushes_queue initial_engine xff xff
           [x00; xaa; x01; x00; xff; x55]).
  - vm_compute. reflexivity.
  - vm_compute. discriminate.
Defined.

(** X18.  A frame whose length field matches but whose trailing byte is not
    END_MARKER is consumed whole and dropped: one packet error, no command
    dispatched, and scanning resumes right after the bad trailer. *)
Theorem bad_end_marker_drops_packet
    (s : engine) (lo hi trailer : byte) (payload rest : list byte) :
  well_formed_packet lo hi payload ->
  byte_to_Z trailer <> PACKET_END ->
  loop s (xaa :: lo :: hi :: payload ++ trailer :: rest)
    = Some (incr_packet_errors s, rest).
Proof.
  intros [Hlen Hfit] Hbad. unfold loop.
  destruct (Z.leb_spec 4 (Z.of_nat (length (xaa :: lo :: hi :: payload ++ trailer :: rest))))
    as [_|Hl].
  2: { cbn [length] in Hl. rewrite length_app in Hl. cbn [length] in Hl. lia. }
  cbn [serial_read].
  change (byte_to_Z xaa =? PACKET_START) with true. cbv iota.
  fold (le16 lo hi). rewrite Hlen.
  destruct (Z.ltb_spec MAX_PACKET_SIZE (Z.of_nat (length payload))); [lia|].
  destruct (Z.ltb_spec (Z.of_nat (length (payload ++ trailer :: rest)))
              (Z.of_nat (length payload) + 1)) as [Hl|_].
  { rewrite length_app in Hl. cbn [length] in Hl. lia. }
  rewrite Nat2Z.id, drop_app_length.
  cbn [serial_read].
  destruct (Z.eqb_spec (byte_to_Z trailer) PACKET_END); [done|reflexivity].
Qed.

Lemma bad_end_marker_drops_packet_witness :
  loop initial_engine [xaa; x01; x00; xff; x00; xaa]
    = Some (incr_packet_errors initial_engine, [xaa]).
Proof.
  apply (bad_end_marker_drops_packet initial_engine x01 x00 x00 [xff] [xaa]).
  - split; [reflexivity|]. vm_compute. discriminate.
  - vm_compute. discriminate.
Defined.

(** X19.  A packet whose payload and end marker have not all arrived when the
    wait gives up is abandoned with one packet error; only the three header
    bytes are consumed, so the bytes that did arrive stay in the queue and
    are scanned as the start of a packet by the next iteration. *)
Theorem incomplete_packet_abandoned (s : engine) (lo hi : byte) (arrived : list byte) :
  le16 lo hi <= MAX_PACKET_SIZE ->
  1 <= Z.of_nat (length arrived) < le16 lo hi + 1 ->
  loop s (xaa :: lo :: hi :: arrived) = Some (incr_packet_errors s, arrived).
Proof.
  intros Hfit Hpart. unfold loop.
  destruct (Z.leb_spec 4 (Z.of_nat (length (xaa :: lo :: hi :: arrived)))) as [_|Hl].
  2: { cbn [length] in Hl. lia. }
  cbn [serial_read].
  change (byte_to_Z xaa =? PACKET_START) with true. cbv iota.
  fold (le16 lo hi).
  destruct (Z.ltb_spec MAX_PACKET_SIZE (le16 lo hi)); [lia|].
  destruct (Z.ltb_spec (Z.of_nat (length arrived)) (le16 lo hi + 1)); [done|lia].
Qed.

Lemma incomplete_packet_abandoned_witness :
  loop initial_engine [xaa; x04; x00; x07; x01]
    = Some (incr_packet_errors initial_engine, [x07; x01]).
Proof.
  apply (incomplete_packet_abandoned initial_engine x04 x00 [x07; x01]).
  - vm_compute. discriminate.
  - vm_compute. split; [discriminate|reflexivity].
Defined.

(** ** The replies on the wire *)

Lemma length_list_byte_of_string (m : string) :
  length (list_byte_of_string m) = String.length m.
Proof.
  unfold list_byte_of_string. rewrite List.length_map.
  induction m as [|a m IH]; [done|]. cbn. by rewrite IH.
Qed.

(** X20.  A response written by [send_response] is a frame in the same format
    [loop] parses: start marker, a length field that decodes to the number
    of bytes between it and the end marker, the response code, the message
    characters, end marker.  (For a reply that fits the packet buffer, so
    for every message of the firmware.) *)
Theorem response_frame_well_formed (code : Z) (message : option string) :
  0 <= code < 256 ->
  1 + Z.of_nat (length (from_option list_byte_of_string [] message))
    <= MAX_PACKET_SIZE ->
  exists lo hi,
    response_frame code message =
      framed lo hi (byte_of_Z code :: from_option list_byte_of_string [] message) /\
    well_formed_packet lo hi
      (byte_of_Z code :: from_option list_byte_of_string [] message) /\
    byte_to_Z (byte_of_Z code) = code.
Proof.
  intros Hcode Hfit.
  set (body := from_option list_byte_of_string [] message) in *.
  assert (Hlen : from_option (fun m => Z.of_nat (String.length m)) 0 message
                 = Z.of_nat (length body)).
  { subst body. destruct message as [m|]; [|done].
    cbn [from_option]. by rewrite length_list_byte_of_string. }
  change MAX_PACKET_SIZE with 12001 in Hfit.
  unfold response_frame. cbv zeta. rewrite Hlen.
  rewrite (wrap16_small (1 + Z.of_nat (length body))) by lia.
  eexists _, _. split; [reflexivity|]. split; [|by apply byte_to_of_Z].
  split.
  - rewrite le16_encode by lia. cbn [length]. lia.
  - cbn [length]. change MAX_PACKET_SIZE with 12001. lia.
Qed.

Lemma response_frame_well_formed_witness :
  exists lo hi,
    response_frame RESP_ERROR (Some "SIZE_MISMATCH"%string) =
      framed lo hi (x01 :: list_byte_of_string "SIZE_MISMATCH") /\
    le16 lo hi = 14.
Proof.
  destruct (response_frame_well_formed RESP_ERROR (Some "SIZE_MISMATCH"%string))
    as (lo & hi & Hframe & [Hlen _] & _).
  - unfold RESP_ERROR. lia.
  - vm_compute. discriminate.
  - exists lo, hi. split; [exact Hframe|exact Hlen].
Defined.

(** X21.  The reply to CMD_ECHO carries RESP_OK followed by the whole buffer the
    command arrived in, opcode included, and its length field decodes to
    one more than that buffer's length, as long as that fits 16 bits. *)
Theorem echo_frame_round_trip (data : list byte) :
  1 + Z.of_nat (length data) < 65536 ->
  exists lo hi,
    echo_frame data = framed lo hi (x00 :: data) /\
    le16 lo hi = Z.of_nat (length (x00 :: data)).
Proof.
  intros Hfit. unfold echo_frame. cbv zeta.
  rewrite (wrap16_small (1 + Z.of_nat (length data))) by lia.
  eexists _, _. split; [reflexivity|].
  rewrite le16_encode by lia. cbn [length]. lia.
Qed.

Lemma echo_frame_round_trip_witness :
  exists lo hi,
    echo_frame [xfe; x01; x02] = framed lo hi [x00; xfe; x01; x02] /\
    le16 lo hi = 4.
Proof.
  apply (echo_frame_round_trip [xfe; x01; x02]).
  vm_compute. reflexivity.
Defined.

(** * The SPI variant: statistics block and zero-payload scan *)

Lemma spi_write_byte_spec i b (buffer : list byte) :
  0 <= i < Z.of_nat (length buffer) ->
  Spi.write_byte i b buffer = Some (<[Z.to_nat i := b]> buffer).
Proof.
  intros Hi. unfold Spi.write_byte.
  destruct (Z.leb_spec 0 i); [|lia].
  destruct (Z.ltb_spec i (Z.of_nat (length buffer))); [done|lia].
Qed.

Lemma read_byte_insert_same (buffer : list byte) i b :
  0 <= i < Z.of_nat (length buffer) ->
  read_byte (<[Z.to_nat i := b]> buffer) i = Some b.
Proof.
  intros Hi. unfold read_byte. destruct (Z.leb_spec 0 i); [|lia].
  apply list_lookup_insert_eq. lia.
Qed.

Lemma read_byte_insert_other (buffer : list byte) i j b :
  0 <= i -> i <> j ->
  read_byte (<[Z.to_nat i := b]> buffer) j = read_byte buffer j.
Proof.
  intros Hi Hne. unfold read_byte. destruct (Z.leb_spec 0 j); [|done].
  apply list_lookup_insert_ne. lia.
Qed.

Lemma u32_bytes_sum value :
  0 <= value < 2 ^ 32 ->
  byte_to_Z (byte_of_Z (Z.land value 0xFF))
  + 2 ^ 8 * byte_to_Z (byte_of_Z (Z.land (Z.shiftr value 8) 0xFF))
  + 2 ^ 16 * byte_to_Z (byte_of_Z (Z.land (Z.shiftr value 16) 0xFF))
  + 2 ^ 24 * byte_to_Z (byte_of_Z (Z.land (Z.shiftr value 24) 0xFF))
  = value.
Proof.
  intros Hv. rewrite !low_byte.
  rewrite (Z.shiftr_div_pow2 value 8), (Z.shiftr_div_pow2 value 16),
    (Z.shiftr_div_pow2 value 24) by lia.
  rewrite !byte_to_of_Z by (apply Z.mod_pos_bound; lia).
  change (2 ^ 8) with 256. change (2 ^ 16) with 65536.
  change (2 ^ 24) with 16777216. change (2 ^ 32) with 4294967296 in Hv.
  Z.div_mod_to_equations. lia.
Qed.

Lemma write_u32_le_spec (buffer : list byte) offset value :
  0 <= offset -> offset + 3 < Z.of_nat (length buffer) ->
  exists buffer',
    Spi.write_u32_le buffer offset value = Some buffer' /\
    agree_outside offset buffer buffer' /\
    read_byte buffer' offset = Some (byte_of_Z (Z.land value 0xFF)) /\
    read_byte buffer' (offset + 1)
      = Some (byte_of_Z (Z.land (Z.shiftr value 8) 0xFF)) /\
    read_byte buffer' (offset + 2)
      = Some (byte_of_Z (Z.land (Z.shiftr value 16) 0xFF)) /\
    read_byte buffer' (offset + 3)
      = Some (byte_of_Z (Z.land (Z.shiftr value 24) 0xFF)).
Proof.
  intros H0 H3. unfold Spi.write_u32_le.
  rewrite spi_write_byte_spec by lia. cbn [mbind option_bind].
  rewrite spi_write_byte_spec by (rewrite !length_insert; lia).
  cbn [mbind option_bind].
  rewrite spi_write_byte_spec by (rewrite !length_insert; lia).
  cbn [mbind option_bind].
  rewrite spi_write_byte_spec by (rewrite !length_insert; lia).
  eexists. split; [reflexivity|]. split; [|split; [|split; [|split]]].
  - split; [by rewrite !length_insert|]. intros i Hi Hout.
    rewrite !read_byte_insert_other by lia. done.
  - rewrite !read_byte_insert_other by lia.
    replace (offset + 0) with offset by lia.
    apply read_byte_insert_same. lia.
  - rewrite !read_byte_insert_other by lia.
    apply read_byte_insert_same. rewrite !length_insert. lia.
  - rewrite !read_byte_insert_other by lia.
    apply read_byte_insert_same. rewrite !length_insert. lia.
  - apply read_byte_insert_same. rewrite !length_insert. lia.
Qed.

Lemma write_u32_le_field (buffer : list byte) (offset value : Z) :
  0 <= offset ->
  offset + 3 < Z.of_nat (length buffer) ->
  0 <= value < 2 ^ 32 ->
  exists buffer',
    Spi.write_u32_le buffer offset value = Some buffer' /\
    Spi.read_u32_le buffer' offset = Some value /\
    agree_outside offset buffer buffer'.
Proof.
  intros H0 H3 Hv.
  destruct (write_u32_le_spec buffer offset value H0 H3)
    as (buffer' & Hrun & Hagree & Hb0 & Hb1 & Hb2 & Hb3).
  exists buffer'. split; [done|]. split; [|done].
  unfold Spi.read_u32_le. rewrite Hb0, Hb1, Hb2, Hb3.
  cbn [mbind option_bind]. f_equal. by apply u32_bytes_sum.
Qed.

(** X22.  [write_u32_le] stores a 32-bit value in four bytes, least significant
    first: reading the field back little-endian returns the value, the
    buffer keeps its size, and no byte outside the field changes. *)
Theorem write_u32_le_round_trip (buffer : list byte) (offset value : Z) :
  0 <= offset ->
  offset + 3 < Z.of_nat (length buffer) ->
  0 <= value < 2 ^ 32 ->
  exists buffer',
    Spi.write_u32_le buffer offset value = Some buffer' /\
    Spi.read_u32_le buffer' offset = Some value /\
    length buffer' = length buffer /\
    forall i, 0 <= i -> i < offset \/ offset + 4 <= i ->
      read_byte buffer' i = read_byte buffer i.
Proof.
  intros H0 H3 Hv.
  destruct (write_u32_le_field buffer offset value H0 H3 Hv)
    as (buffer' & Hrun & Hread & Hlen & Hout).
  by exists buffer'.
Qed.

Lemma write_u32_le_round_trip_witness :
  exists buffer',
    Spi.write_u32_le [x00; x00; x00; x00; x00; xff] 1 0x01020304 = Some buffer' /\
    Spi.read_u32_le buffer' 1 = Some 0x01020304 /\
    read_byte buffer' 5 = Some xff.
Proof.
  destruct (write_u32_le_round_trip [x00; x00; x00; x00; x00; xff] 1 0x01020304)
    as (buffer' & Hrun & Hread & _ & Hout).
  - lia.
  - vm_compute. reflexivity.
  - lia.
  - exists buffer'. split; [exact Hrun|]. split; [exact Hread|].
    rewrite Hout; [reflexivity|lia|lia].
Defined.

Lemma read_u32_le_agree offset offset' (buffer buffer' : list byte) :
  agree_outside offset buffer buffer' ->
  0 <= offset' ->
  offset' + 4 <= offset \/ offset + 4 <= offset' ->
  Spi.read_u32_le buffer' offset' = Spi.read_u32_le buffer offset'.
Proof.
  intros [_ Hout] H0 Hdisj. unfold Spi.read_u32_le.
  by rewrite !Hout by lia.
Qed.

(** X23.  [update_stats_buffer] lays the statistics block out in the first 40
    bytes of the transmit buffer: the magic "LGS1", then [millis()] and the
    eight counters as consecutive 32-bit little-endian fields, each of which
    reads back as the value written (no field clobbers another); bytes from
    offset 40 on are left as they were. *)
Theorem stats_block_layout (now : Z) (st : Spi.stats) (buffer : list byte) :
  0 <= now < 2 ^ 32 ->
  spi_stats_in_range st ->
  40 <= Z.of_nat (length buffer) ->
  exists buffer',
    Spi.update_stats_buffer now st buffer = Some buffer' /\
    length buffer' = length buffer /\
    take 4 buffer' = [x4c; x47; x53; x31] /\
    Spi.read_u32_le buffer' 4 = Some now /\
    Spi.read_u32_le buffer' 8 = Some (Spi.frames_rendered st) /\
    Spi.read_u32_le buffer' 12 = Some (Spi.set_all_commands_received st) /\
    Spi.read_u32_le buffer' 16 = Some (Spi.packets_received st) /\
    Spi.read_u32_le buffer' 20 = Some (Spi.zero_payload_packets st) /\
    Spi.read_u32_le buffer' 24 = Some (Spi.last_show_duration st) /\
    Spi.read_u32_le buffer' 28 = Some (Spi.total_bytes_received st) /\
    Spi.read_u32_le buffer' 32 = Some (Spi.active_strips st) /\
    Spi.read_u32_le buffer' 36 = Some (Spi.leds_per_strip st) /\
    (forall i, 40 <= i -> read_byte buffer' i = read_byte buffer i).
Proof.
  intros Hnow Hst Hlen. unfold spi_stats_in_range in Hst.
  repeat match goal with
         | H : Forall _ (_ :: _) |- _ => inversion_clear H
         end.
  cbv beta in *.
  unfold Spi.update_stats_buffer.
  rewrite spi_write_byte_spec by lia. cbn [mbind option_bind].
  rewrite spi_write_byte_spec by (rewrite !length_insert; lia).
  cbn [mbind option_bind].
  rewrite spi_write_byte_spec by (rewrite !length_insert; lia).
  cbn [mbind option_bind].
  rewrite spi_write_byte_spec by (rewrite !length_insert; lia).
  cbn [mbind option_bind].
  set (m := <[Z.to_nat 3 := x31]> _).
  assert (Hm : length m = length buffer) by (subst m; by rewrite !length_insert).
  assert (Hmagic : take 4 m = [x4c; x47; x53; x31]).
  { subst m. destruct buffer as [|a0 [|a1 [|a2 [|a3 tl]]]];
      cbn [length] in Hlen; try lia. reflexivity. }
  assert (Hmrest : forall i, 4 <= i -> read_byte m i = read_byte buffer i).
  { intros i Hi. subst m. by rewrite !read_byte_insert_other by lia. }
  destruct (write_u32_le_field m 4 now) as (b1 & Hb1 & Hr1 & Hl1 & Ho1);
    [lia|lia|done|]. rewrite Hb1. cbn [mbind option_bind].
  destruct (write_u32_le_field b1 8 (Spi.frames_rendered st))
    as (b2 & Hb2 & Hr2 & Hl2 & Ho2); [lia|lia|done|].
  rewrite Hb2. cbn [mbind option_bind].
  destruct (write_u32_le_field b2 12 (Spi.set_all_commands_received st))
    as (b3 & Hb3 & Hr3 & Hl3 & Ho3); [lia|lia|done|].
  rewrite Hb3. cbn [mbind option_bind].
  destruct (write_u32_le_field b3 16 (Spi.packets_received st))
    as (b4 & Hb4 & Hr4 & Hl4 & Ho4); [lia|lia|done|].
  rewrite Hb4. cbn [mbind option_bind].
  destruct (write_u32_le_field b4 20 (Spi.zero_payload_packets st))
    as (b5 & Hb5 & Hr5 & Hl5 & Ho5); [lia|lia|done|].
  rewrite Hb5. cbn [mbind option_bind].
  destruct (write_u32_le_field b5 24 (Spi.last_show_duration st))
    as (b6 & Hb6 & Hr6 & Hl6 & Ho6); [lia|lia|done|].
  rewrite Hb6. cbn [mbind option_bind].
  destruct (write_u32_le_field b6 28 (Spi.total_bytes_received st))
    as (b7 & Hb7 & Hr7 & Hl7 & Ho7); [lia|lia|done|].
  rewrite Hb7. cbn [mbind option_bind].
  destruct (write_u32_le_field b7 32 (Spi.active_strips st))
    as (b8 & Hb8 & Hr8 & Hl8 & Ho8); [lia|lia|done|].
  rewrite Hb8. cbn [mbind option_bind].
  destruct (write_u32_le_field b8 36 (Spi.leds_per_strip st))
    as (b9 & Hb9 & Hr9 & Hl9 & Ho9); [lia|lia|done|].
  rewrite Hb9.
  assert (A1 : agree_outside 4 m b1) by done.
  assert (A2 : agree_outside 8 b1 b2) by done.
  assert (A3 : agree_outside 12 b2 b3) by done.
  assert (A4 : agree_outside 16 b3 b4) by done.
  assert (A5 : agree_outside 20 b4 b5) by done.
  assert (A6 : agree_outside 24 b5 b6) by done.
  assert (A7 : agree_outside 28 b6 b7) by done.
  assert (A8 : agree_outside 32 b7 b8) by done.
  assert (A9 : agree_outside 36 b8 b9) by done.
  exists b9. split; [reflexivity|]. split; [lia|]. split.
  { rewrite <- Hmagic. apply list_eq. intros n.
    destruct (decide (n < 4)%nat) as [Hn|Hn].
    - rewrite !lookup_take_lt by done.
      pose proof (Ho9 (Z.of_nat n) ltac:(lia) ltac:(lia)) as E9.
      pose proof (Ho8 (Z.of_nat n) ltac:(lia) ltac:(lia)) as E8.
      pose proof (Ho7 (Z.of_nat n) ltac:(lia) ltac:(lia)) as E7.
      pose proof (Ho6 (Z.of_nat n) ltac:(lia) ltac:(lia)) as E6.
      pose proof (Ho5 (Z.of_nat n) ltac:(lia) ltac:(lia)) as E5.
      pose proof (Ho4 (Z.of_nat n) ltac:(lia) ltac:(lia)) as E4.
      pose proof (Ho3 (Z.of_nat n) ltac:(lia) ltac:(lia)) as E3.
      pose proof (Ho2 (Z.of_nat n) ltac:(lia) ltac:(lia)) as E2.
      pose proof (Ho1 (Z.of_nat n) ltac:(lia) ltac:(lia)) as E1.
      unfold read_byte in *.
      destruct (Z.leb_spec 0 (Z.of_nat n)); [|lia].
      rewrite Nat2Z.id in *. congruence.
    - rewrite !lookup_take_ge by lia. done. }
  split. { by rewrite (read_u32_le_agree _ _ _ _ A9),
             (read_u32_le_agree _ _ _ _ A8), (read_u32_le_agree _ _ _ _ A7),
             (read_u32_le_agree _ _ _ _ A6), (read_u32_le_agree _ _ _ _ A5),
             (read_u32_le_agree _ _ _ _ A4), (read_u32_le_agree _ _ _ _ A3),
             (read_u32_le_agree _ _ _ _ A2) by lia. }
  split. { by rewrite (read_u32_le_agree _ _ _ _ A9),
             (read_u32_le_agree _ _ _ _ A8), (read_u32_le_agree _ _ _ _ A7),
             (read_u32_le_agree _ _ _ _ A6), (read_u32_le_agree _ _ _ _ A5),
             (read_u32_le_agree _ _ _ _ A4), (read_u32_le_agree _ _ _ _ A3)
             by lia. }
  split. { by rewrite (read_u32_le_agree _ _ _ _ A9),
             (read_u32_le_agree _ _ _ _ A8), (read_u32_le_agree _ _ _ _ A7),
             (read_u32_le_agree _ _ _ _ A6), (read_u32_le_agree _ _ _ _ A5),
             (read_u32_le_agree _ _ _ _ A4) by lia. }
  split. { by rewrite (read_u32_le_agree _ _ _ _ A9),
             (read_u32_le_agree _ _ _ _ A8), (read_u32_le_agree _ _ _ _ A7),
             (read_u32_le_agree _ _ _ _ A6), (read_u32_le_agree _ _ _ _ A5)
             by lia. }
  split. { by rewrite (read_u32_le_agree _ _ _ _ A9),
             (read_u32_le_agree _ _ _ _ A8), (read_u32_le_agree _ _ _ _ A7),
             (read_u32_le_agree _ _ _ _ A6) by lia. }
  split. { by rewrite (read_u32_le_agree _ _ _ _ A9),
             (read_u32_le_agree _ _ _ _ A8), (read_u32_le_agree _ _ _ _ A7)
             by lia. }
  split. { by rewrite (read_u32_le_agree _ _ _ _ A9),
             (read_u32_le_agree _ _ _ _ A8) by lia. }
  split. { by rewrite (read_u32_le_agree _ _ _ _ A9) by lia. }
  split; [done|].
  intros i Hi.
  rewrite Ho9, Ho8, Ho7, Ho6, Ho5, Ho4, Ho3, Ho2, Ho1 by lia.
  apply Hmrest. lia.
Qed.

Lemma stats_block_layout_witness :
  exists buffer',
    Spi.update_stats_buffer 1000 (Spi.mkStats 3 4 5 1 250 10083 7 140)
      (replicate 44 xff) = Some buffer' /\
    take 4 buffer' = [x4c; x47; x53; x31] /\
    Spi.read_u32_le buffer' 28 = Some 10083 /\
    Spi.read_u32_le buffer' 36 = Some 140 /\
    read_byte buffer' 40 = Some xff.
Proof.
  destruct (stats_block_layout 1000 (Spi.mkStats 3 4 5 1 250 10083 7 140)
              (replicate 44 xff))
    as (b & Hrun & _ & Hmagic & _ & _ & _ & _ & _ & _ & Hbytes & _ & Hlen & Hrest).
  - lia.
  - unfold spi_stats_in_range. cbn. repeat constructor; lia.
  - vm_compute. discriminate.
  - exists b. split; [exact Hrun|]. split; [exact Hmagic|].
    split; [exact Hbytes|]. split; [exact Hlen|].
    rewrite Hrest by lia. reflexivity.
Defined.

(** ** The zero-payload scan *)

Lemma wrap8_lor a b :
  0 <= a < 256 -> 0 <= b < 256 -> wrap8 (Z.lor a b) = Z.lor a b.
Proof.
  intros Ha Hb. unfold wrap8.
  rewrite <- (Z.land_ones _ 8) by lia.
  rewrite Z.land_lor_distr_l, !Z.land_ones by lia.
  by rewrite !Z.mod_small by lia.
Qed.

Lemma payload_or_fold (l : list byte) : forall acc,
  0 <= acc < 256 ->
  0 <= fold_left (fun acc b => wrap8 (Z.lor acc (byte_to_Z b))) l acc < 256 /\
  (fold_left (fun acc b => wrap8 (Z.lor acc (byte_to_Z b))) l acc = 0 <->
   acc = 0 /\ Forall (fun b => b = x00) l).
Proof.
  induction l as [|b l IH]; intros acc Hacc.
  - cbn [fold_left]. split; [done|]. split; [by intros ->|by intros [-> _]].
  - pose proof (byte_to_Z_range b) as Hb.
    assert (Hstep : 0 <= wrap8 (Z.lor acc (byte_to_Z b)) < 256)
      by (apply Z.mod_pos_bound; lia).
    cbn [fold_left]. destruct (IH _ Hstep) as [Hrange Hiff].
    split; [done|]. rewrite Hiff, wrap8_lor, Z.lor_eq_0_iff by done.
    split.
    + intros [[-> Hz] Hall]. split; [done|]. constructor; [|done].
      by apply byte_to_Z_inj.
    + intros [-> Hall]. inversion Hall as [|? ? -> Hall']. done.
Qed.

(** X24.  The SPI firmware's scan counts a packet as zero-payload exactly when it
    has at least one byte after the opcode and all of those bytes are zero.
    A bare one-byte command is not counted; a SET_ALL frame that paints
    every pixel black is. *)
Theorem zero_payload_counted_iff (data : list byte) (zero_payload_packets : Z) :
  (1 < Z.of_nat (length data) /\ Forall (fun b => b = x00) (tail data) ->
     Spi.count_zero_payload data zero_payload_packets
       = wrap32 (zero_payload_packets + 1)) /\
  (~ (1 < Z.of_nat (length data) /\ Forall (fun b => b = x00) (tail data)) ->
     Spi.count_zero_payload data zero_payload_packets = zero_payload_packets).
Proof.
  unfold Spi.count_zero_payload, Spi.payload_or.
  destruct (payload_or_fold (tail data) 0 ltac:(lia)) as [_ Hiff].
  destruct (Z.ltb_spec 1 (Z.of_nat (length data))) as [Hlen|Hlen].
  2: { split; [intros [? _]; lia|done]. }
  destruct (Z.eqb_spec
              (fold_left (fun acc b => wrap8 (Z.lor acc (byte_to_Z b)))
                 (tail data) 0) 0) as [Hz|Hnz].
  - split; [done|]. intros Hno. exfalso. apply Hno. split; [done|].
    by apply Hiff.
  - split; [|done]. intros [_ Hall]. exfalso. apply Hnz. by apply Hiff.
Qed.

Lemma zero_payload_counted_iff_witness :
  Spi.count_zero_payload [x06; x00; x00; x00] 7 = 8 /\
  Spi.count_zero_payload [xff] 7 = 7.
Proof.
  split.
  - apply (zero_payload_counted_iff [x06; x00; x00; x00] 7).
    split; [vm_compute; reflexivity|]. repeat constructor.
  - apply (zero_payload_counted_iff [xff] 7).
    intros [Hlen _]. vm_compute in Hlen. discriminate.
Defined.

(** * Layout and transport together *)

(** X25.  The mapper reaches every slot of the active region: the slot at
    offset [r] of strip [q] is the image of the logical index
    [q * leds_per_strip + r].  With injectivity, [logical_to_physical] is a
    bijection between the logical indices and the active region. *)
Theorem mapping_onto_active_region (s : engine) (p : Z) :
  legal_config s ->
  in_active_region s p ->
  0 <= (p / MAX_LEDS_PER_STRIP) * leds_per_strip s + p mod MAX_LEDS_PER_STRIP
    < total_leds s /\
  logical_to_physical s
    ((p / MAX_LEDS_PER_STRIP) * leds_per_strip s + p mod MAX_LEDS_PER_STRIP) = p.
Proof.
  intros Hcfg Hact.
  destruct (active_slot_has_logical s p Hcfg Hact) as (i & Hi & Hmap).
  destruct (logical_to_physical_active s Hcfg i Hi) as (_ & Hq & Hr).
  pose proof Hcfg as (Ha & Hl & Ht).
  pose proof (quotient_below_active s Hcfg i Hi) as Hqi.
  pose proof (Z.mod_pos_bound i (leds_per_strip s) ltac:(lia)) as Hri.
  assert (Hp : p = (i / leds_per_strip s) * MAX_LEDS_PER_STRIP
                   + i mod leds_per_strip s)
    by (by rewrite <- Hmap, (logical_to_physical_in_range s Hcfg i Hi)).
  assert (Hdiv : p / MAX_LEDS_PER_STRIP = i / leds_per_strip s)
    by (rewrite Hp; apply strip_major_div; lia).
  assert (Hmod : p mod MAX_LEDS_PER_STRIP = i mod leds_per_strip s)
    by (rewrite Hp; apply strip_major_mod; lia).
  rewrite Hdiv, Hmod.
  assert (Hi' : i / leds_per_strip s * leds_per_strip s + i mod leds_per_strip s = i)
    by (pose proof (Z.div_mod i (leds_per_strip s) ltac:(lia)); lia).
  rewrite Hi'. done.
Qed.

Lemma mapping_onto_active_region_witness :
  logical_to_physical initial_engine 279 = 639.
Proof.
  apply (mapping_onto_active_region initial_engine 639).
  - apply initial_engine_invariant.
  - vm_compute. repeat split; discriminate || reflexivity.
Defined.

(** X26.  The packet buffer is large enough for every legal layout: a full
    SET_ALL frame of [1 + total_leds * 3] bytes never exceeds
    MAX_PACKET_SIZE, so, framed with its length, it passes [loop] and
    reaches [process_command] whole, whatever follows it in the queue. *)
Theorem full_frame_fits_transport (s : engine) (data rest : list byte) :
  legal_config s ->
  Z.of_nat (length data) = 1 + total_leds s * 3 ->
  Z.of_nat (length data) <= MAX_PACKET_SIZE /\
  loop s (frame_payload data ++ rest)
    = (s' ← process_command s data; Some (s', rest)).
Proof.
  intros (Ha & Hl & Ht) Hlen.
  assert (Hfit : Z.of_nat (length data) <= MAX_PACKET_SIZE).
  { change MAX_PACKET_SIZE with 12001.
    rewrite MAX_STRIPS_eq in Ha. rewrite MAX_LEDS_PER_STRIP_eq in Hl. nia. }
  split; [done|]. unfold frame_payload.
  apply loop_reads_packet_then. by apply frame_payload_well_formed.
Qed.

Lemma full_frame_fits_transport_witness :
  loop initial_engine (frame_payload red_frame ++ [xaa])
    = Some (after_red_frame, [xaa]).
Proof.
  destruct (full_frame_fits_transport initial_engine red_frame [xaa])
    as [_ Hrun].
  - apply initial_engine_invariant.
  - vm_compute. reflexivity.
  - rewrite Hrun.
    replace (process_command initial_engine red_frame) with (Some after_red_frame)
      by (vm_compute; reflexivity).
    reflexivity.
Defined.
